(** * The boot decision of [aboot_init] (app/aboot/aboot.c)

    A shallow embedding of [aboot_init]: the function is a straight line of
    calls into collaborators (key driver, reset-reason register, partition
    table, device-info storage, kernel loader) joined by three labels
    ([normal_boot], [retry_boot], [fastboot]).  The collaborators' answers
    are the fields of an environment record, the globals the function reads
    and writes are a state record, and every call that acts on the outside
    world is logged in a trace, so that "is consulted", "is called" and
    "before" are statements about that trace.  Left out: [dprintf]
    logging, the page-size globals and the panel and serial-number
    buffers, which no decision reads.  The keys are sampled once: a key is
    down or up for the whole of the function. *)

From Stdlib Require Import ZArith List Bool String Lia Arith.
From Equations Require Import Equations.
From Equations.Prop Require Import Logic.
Import ListNotations.

Local Open Scope Z_scope.
Local Open Scope bool_scope.

(** ** Compile-time configuration: the preprocessor symbols of [aboot_init] *)

Record Config : Type := mkConfig {
  WDOG_SUPPORT : bool;
  ABOOT_STANDALONE : bool;
  WITH_LK2ND : bool;
  DISPLAY_SPLASH_SCREEN : bool;
  NO_ALARM_DISPLAY : bool;
  DISPLAY_HDMI_PRIMARY : bool;
  ENABLE_WBC : bool;
  NO_KEYPAD_DRIVER : bool;
  USE_PON_REBOOT_REG : bool;
  VERIFIED_BOOT : bool;
  VERIFIED_BOOT_2 : bool;
  ENABLE_VB_ATTEST : bool;
  LK2ND_FORCE_FASTBOOT : bool;
  WITH_LK2ND_BOOT : bool;
  TZ_TAMPER_FUSE : bool;
  USE_PCOM_SECBOOT : bool;
  FBCON_DISPLAY_MSG : bool;
  WITH_LK2ND_DEVICE_MENU : bool;
  VB_M : Z;
  MEMBASE : Z;
  MEMSIZE : Z;
  DISPLAY_PANEL_HDMI : string;
  (* sizeof(device.display_panel) *)
  display_panel_size : nat
}.

(** ** Enumerations *)

(** The key ids [aboot_init] asks [keys_get_state] about (the macros are
    not under src/). *)
Inductive Key : Type := KEY_VOLUMEUP | KEY_VOLUMEDOWN | KEY_HOME | KEY_BACK.

(** Modelled from the spec: the reset-reason codes are macros that are not
    under src/; the spec calls the register value "a hardware reset-reason
    code (small closed enum)".  The constructors are the names the source
    compares [reboot_mode] with; [NORMAL_MODE] stands for every other
    value. *)
Inductive reboot_reason : Type :=
| RECOVERY_MODE
| FASTBOOT_MODE
| ALARM_BOOT
| DM_VERITY_ENFORCING
| DM_VERITY_LOGGING
| DM_VERITY_EIO
| DM_VERITY_KEYSCLEAR
| NORMAL_MODE.

Definition reason_eqb (a b : reboot_reason) : bool :=
  match a, b with
  | RECOVERY_MODE, RECOVERY_MODE
  | FASTBOOT_MODE, FASTBOOT_MODE
  | ALARM_BOOT, ALARM_BOOT
  | DM_VERITY_ENFORCING, DM_VERITY_ENFORCING
  | DM_VERITY_LOGGING, DM_VERITY_LOGGING
  | DM_VERITY_EIO, DM_VERITY_EIO
  | DM_VERITY_KEYSCLEAR, DM_VERITY_KEYSCLEAR
  | NORMAL_MODE, NORMAL_MODE => true
  | _, _ => false
  end.

(** The argument of [reboot_device]. *)
Inductive reboot_target : Type := EMERGENCY_DLOAD.

(** Modelled from the spec: the error codes [boot_linux_from_mmc] returns are
    macros that are not under src/; the spec lists the closed set
    InvalidPageSize, DeviceTreeParseError, ImageAddressOverlap,
    InvalidBootMagic, OtherFailure.  [ERR_OTHER] carries the raw return
    value of every other code. *)
Inductive boot_err : Type :=
| ERR_INVALID_PAGE_SIZE
| ERR_DT_PARSE
| ERR_ABOOT_ADDR_OVERLAP
| ERR_INVALID_BOOT_MAGIC
| ERR_OTHER (code : Z).

(** What one call of [boot_linux_from_mmc] does: it starts the kernel and
    never comes back, or it returns an error code. *)
Inductive mmc_result : Type :=
| KernelRuns
| Returns (err : boot_err).

(** ** Device state *)

Record device_info : Type := mkDevice {
  is_unlocked : bool;
  is_tampered : bool;
  verity_mode : Z;
  display_panel : string
}.

Definition set_is_unlocked (b : bool) (d : device_info) : device_info :=
  mkDevice b (is_tampered d) (verity_mode d) (display_panel d).

Definition set_verity_mode (v : Z) (d : device_info) : device_info :=
  mkDevice (is_unlocked d) (is_tampered d) v (display_panel d).

Definition set_display_panel (p : string) (d : device_info) : device_info :=
  mkDevice (is_unlocked d) (is_tampered d) (verity_mode d) p.

(** ** Slot table *)

(** Modelled from the spec: the macro INVALID is not under src/; it is the
    "none" of findActive and findBootable, the value of [boot_slot] when
    there is no slot, here an [int] that is no slot index. *)
Definition INVALID : Z := -1.

Module SlotTable.

(** Modelled from the spec: the partition-table code
    ([partition_find_active_slot], [partition_mark_active_slot],
    [partition_find_boot_slot], [partition_deactivate_slot]) is not under
    src/.  The spec gives SlotInfo as [{ index; active; bootable }] and
    the contracts of section 4.3.  A slot id is the [int] of the source,
    [INVALID] is "none", and the table is kept in priority order. *)
Record SlotInfo : Type := mkSlot {
  index : nat;
  active : bool;
  bootable : bool
}.

Definition t : Type := list SlotInfo.

Definition has_index (slot : Z) (e : SlotInfo) : bool :=
  Z.of_nat (index e) =? slot.

(** Modelled from the spec: "returns the currently active slot, or none if
    the slot table is absent/corrupt". *)
Definition find_active_slot (tbl : t) : Z :=
  match find active tbl with
  | Some e => Z.of_nat (index e)
  | None => INVALID
  end.

(** Modelled from the spec: "sets exactly one slot active and implicitly
    clears any previously active slot". *)
Definition mark_active_slot (slot : Z) (tbl : t) : t :=
  map (fun e => mkSlot (index e) (has_index slot e) (bootable e)) tbl.

(** Modelled from the spec: "returns the highest-priority slot still marked
    bootable ...; none if all slots are exhausted". *)
Definition find_boot_slot (tbl : t) : Z :=
  match find bootable tbl with
  | Some e => Z.of_nat (index e)
  | None => INVALID
  end.

(** Modelled from the spec: "idempotent, marks a slot permanently
    non-bootable". *)
Definition deactivate_slot (slot : Z) (tbl : t) : t :=
  map (fun e => if has_index slot e
                then mkSlot (index e) (active e) false
                else e) tbl.

Definition is_bootable (slot : Z) (tbl : t) : bool :=
  existsb (fun e => has_index slot e && bootable e) tbl.

Definition bootable_count (tbl : t) : nat :=
  List.length (filter bootable tbl).

End SlotTable.

(** ** Trace of calls into the outside world *)

Inductive Event : Type :=
| Ev_msm_wdog_init
| Ev_read_device_info
| Ev_read_allow_oem_unlock
| Ev_partition_find_active_slot
| Ev_partition_mark_active_slot (slot : Z)
| Ev_lk2nd_init
| Ev_pm_app_display_shutdown_in_prgs
| Ev_target_display_init (panel : string)
| Ev_display_image_on_screen
| Ev_target_serialno
| Ev_is_user_force_reset
| Ev_reboot_device (target : reboot_target)
| Ev_check_reboot_mode
| Ev_check_hard_reboot_mode
| Ev_write_device_info (dev : device_info)
| Ev_send_delete_keys_to_tz
| Ev_lk2nd_boot
| Ev_emmc_recovery_init
| Ev_recovery_init
| Ev_set_tamper_fuse_cmd
| Ev_set_tamper_flag (tampered : bool)
| Ev_partition_find_boot_slot
| Ev_boot_linux_from_mmc (slot : Z)
| Ev_partition_deactivate_slot (slot : Z)
| Ev_boot_linux_from_flash
| Ev_fastboot_register_commands
| Ev_aboot_fastboot_register_commands
| Ev_partition_dump
| Ev_fastboot_init (salt_offset : bool)
| Ev_display_fastboot_menu.

(** ** The environment: what the collaborators answer during one boot *)

Record Env : Type := mkEnv {
  target_is_emmc_boot : bool;
  partition_multislot_is_supported : bool;
  check_alarm_boot : bool;
  (* [pm_app_display_shutdown_in_prgs]: how many polls answer "in progress"
     before the first one that answers "done"; [None] when none ever does *)
  display_shutdown_polls : option nat;
  pm_appsbl_display_init_done : bool;
  (* [sn_buf[0]] is non-zero when the serial number is asked for *)
  sn_buf_filled : bool;
  is_user_force_reset : bool;
  keys_get_state : Key -> bool;
  (* [reboot_device] comes back only when the reset request failed *)
  reboot_device_returns : bool;
  fastboot_trigger : bool;
  reboot_mode_reg : reboot_reason;
  hard_reboot_mode_reg : reboot_reason;
  target_get_vb_version : Z;
  write_device_info_ok : bool;
  send_delete_keys_to_tz_ret : Z;
  lk2nd_boot_returns : bool;
  target_use_signed_kernel : bool;
  (* the result of the k-th call of [boot_linux_from_mmc] in this boot *)
  boot_linux_from_mmc_ret : nat -> mmc_result;
  boot_linux_from_flash_returns : bool
}.

(** ** The globals [aboot_init] works on *)

Record State : Type := mkState {
  device : device_info;            (* the global [device] *)
  persisted : device_info;         (* the device-info record in storage *)
  slots : SlotTable.t;             (* slot metadata in storage *)
  boot_into_fastboot : bool;
  boot_into_recovery : bool;
  boot_reason_alarm : bool;
  mmc_calls : nat;                 (* calls of [boot_linux_from_mmc] so far *)
  trace : list Event
}.

Definition set_device (d : device_info) (s : State) : State :=
  mkState d (persisted s) (slots s) (boot_into_fastboot s)
          (boot_into_recovery s) (boot_reason_alarm s)
          (mmc_calls s) (trace s).

Definition set_persisted (d : device_info) (s : State) : State :=
  mkState (device s) d (slots s) (boot_into_fastboot s)
          (boot_into_recovery s) (boot_reason_alarm s)
          (mmc_calls s) (trace s).

Definition set_slots (t : SlotTable.t) (s : State) : State :=
  mkState (device s) (persisted s) t (boot_into_fastboot s)
          (boot_into_recovery s) (boot_reason_alarm s)
          (mmc_calls s) (trace s).

Definition set_boot_into_fastboot (b : bool) (s : State) : State :=
  mkState (device s) (persisted s) (slots s) b
          (boot_into_recovery s) (boot_reason_alarm s)
          (mmc_calls s) (trace s).

Definition set_boot_into_recovery (b : bool) (s : State) : State :=
  mkState (device s) (persisted s) (slots s) (boot_into_fastboot s)
          b (boot_reason_alarm s)
          (mmc_calls s) (trace s).

Definition set_boot_reason_alarm (b : bool) (s : State) : State :=
  mkState (device s) (persisted s) (slots s) (boot_into_fastboot s)
          (boot_into_recovery s) b
          (mmc_calls s) (trace s).

Definition set_mmc_calls (n : nat) (s : State) : State :=
  mkState (device s) (persisted s) (slots s) (boot_into_fastboot s)
          (boot_into_recovery s) (boot_reason_alarm s)
          n (trace s).

Definition set_trace (t : list Event) (s : State) : State :=
  mkState (device s) (persisted s) (slots s) (boot_into_fastboot s)
          (boot_into_recovery s) (boot_reason_alarm s)
          (mmc_calls s) t.

(** ** Control: a state monad with a way out

    A step either goes on to the next statement ([Next]) or leaves
    [aboot_init] for good ([Stop]): the kernel was started, the device was
    reset, the boot halted or waits for ever. *)

Inductive Outcome : Type :=
| KernelStarted (recovery : bool)  (* [boot_linux_from_*] did not return *)
| Lk2ndStarted                     (* [lk2nd_boot] did not return *)
| DloadReset                       (* [reboot_device] did not return *)
| Halted                           (* a failed ASSERT *)
| Hung.                            (* the display wait never ends *)

Inductive Result (A : Type) : Type :=
| Next (a : A) (s : State)
| Stop (o : Outcome) (s : State).
Arguments Next {A} a s.
Arguments Stop {A} o s.

Definition M (A : Type) : Type := State -> Result A.

Definition ret {A} (a : A) : M A := fun s => Next a s.

Definition bind {A B} (m : M A) (k : A -> M B) : M B :=
  fun s => match m s with
           | Next a s' => k a s'
           | Stop o s' => Stop o s'
           end.

Declare Scope boot_scope.
Delimit Scope boot_scope with boot.
Notation "x <- m ;; k" := (bind m (fun x => k))
  (at level 61, m at next level, right associativity) : boot_scope.
Notation "m ;; k" := (bind m (fun _ => k))
  (at level 61, right associativity) : boot_scope.
Local Open Scope boot_scope.

Definition stop {A} (o : Outcome) : M A := fun s => Stop o s.
Definition gets {A} (f : State -> A) : M A := fun s => Next (f s) s.
Definition modify (f : State -> State) : M unit := fun s => Next tt (f s).
Definition emit (e : Event) : M unit :=
  modify (fun s => set_trace (trace s ++ [e]) s).
Definition when (c : bool) (m : M unit) : M unit :=
  if c then m else ret tt.

Definition final_state {A} (r : Result A) : State :=
  match r with Next _ s => s | Stop _ s => s end.

(** ** The collaborators, as steps *)

(** Modelled from the spec: the ASSERT macro is not under src/; a failed
    assertion is the "system halts immediately" of sections 4.2 and 7. *)
Definition ASSERT (c : bool) : M unit :=
  if c then ret tt else stop Halted.

(** The memory layout check of line 38 guards against wrap-around of
    MEMBASE + MEMSIZE (the macros are not under src/); the sum is taken in
    32-bit unsigned arithmetic. *)
Definition u32 (z : Z) : Z := z mod 2 ^ 32.

(** Modelled from the spec: [read_device_info] is not under src/;
    "DeviceState is ... loaded once at boot start". *)
Definition read_device_info : M unit :=
  emit Ev_read_device_info ;;
  modify (fun s => set_device (persisted s) s).

(** Modelled from the spec: [write_device_info] is not under src/; it returns
    nothing to its caller, and "all non-volatile writes ... are synchronous
    and must complete (or the whole boot halts) before the next decision
    step proceeds". *)
Definition write_device_info (env : Env) : M unit :=
  dev <- gets device ;;
  emit (Ev_write_device_info dev) ;;
  if write_device_info_ok env
  then modify (set_persisted dev)
  else stop Halted.

Definition partition_find_active_slot : M Z :=
  emit Ev_partition_find_active_slot ;;
  gets (fun s => SlotTable.find_active_slot (slots s)).

Definition partition_mark_active_slot (slot : Z) : M unit :=
  emit (Ev_partition_mark_active_slot slot) ;;
  modify (fun s => set_slots (SlotTable.mark_active_slot slot (slots s)) s).

Definition partition_find_boot_slot : M Z :=
  emit Ev_partition_find_boot_slot ;;
  gets (fun s => SlotTable.find_boot_slot (slots s)).

Definition partition_deactivate_slot (slot : Z) : M unit :=
  emit (Ev_partition_deactivate_slot slot) ;;
  modify (fun s => set_slots (SlotTable.deactivate_slot slot (slots s)) s).

(** [reboot_device] is not under src/: the source goes on after the call
    only to report "Failed to reboot into dload mode", so a request that
    works does not return. *)
Definition reboot_device (env : Env) (target : reboot_target) : M unit :=
  emit (Ev_reboot_device target) ;;
  if reboot_device_returns env then ret tt else stop DloadReset.

Definition send_delete_keys_to_tz (env : Env) : M Z :=
  emit Ev_send_delete_keys_to_tz ;;
  ret (send_delete_keys_to_tz_ret env).

(** [lk2nd_boot] is not under src/; whether it starts a system of its own
    or comes back is left to the environment. *)
Definition lk2nd_boot (env : Env) : M unit :=
  emit Ev_lk2nd_boot ;;
  if lk2nd_boot_returns env then ret tt else stop Lk2ndStarted.

(** Modelled from the spec: [boot_linux_from_mmc] is not under src/; it
    returns "Success (never returns - control leaves the bootloader), or a
    failure kind", and what it starts is the recovery image when
    [boot_into_recovery] is set.  The event carries the current value of
    [boot_slot]. *)
Definition boot_linux_from_mmc (env : Env) (boot_slot : Z) : M boot_err :=
  emit (Ev_boot_linux_from_mmc boot_slot) ;;
  k <- gets mmc_calls ;;
  modify (set_mmc_calls (S k)) ;;
  match boot_linux_from_mmc_ret env k with
  | KernelRuns => rec <- gets boot_into_recovery ;; stop (KernelStarted rec)
  | Returns err => ret err
  end.

(** [boot_linux_from_flash] is not under src/ either; it comes back only
    when the boot failed (line 280). *)
Definition boot_linux_from_flash (env : Env) : M unit :=
  emit Ev_boot_linux_from_flash ;;
  if boot_linux_from_flash_returns env
  then ret tt
  else rec <- gets boot_into_recovery ;; stop (KernelStarted rec).

(** [while (pm_app_display_shutdown_in_prgs()) ;] *)
Definition wait_display_shutdown (env : Env) : M unit :=
  match display_shutdown_polls env with
  | Some n =>
      modify (fun s =>
        set_trace
          (trace s ++ repeat Ev_pm_app_display_shutdown_in_prgs (S n)) s)
  | None => stop Hung
  end.

(** [strlcpy(dst, src, size)] on an empty destination. *)
Definition strlcpy (dst src : string) (size : nat) : string :=
  match size with
  | O => dst
  | S n => substring 0 n src
  end.

(** ** [aboot_init], block by block *)

Section Aboot.

Variable cfg : Config.
Variable env : Env.

(** Lines 17-47: watchdog, memory layout check, device info.  The
    page-size globals set in lines 23-36 are read only by the kernel
    loader and are left out. *)
Definition init_globals : M unit :=
  when (WDOG_SUPPORT cfg) (emit Ev_msm_wdog_init) ;;
  ASSERT (MEMBASE cfg <? u32 (MEMBASE cfg + MEMSIZE cfg)) ;;
  (if negb (ABOOT_STANDALONE cfg)
   then read_device_info ;; emit Ev_read_allow_oem_unlock
   else modify (fun s => set_device (set_is_unlocked true (device s)) s)).

(** Lines 51-66: multi-slot detection; the value is [boot_slot]. *)
Definition detect_active_slot : M Z :=
  if partition_multislot_is_supported env
  then
    boot_slot <- partition_find_active_slot ;;
    if boot_slot =? INVALID
    then modify (set_boot_into_fastboot true) ;; ret boot_slot
    else partition_mark_active_slot boot_slot ;; ret boot_slot
  else ret INVALID.

(** Lines 75-104: the splash screen. *)
Definition display_init : M unit :=
  when (DISPLAY_SPLASH_SCREEN cfg)
    (when (negb (NO_ALARM_DISPLAY cfg && check_alarm_boot env))
       (when (DISPLAY_HDMI_PRIMARY cfg)
          (panel <- gets (fun s => display_panel (device s)) ;;
           when (Nat.eqb (String.length panel) 0)
             (modify (fun s =>
                set_device
                  (set_display_panel
                     (strlcpy panel (DISPLAY_PANEL_HDMI cfg)
                              (display_panel_size cfg))
                     (device s)) s))) ;;
        panel <- gets (fun s => display_panel (device s)) ;;
        if ENABLE_WBC cfg
        then
          wait_display_shutdown env ;;
          if negb (pm_appsbl_display_init_done env)
          then emit (Ev_target_display_init panel)
          else emit Ev_display_image_on_screen
        else emit (Ev_target_display_init panel))).

(** Lines 68-113: lk2nd, splash screen, serial number. *)
Definition board_init : M unit :=
  when (WITH_LK2ND cfg) (emit Ev_lk2nd_init) ;;
  display_init ;;
  when (negb (WITH_LK2ND cfg) || negb (sn_buf_filled env))
    (emit Ev_target_serialno).

(** Lines 125-147: the key checks. *)
Definition check_keys : M unit :=
  when (keys_get_state env KEY_VOLUMEUP && keys_get_state env KEY_VOLUMEDOWN)
    (reboot_device env EMERGENCY_DLOAD ;;
     modify (set_boot_into_fastboot true)) ;;
  fb <- gets boot_into_fastboot ;;
  when (negb fb)
    (when (keys_get_state env KEY_VOLUMEUP)
       (modify (set_boot_into_recovery true)) ;;
     rec <- gets boot_into_recovery ;;
     when (negb rec &&
           (keys_get_state env KEY_HOME || keys_get_state env KEY_BACK
            || keys_get_state env KEY_VOLUMEDOWN))
       (modify (set_boot_into_fastboot true))) ;;
  when (NO_KEYPAD_DRIVER cfg)
    (when (fastboot_trigger env) (modify (set_boot_into_fastboot true))).

(** Lines 149-155: the reset-reason register; the value is
    [reboot_mode]. *)
Definition read_reboot_mode : M reboot_reason :=
  if USE_PON_REBOOT_REG cfg
  then emit Ev_check_hard_reboot_mode ;; ret (hard_reboot_mode_reg env)
  else emit Ev_check_reboot_mode ;; ret (reboot_mode_reg env).

(** The reason code that selects the logging mode (lines 179-183). *)
Definition logging_reason : reboot_reason :=
  if ENABLE_VB_ATTEST cfg then DM_VERITY_EIO else DM_VERITY_LOGGING.

(** Lines 157-196: the chain over [reboot_mode]. *)
Definition apply_reboot_mode (reboot_mode : reboot_reason) : M unit :=
  if reason_eqb reboot_mode RECOVERY_MODE
  then modify (set_boot_into_recovery true)
  else if reason_eqb reboot_mode FASTBOOT_MODE
  then modify (set_boot_into_fastboot true)
  else if reason_eqb reboot_mode ALARM_BOOT
  then modify (set_boot_reason_alarm true)
  else if (VERIFIED_BOOT cfg || VERIFIED_BOOT_2 cfg)
          && (VB_M cfg <=? target_get_vb_version env)
  then
    if reason_eqb reboot_mode DM_VERITY_ENFORCING
    then
      modify (fun s => set_device (set_verity_mode 1 (device s)) s) ;;
      write_device_info env
    else if reason_eqb reboot_mode logging_reason
    then
      modify (fun s => set_device (set_verity_mode 0 (device s)) s) ;;
      write_device_info env
    else if reason_eqb reboot_mode DM_VERITY_KEYSCLEAR
    then
      r <- send_delete_keys_to_tz env ;;
      when (negb (r =? 0)) (ASSERT false)
    else ret tt
  else ret tt.

(** Lines 125-196: everything between the forced-reset check and the
    force-fastboot flag. *)
Definition evaluate_signals : M unit :=
  check_keys ;;
  reboot_mode <- read_reboot_mode ;;
  apply_reboot_mode reboot_mode.

(** Lines 120-202.  [goto normal_boot] leaves the block at once. *)
Definition signal_and_policy : M unit :=
  emit Ev_is_user_force_reset ;;
  if is_user_force_reset env
  then ret tt
  else
    evaluate_signals ;;
    when (LK2ND_FORCE_FASTBOOT cfg) (modify (set_boot_into_fastboot true)).

(** Lines 219-232: the tamper signal of the signed-kernel eMMC path. *)
Definition signal_tamper : M unit :=
  when (target_use_signed_kernel env)
    (dev <- gets device ;;
     when (is_unlocked dev || is_tampered dev)
       (when (TZ_TAMPER_FUSE cfg) (emit Ev_set_tamper_fuse_cmd) ;;
        when (USE_PCOM_SECBOOT cfg)
          (emit (Ev_set_tamper_flag (is_tampered dev))))).

(** The error codes of the first four [case] labels of the switch. *)
Definition retryable (e : boot_err) : bool :=
  match e with
  | ERR_INVALID_PAGE_SIZE | ERR_DT_PARSE
  | ERR_ABOOT_ADDR_OVERLAP | ERR_INVALID_BOOT_MAGIC => true
  | ERR_OTHER _ => false
  end.

(** How one pass from the [retry_boot] label ends. *)
Inductive pass_end : Type :=
| GotoRetryBoot     (* [goto retry_boot] *)
| GotoFastboot      (* [goto fastboot] *)
| Break.            (* [break] out of the switch *)

(** Lines 246-267: the call of the loader and the switch on its error
    code. *)
Definition try_boot (boot_slot : Z) : M pass_end :=
  boot_err_type <- boot_linux_from_mmc env boot_slot ;;
  if retryable boot_err_type
  then
    if partition_multislot_is_supported env
    then partition_deactivate_slot boot_slot ;; ret GotoRetryBoot
    else ret Break
  else ret Break.

(** Lines 234-267: one pass from the [retry_boot] label.  Without
    multi-slot support [boot_slot] still has its initial value. *)
Definition boot_pass : M pass_end :=
  if partition_multislot_is_supported env
  then
    boot_slot <- partition_find_boot_slot ;;
    partition_mark_active_slot boot_slot ;;
    if boot_slot =? INVALID
    then ret GotoFastboot
    else try_boot boot_slot
  else try_boot INVALID.

End Aboot.

(** Lines 234-267: the loop over the [retry_boot] label.  Both [goto
    fastboot] and the fall out of the switch arrive at the [fastboot]
    label.  The loop ends because a pass that goes back to the label has
    deactivated the bootable slot it found. *)
Equations? retry_boot (env : Env) (s : State) : Result unit
  by wf (SlotTable.bootable_count (slots s)) lt :=
  retry_boot env s with inspect (boot_pass env s) := {
    | exist _ (Next GotoRetryBoot s') H => retry_boot env s'
    | exist _ (Next GotoFastboot s') _ => Next tt s'
    | exist _ (Next Break s') _ => Next tt s'
    | exist _ (Stop o s') _ => Stop o s' }.
Proof.
  clear retry_boot. revert H.
  unfold boot_pass, try_boot, boot_linux_from_mmc, partition_find_boot_slot,
    partition_mark_active_slot, partition_deactivate_slot,
    bind, emit, modify, gets, ret, stop.
  destruct (partition_multislot_is_supported env); simpl;
    [|destruct (boot_linux_from_mmc_ret env (mmc_calls s)) as [|err];
      [|destruct (retryable err)]; discriminate].
  destruct (SlotTable.find_boot_slot (slots s) =? INVALID) eqn:Hinv; simpl;
    [discriminate|].
  destruct (boot_linux_from_mmc_ret env (mmc_calls s)) as [|err]; simpl;
    [discriminate|].
  destruct (retryable err); simpl; [|discriminate].
  intros H. injection H as <-. simpl. apply Z.eqb_neq in Hinv.
  revert Hinv. generalize (slots s) as tbl. intros tbl.
  unfold SlotTable.find_boot_slot, SlotTable.bootable_count,
    SlotTable.deactivate_slot, SlotTable.mark_active_slot.
  destruct (find SlotTable.bootable tbl) as [e|] eqn:F;
    [intros _ | congruence].
  rewrite map_map. simpl.
  induction tbl as [|a tl IH]; simpl in *; [discriminate|].
  destruct (SlotTable.bootable a) eqn:Ba.
  - injection F as <-. unfold SlotTable.has_index at 1. simpl.
    rewrite Z.eqb_refl. simpl. apply Nat.lt_succ_r.
    clear. induction tl as [|b tl IH]; simpl; [lia|].
    destruct (SlotTable.has_index _ _); simpl;
      destruct (SlotTable.bootable b); simpl; lia.
  - specialize (IH F).
    destruct (SlotTable.has_index _ _); simpl; rewrite ?Ba; exact IH.
Qed.

Section Labels.

Variable cfg : Config.
Variable env : Env.

(** Lines 204-282: the [normal_boot] label.  Coming out of this block
    means arriving at the [fastboot] label. *)
Definition normal_boot : M unit :=
  fb <- gets boot_into_fastboot ;;
  when (negb fb)
    (when (WITH_LK2ND_BOOT cfg)
       (rec <- gets boot_into_recovery ;;
        when (negb rec) (lk2nd_boot env)) ;;
     if target_is_emmc_boot env
     then
       when (negb (ABOOT_STANDALONE cfg)) (emit Ev_emmc_recovery_init) ;;
       signal_tamper cfg env ;;
       retry_boot env
     else
       when (negb (ABOOT_STANDALONE cfg)) (emit Ev_recovery_init) ;;
       when (USE_PCOM_SECBOOT cfg)
         (dev <- gets device ;;
          when (is_unlocked dev || is_tampered dev)
            (emit (Ev_set_tamper_flag (is_tampered dev)))) ;;
       boot_linux_from_flash env).

(** Lines 284-308: the [fastboot] label.  With VERIFIED_BOOT_2 the
    arguments of [fastboot_init] are moved by the salt buffer offset. *)
Definition fastboot : M unit :=
  emit Ev_fastboot_register_commands ;;
  emit Ev_aboot_fastboot_register_commands ;;
  when (target_is_emmc_boot env) (emit Ev_partition_dump) ;;
  emit (Ev_fastboot_init (VERIFIED_BOOT_2 cfg)) ;;
  when (FBCON_DISPLAY_MSG cfg || WITH_LK2ND_DEVICE_MENU cfg)
    (emit Ev_display_fastboot_menu).

Definition aboot_init : M unit :=
  init_globals cfg ;;
  _ <- detect_active_slot env ;;
  board_init cfg env ;;
  signal_and_policy cfg env ;;
  normal_boot ;;
  fastboot.

End Labels.

(** ** Boot decisions *)

Inductive BootDecision : Type :=
| StartNormal
| StartRecovery
| EnterFastboot
| EnterEmergencyDownload.

(** The decision a run of [aboot_init] stands for: returning from
    [aboot_init] means that the fastboot service was started; a halted or
    hanging boot has produced no decision. *)
Definition decision_of (r : Result unit) : option BootDecision :=
  match r with
  | Next _ _ => Some EnterFastboot
  | Stop (KernelStarted false) _ => Some StartNormal
  | Stop (KernelStarted true) _ => Some StartRecovery
  | Stop Lk2ndStarted _ => Some StartNormal
  | Stop DloadReset _ => Some EnterEmergencyDownload
  | Stop Halted _ => None
  | Stop Hung _ => None
  end.

(** Modelled from the spec: the initialisers of the globals are not under
    src/; "RebootIntent and BootDecision are transient, computed fresh every
    boot", so the three boot-mode flags start cleared.  [ram] is the content
    of the global [device] before it is loaded. *)
Definition boot_entry (stored ram : device_info) (tbl : SlotTable.t) : State :=
  mkState ram stored tbl false false false 0%nat [].

(** ** Readings of the trace *)

Definition is_write_device_info (e : Event) : bool :=
  match e with Ev_write_device_info _ => true | _ => false end.

Definition is_register_read (e : Event) : bool :=
  match e with
  | Ev_check_reboot_mode | Ev_check_hard_reboot_mode => true
  | _ => false
  end.

(** A call that tries to start an operating system. *)
Definition is_boot_attempt (e : Event) : bool :=
  match e with
  | Ev_lk2nd_boot | Ev_boot_linux_from_mmc _ | Ev_boot_linux_from_flash => true
  | _ => false
  end.

Definition is_fastboot_start (e : Event) : bool :=
  match e with
  | Ev_fastboot_register_commands | Ev_aboot_fastboot_register_commands
  | Ev_partition_dump | Ev_fastboot_init _ | Ev_display_fastboot_menu => true
  | _ => false
  end.

Definition count_events (p : Event -> bool) (tr : list Event) : nat :=
  List.length (filter p tr).

(** The slots handed to [boot_linux_from_mmc], in order. *)
Fixpoint attempted (tr : list Event) : list Z :=
  match tr with
  | [] => []
  | Ev_boot_linux_from_mmc slot :: tl => slot :: attempted tl
  | _ :: tl => attempted tl
  end.

(** ** Notions used in the statements *)

(** [run_sat r N E]: the run [r] went on in a state that satisfies [N], or
    left [aboot_init] with an outcome and in a state that satisfy [E]. *)
Definition run_sat {A} (r : Result A)
    (N : A -> State -> Prop) (E : Outcome -> State -> Prop) : Prop :=
  match r with
  | Next a s => N a s
  | Stop o s => E o s
  end.

(** [keeps P m]: the step [m] adds only events of the class [P] to the
    trace. *)
Definition keeps {A} (P : Event -> bool) (m : M A) : Prop :=
  forall s, exists new,
    trace (final_state (m s)) = trace s ++ new /\ forallb P new = true.

(** The classes of events of the blocks before the [normal_boot] label. *)
Definition is_init_event (e : Event) : bool :=
  match e with
  | Ev_msm_wdog_init | Ev_read_device_info | Ev_read_allow_oem_unlock
  | Ev_partition_find_active_slot | Ev_partition_mark_active_slot _
  | Ev_lk2nd_init | Ev_pm_app_display_shutdown_in_prgs
  | Ev_target_display_init _ | Ev_display_image_on_screen
  | Ev_target_serialno => true
  | _ => false
  end.

(** Reading the signals, and acting on the reset reason. *)
Definition is_signal_read (e : Event) : bool :=
  match e with
  | Ev_is_user_force_reset | Ev_reboot_device _ | Ev_check_reboot_mode
  | Ev_check_hard_reboot_mode => true
  | _ => false
  end.

Definition is_policy_event (e : Event) : bool :=
  match e with
  | Ev_write_device_info _ | Ev_send_delete_keys_to_tz => true
  | _ => false
  end.

Definition is_signal_event (e : Event) : bool :=
  is_signal_read e || is_policy_event e.

(** The events from the [normal_boot] label to the [fastboot] label. *)
Definition is_boot_path_event (e : Event) : bool :=
  match e with
  | Ev_lk2nd_boot | Ev_emmc_recovery_init | Ev_recovery_init
  | Ev_set_tamper_fuse_cmd | Ev_set_tamper_flag _
  | Ev_partition_find_boot_slot | Ev_partition_mark_active_slot _
  | Ev_boot_linux_from_mmc _ | Ev_partition_deactivate_slot _
  | Ev_boot_linux_from_flash => true
  | _ => false
  end.

(** The condition of line 125. *)
Definition both_volume_keys (env : Env) : bool :=
  keys_get_state env KEY_VOLUMEUP && keys_get_state env KEY_VOLUMEDOWN.

(** The emergency reset is requested and takes the device away. *)
Definition dload_taken (env : Env) : bool :=
  both_volume_keys env && negb (reboot_device_returns env).

(** The value [reboot_mode] receives at lines 149-155. *)
Definition selected_reboot_mode (cfg : Config) (env : Env) : reboot_reason :=
  if USE_PON_REBOOT_REG cfg
  then hard_reboot_mode_reg env
  else reboot_mode_reg env.

(** The condition of line 171 on builds with verified boot. *)
Definition vb_supported (cfg : Config) (env : Env) : bool :=
  (VERIFIED_BOOT cfg || VERIFIED_BOOT_2 cfg)
  && (VB_M cfg <=? target_get_vb_version env).

(** The calls of the key checks. *)
Definition key_events (env : Env) : list Event :=
  if both_volume_keys env then [Ev_reboot_device EMERGENCY_DLOAD] else [].

(** The last statement of the block (lines 198-202). *)
Definition force_fastboot_flag (cfg : Config) : M unit :=
  when (LK2ND_FORCE_FASTBOOT cfg) (modify (set_boot_into_fastboot true)).

(** Lines 17-113. *)
Definition prelude (cfg : Config) (env : Env) : M unit :=
  init_globals cfg ;;
  _ <- detect_active_slot env ;;
  board_init cfg env.

(** Lines 115-308. *)
Definition decide (cfg : Config) (env : Env) : M unit :=
  signal_and_policy cfg env ;;
  normal_boot cfg env ;;
  fastboot cfg env.

(** The lock and tamper flags of a device record. *)
Definition tamper_state (d : device_info) : bool * bool :=
  (is_unlocked d, is_tampered d).

(** The content of [device] after lines 40-47. *)
Definition loaded_device (cfg : Config) (stored ram : device_info)
  : device_info :=
  if ABOOT_STANDALONE cfg then set_is_unlocked true ram else stored.

(** ** The reboot intent of the spec *)

Inductive RebootIntent : Type :=
| IntentNone
| Recovery
| Fastboot
| EmergencyDownload
| AlarmBoot
| VerityEnforce
| VerityLogging
| VerityKeyClear.

(** Section 4.1 (b), (c) in the spec's words: both keys give
    EmergencyDownload, one key gives Recovery, a different set of keys gives
    Fastboot. *)
Definition key_intent_spec (env : Env) : RebootIntent :=
  if both_volume_keys env then EmergencyDownload
  else if keys_get_state env KEY_VOLUMEUP then Recovery
  else if keys_get_state env KEY_HOME || keys_get_state env KEY_BACK
          || keys_get_state env KEY_VOLUMEDOWN then Fastboot
  else IntentNone.

(** The trigger that stands in for the keys on builds without a keypad
    driver. *)
Definition trigger_intent_spec (cfg : Config) (env : Env) : RebootIntent :=
  if NO_KEYPAD_DRIVER cfg && fastboot_trigger env then Fastboot
  else IntentNone.

(** Section 4.1 (d) in the spec's words: the register is "decoded into
    Recovery, Fastboot, AlarmBoot, or one of the three verity-policy
    intents", the latter only at or above the minimum version. *)
Definition register_intent_spec (cfg : Config) (env : Env) : RebootIntent :=
  let mode := selected_reboot_mode cfg env in
  if reason_eqb mode RECOVERY_MODE then Recovery
  else if reason_eqb mode FASTBOOT_MODE then Fastboot
  else if reason_eqb mode ALARM_BOOT then AlarmBoot
  else if vb_supported cfg env then
    if reason_eqb mode DM_VERITY_ENFORCING then VerityEnforce
    else if reason_eqb mode (logging_reason cfg) then VerityLogging
    else if reason_eqb mode DM_VERITY_KEYSCLEAR then VerityKeyClear
    else IntentNone
  else IntentNone.

(** The precedence of section 4.1 in the spec's words: forced reset, then
    both keys, then single keys, then the register, "the first positive
    match wins". *)
Definition resolve_intent_spec (cfg : Config) (env : Env) : RebootIntent :=
  if is_user_force_reset env then IntentNone
  else
    match key_intent_spec env with
    | IntentNone =>
        match trigger_intent_spec cfg env with
        | IntentNone => register_intent_spec cfg env
        | i => i
        end
    | i => i
    end.

(** The boot-mode flags an intent stands for: fastboot, recovery, alarm.  An
    emergency download that is still an intent after the reset request is
    the degraded one, fastboot. *)
Definition flags_of_intent (i : RebootIntent) : bool * bool * bool :=
  match i with
  | Fastboot | EmergencyDownload => (true, false, false)
  | Recovery => (false, true, false)
  | AlarmBoot => (false, false, true)
  | _ => (false, false, false)
  end.

Definition merge_flags (a b : bool * bool * bool) : bool * bool * bool :=
  let '(f1, r1, a1) := a in
  let '(f2, r2, a2) := b in
  (f1 || f2, r1 || r2, a1 || a2).

(** The flags [aboot_init] has latched. *)
Definition latched (s : State) : bool * bool * bool :=
  (boot_into_fastboot s, boot_into_recovery s, boot_reason_alarm s).

(** ** The retry loop when every attempt fails *)

(** The boot outcomes of C2: every call of the loader returns one of the
    retryable errors. *)
Definition all_retryable (env : Env) : Prop :=
  forall k, exists err,
    boot_linux_from_mmc_ret env k = Returns err /\ retryable err = true.

(** The calls of a loop that runs until no bootable slot is left, and the
    slot table it leaves. *)
Inductive loop_events : SlotTable.t -> list Event -> SlotTable.t -> Prop :=
| loop_exhausted (tbl : SlotTable.t) :
    SlotTable.find_boot_slot tbl = INVALID ->
    loop_events tbl
      [Ev_partition_find_boot_slot; Ev_partition_mark_active_slot INVALID]
      (SlotTable.mark_active_slot INVALID tbl)
| loop_retry (tbl : SlotTable.t) (slot : Z) (new : list Event)
    (tbl' : SlotTable.t) :
    slot = SlotTable.find_boot_slot tbl ->
    slot <> INVALID ->
    loop_events
      (SlotTable.deactivate_slot slot (SlotTable.mark_active_slot slot tbl))
      new tbl' ->
    loop_events tbl
      (Ev_partition_find_boot_slot :: Ev_partition_mark_active_slot slot
       :: Ev_boot_linux_from_mmc slot :: Ev_partition_deactivate_slot slot
       :: new)
      tbl'.

(** ** Sample boots, for the concrete instances below *)

Definition sample_cfg (force_fastboot : bool) (vb_m : Z) : Config :=
  {| WDOG_SUPPORT := false;
     ABOOT_STANDALONE := false;
     WITH_LK2ND := true;
     DISPLAY_SPLASH_SCREEN := false;
     NO_ALARM_DISPLAY := false;
     DISPLAY_HDMI_PRIMARY := false;
     ENABLE_WBC := false;
     NO_KEYPAD_DRIVER := false;
     USE_PON_REBOOT_REG := false;
     VERIFIED_BOOT := true;
     VERIFIED_BOOT_2 := false;
     ENABLE_VB_ATTEST := false;
     LK2ND_FORCE_FASTBOOT := force_fastboot;
     WITH_LK2ND_BOOT := false;
     TZ_TAMPER_FUSE := true;
     USE_PCOM_SECBOOT := true;
     FBCON_DISPLAY_MSG := false;
     WITH_LK2ND_DEVICE_MENU := true;
     VB_M := vb_m;
     MEMBASE := 0x8F600000;
     MEMSIZE := 0x00A00000;
     DISPLAY_PANEL_HDMI := "hdmi";
     display_panel_size := 64 |}.

Definition keys_down (pressed : list Key) (k : Key) : bool :=
  existsb (fun p => match p, k with
                    | KEY_VOLUMEUP, KEY_VOLUMEUP
                    | KEY_VOLUMEDOWN, KEY_VOLUMEDOWN
                    | KEY_HOME, KEY_HOME
                    | KEY_BACK, KEY_BACK => true
                    | _, _ => false
                    end) pressed.

Definition sample_env (forced : bool) (pressed : list Key)
    (reset_fails : bool) (reason : reboot_reason)
    (write_ok : bool) (delete_keys : Z) (mmc : nat -> mmc_result) : Env :=
  {| target_is_emmc_boot := true;
     partition_multislot_is_supported := true;
     check_alarm_boot := false;
     display_shutdown_polls := Some 0%nat;
     pm_appsbl_display_init_done := true;
     sn_buf_filled := true;
     is_user_force_reset := forced;
     keys_get_state := keys_down pressed;
     reboot_device_returns := reset_fails;
     fastboot_trigger := false;
     reboot_mode_reg := reason;
     hard_reboot_mode_reg := reason;
     target_get_vb_version := 2;
     write_device_info_ok := write_ok;
     send_delete_keys_to_tz_ret := delete_keys;
     lk2nd_boot_returns := true;
     target_use_signed_kernel := true;
     boot_linux_from_mmc_ret := mmc;
     boot_linux_from_flash_returns := true |}.

Definition sample_device : device_info := mkDevice true false 0 "".

Definition sample_slots : SlotTable.t :=
  [SlotTable.mkSlot 0 true true; SlotTable.mkSlot 1 false true].

Definition sample_state : State :=
  boot_entry sample_device sample_device sample_slots.

Definition inactive_slots : SlotTable.t :=
  [SlotTable.mkSlot 0 false true; SlotTable.mkSlot 1 false true].

(** A build with neither tamper signal compiled in: TZ_TAMPER_FUSE is not
    defined and USE_PCOM_SECBOOT is 0. *)
Definition sample_cfg_no_tamper_signal : Config :=
  {| WDOG_SUPPORT := false;
     ABOOT_STANDALONE := false;
     WITH_LK2ND := true;
     DISPLAY_SPLASH_SCREEN := false;
     NO_ALARM_DISPLAY := false;
     DISPLAY_HDMI_PRIMARY := false;
     ENABLE_WBC := false;
     NO_KEYPAD_DRIVER := false;
     USE_PON_REBOOT_REG := false;
     VERIFIED_BOOT := true;
     VERIFIED_BOOT_2 := false;
     ENABLE_VB_ATTEST := false;
     LK2ND_FORCE_FASTBOOT := false;
     WITH_LK2ND_BOOT := false;
     TZ_TAMPER_FUSE := false;
     USE_PCOM_SECBOOT := false;
     FBCON_DISPLAY_MSG := false;
     WITH_LK2ND_DEVICE_MENU := true;
     VB_M := 2;
     MEMBASE := 0x8F600000;
     MEMSIZE := 0x00A00000;
     DISPLAY_PANEL_HDMI := "hdmi";
     display_panel_size := 64 |}.

(** An unlocked device that is marked tampered. *)
Definition tampered_device : device_info := mkDevice true true 0 "".

(** ** Notions used in the further properties of [aboot_init] *)

(** [steady R m]: the state [m] ends in is related by [R] to the state it
    started from, whether [m] goes on or leaves [aboot_init]. *)
Definition steady {A} (R : State -> State -> Prop) (m : M A) : Prop :=
  forall s, R s (final_state (m s)).

(** A boot-mode flag that is set stays set. *)
Definition flags_kept (s s' : State) : Prop :=
  (boot_into_fastboot s = true -> boot_into_fastboot s' = true) /\
  (boot_into_recovery s = true -> boot_into_recovery s' = true) /\
  (boot_reason_alarm s = true -> boot_reason_alarm s' = true).

(** The display block of lines 75-104 is compiled in and not skipped for an
    alarm boot. *)
Definition splash_shown (cfg : Config) (env : Env) : bool :=
  DISPLAY_SPLASH_SCREEN cfg && negb (NO_ALARM_DISPLAY cfg && check_alarm_boot env).

(** The conditions under which [aboot_init] has a call of each
    collaborator: the preprocessor symbols around the call and the answers
    of the environment that guard it. *)
Definition may_call (cfg : Config) (env : Env) (e : Event) : bool :=
  match e with
  | Ev_msm_wdog_init => WDOG_SUPPORT cfg
  | Ev_read_device_info | Ev_read_allow_oem_unlock =>
      negb (ABOOT_STANDALONE cfg)
  | Ev_partition_find_active_slot | Ev_partition_mark_active_slot _ =>
      partition_multislot_is_supported env
  | Ev_lk2nd_init => WITH_LK2ND cfg
  | Ev_pm_app_display_shutdown_in_prgs =>
      splash_shown cfg env && ENABLE_WBC cfg
  | Ev_target_display_init _ =>
      splash_shown cfg env
      && (negb (ENABLE_WBC cfg) || negb (pm_appsbl_display_init_done env))
  | Ev_display_image_on_screen =>
      splash_shown cfg env && ENABLE_WBC cfg
      && pm_appsbl_display_init_done env
  | Ev_target_serialno => negb (WITH_LK2ND cfg) || negb (sn_buf_filled env)
  | Ev_is_user_force_reset => true
  | Ev_reboot_device _ =>
      negb (is_user_force_reset env) && both_volume_keys env
  | Ev_check_reboot_mode =>
      negb (is_user_force_reset env) && negb (USE_PON_REBOOT_REG cfg)
  | Ev_check_hard_reboot_mode =>
      negb (is_user_force_reset env) && USE_PON_REBOOT_REG cfg
  | Ev_write_device_info _ | Ev_send_delete_keys_to_tz =>
      negb (is_user_force_reset env) && vb_supported cfg env
  | Ev_lk2nd_boot => WITH_LK2ND_BOOT cfg
  | Ev_emmc_recovery_init =>
      target_is_emmc_boot env && negb (ABOOT_STANDALONE cfg)
  | Ev_recovery_init =>
      negb (target_is_emmc_boot env) && negb (ABOOT_STANDALONE cfg)
  | Ev_set_tamper_fuse_cmd =>
      target_is_emmc_boot env && target_use_signed_kernel env
      && TZ_TAMPER_FUSE cfg
  | Ev_set_tamper_flag _ =>
      USE_PCOM_SECBOOT cfg
      && (negb (target_is_emmc_boot env) || target_use_signed_kernel env)
  | Ev_partition_find_boot_slot | Ev_partition_deactivate_slot _ =>
      target_is_emmc_boot env && partition_multislot_is_supported env
  | Ev_boot_linux_from_mmc _ | Ev_partition_dump => target_is_emmc_boot env
  | Ev_boot_linux_from_flash => negb (target_is_emmc_boot env)
  | Ev_fastboot_register_commands | Ev_aboot_fastboot_register_commands =>
      true
  | Ev_fastboot_init salt_offset => Bool.eqb salt_offset (VERIFIED_BOOT_2 cfg)
  | Ev_display_fastboot_menu =>
      FBCON_DISPLAY_MSG cfg || WITH_LK2ND_DEVICE_MENU cfg
  end.

(** The slots handed to [partition_deactivate_slot], in order. *)
Fixpoint deactivated (tr : list Event) : list Z :=
  match tr with
  | [] => []
  | Ev_partition_deactivate_slot slot :: tl => slot :: deactivated tl
  | _ :: tl => deactivated tl
  end.

Definition is_mmc_load (e : Event) : bool :=
  match e with Ev_boot_linux_from_mmc _ => true | _ => false end.

(** The slot is marked active in the table. *)
Definition slot_is_active (slot : Z) (tbl : SlotTable.t) : bool :=
  existsb (fun e => SlotTable.has_index slot e && SlotTable.active e) tbl.

(** The calls of the loop over [retry_boot] on a multi-slot device, whatever
    the loader answers, the slot table the loop leaves and the slot of the
    attempt that ended it, if one did: a pass finds no bootable slot, or
    its attempt ends the loop (the kernel runs, or the error is none of
    the four of the switch), or the slot is deactivated and the loop goes
    round. *)
Inductive loop_run :
  SlotTable.t -> list Event -> SlotTable.t -> option Z -> Prop :=
| run_exhausted (tbl : SlotTable.t) :
    SlotTable.find_boot_slot tbl = INVALID ->
    loop_run tbl
      [Ev_partition_find_boot_slot; Ev_partition_mark_active_slot INVALID]
      (SlotTable.mark_active_slot INVALID tbl) None
| run_last (tbl : SlotTable.t) (slot : Z) :
    slot = SlotTable.find_boot_slot tbl ->
    slot <> INVALID ->
    loop_run tbl
      [Ev_partition_find_boot_slot; Ev_partition_mark_active_slot slot;
       Ev_boot_linux_from_mmc slot]
      (SlotTable.mark_active_slot slot tbl) (Some slot)
| run_retry (tbl : SlotTable.t) (slot : Z) (new : list Event)
    (tbl' : SlotTable.t) (last : option Z) :
    slot = SlotTable.find_boot_slot tbl ->
    slot <> INVALID ->
    loop_run
      (SlotTable.deactivate_slot slot (SlotTable.mark_active_slot slot tbl))
      new tbl' last ->
    loop_run tbl
      (Ev_partition_find_boot_slot :: Ev_partition_mark_active_slot slot
       :: Ev_boot_linux_from_mmc slot :: Ev_partition_deactivate_slot slot
       :: new)
      tbl' last.

(** The attempt that ended the loop, as a list. *)
Definition last_attempt (last : option Z) : list Z :=
  match last with Some slot => [slot] | None => [] end.

(** How the loop left [aboot_init] or went on, against the attempt that
    ended it: the loop leaves only by starting a kernel. *)
Definition loop_end_agrees (s : State) (r : Result unit) (last : option Z)
  : Prop :=
  match r with
  | Next _ _ => True
  | Stop o _ =>
      o = KernelStarted (boot_into_recovery s) /\ exists slot, last = Some slot
  end.

Definition is_tamper_signal (e : Event) : bool :=
  match e with
  | Ev_set_tamper_fuse_cmd | Ev_set_tamper_flag _ => true
  | _ => false
  end.

(** The tamper signals of lines 219-232 (eMMC) and 274-277 (flash) for the
    device record [dev]. *)
Definition tamper_signals (cfg : Config) (env : Env) (dev : device_info)
  : list Event :=
  if is_unlocked dev || is_tampered dev
  then
    if target_is_emmc_boot env
    then
      if target_use_signed_kernel env
      then (if TZ_TAMPER_FUSE cfg then [Ev_set_tamper_fuse_cmd] else [])
           ++ (if USE_PCOM_SECBOOT cfg
               then [Ev_set_tamper_flag (is_tampered dev)] else [])
      else []
    else
      if USE_PCOM_SECBOOT cfg
      then [Ev_set_tamper_flag (is_tampered dev)] else []
  else [].

(** The calls between the [normal_boot] label and the first call of a
    kernel loader (lines 208-232 and 272-277), when [lk2nd_boot] is not
    called or comes back. *)
Definition before_load (cfg : Config) (env : Env) (s : State) : list Event :=
  (if WITH_LK2ND_BOOT cfg && negb (boot_into_recovery s)
   then [Ev_lk2nd_boot] else [])
  ++ (if negb (ABOOT_STANDALONE cfg)
      then [if target_is_emmc_boot env
            then Ev_emmc_recovery_init else Ev_recovery_init]
      else [])
  ++ tamper_signals cfg env (device s).

(** [lk2nd_boot] is called and does not come back. *)
Definition lk2nd_takes_over (cfg : Config) (env : Env) (s : State) : bool :=
  WITH_LK2ND_BOOT cfg && negb (boot_into_recovery s)
  && negb (lk2nd_boot_returns env).

(** Lines 49-308: [aboot_init] after the device record is loaded. *)
Definition after_init (cfg : Config) (env : Env) : M unit :=
  _ <- detect_active_slot env ;;
  board_init cfg env ;;
  decide cfg env.

(** [device] carries the lock and tamper flags of the stored record. *)
Definition lock_state_loaded (s : State) : Prop :=
  tamper_state (device s) = tamper_state (persisted s).

(** The condition of line 54 on a multi-slot device: no slot is active. *)
Definition no_active_slot (env : Env) (s : State) : bool :=
  partition_multislot_is_supported env
  && (SlotTable.find_active_slot (slots s) =? INVALID).

(** Lines 125-202 with [boot_into_fastboot] clear at line 125: the signals
    that set it.  [rec] is [boot_into_recovery] at line 125. *)
Definition fastboot_requested (cfg : Config) (env : Env) (rec : bool)
  : bool :=
  both_volume_keys env
  || (negb rec && negb (keys_get_state env KEY_VOLUMEUP)
      && (keys_get_state env KEY_HOME || keys_get_state env KEY_BACK
          || keys_get_state env KEY_VOLUMEDOWN))
  || (NO_KEYPAD_DRIVER cfg && fastboot_trigger env)
  || reason_eqb (selected_reboot_mode cfg env) FASTBOOT_MODE
  || LK2ND_FORCE_FASTBOOT cfg.

(** Lines 125-202: the signals that set [boot_into_recovery]; [fb] is
    [boot_into_fastboot] at line 125. *)
Definition recovery_requested (cfg : Config) (env : Env) (fb : bool)
  : bool :=
  (negb fb && negb (both_volume_keys env)
   && keys_get_state env KEY_VOLUMEUP)
  || reason_eqb (selected_reboot_mode cfg env) RECOVERY_MODE.

(** The run started an operating system. *)
Definition boots (r : Result unit) : bool :=
  match decision_of r with
  | Some StartNormal | Some StartRecovery => true
  | _ => false
  end.

(** MEMBASE and MEMSIZE are macros of the build, not under src/, so the
    integer types of the two operands of line 38 are not known here:
    [init_globals] adds them as 32-bit unsigned numbers.  This is the
    range in which the sum of line 38 is the sum of the two numbers for
    every C type the macros can have: both are non-negative, and the sum
    is below 2^31 (no overflow even for two [int] operands), or one
    operand is 2^31 or more (so it has an unsigned or a wider type, and
    the addition is done in that type) and the sum is below 2^32. *)
Definition mem_sum_exact (cfg : Config) : bool :=
  (0 <=? MEMBASE cfg) && (0 <=? MEMSIZE cfg)
  && ((MEMBASE cfg + MEMSIZE cfg <? 2 ^ 31)
      || (((2 ^ 31 <=? MEMBASE cfg) || (2 ^ 31 <=? MEMSIZE cfg))
          && (MEMBASE cfg + MEMSIZE cfg <? 2 ^ 32))).

(** The wait of lines 91-92 is not compiled in, is skipped, or ends. *)
Definition display_wait_ends (cfg : Config) (env : Env) : bool :=
  match display_shutdown_polls env with
  | Some _ => true
  | None => negb (splash_shown cfg env && ENABLE_WBC cfg)
  end.

(** Lines 17-113 arrive at the forced-reset check, for a build in the
    range of [mem_sum_exact]: the memory region of line 38 is not empty
    and the wait of lines 91-92 ends. *)
Definition prelude_passes (cfg : Config) (env : Env) : bool :=
  (0 <? MEMSIZE cfg) && display_wait_ends cfg env.

(** The chain over [reboot_mode] (lines 157-196) ends in a halt: a verity
    mode is to be stored and the write fails, or the keys are to be
    cleared and [send_delete_keys_to_tz] reports an error. *)
Definition policy_halts (cfg : Config) (env : Env) (mode : reboot_reason)
  : bool :=
  vb_supported cfg env
  && (((reason_eqb mode DM_VERITY_ENFORCING
        || reason_eqb mode (logging_reason cfg))
       && negb (write_device_info_ok env))
      || (reason_eqb mode DM_VERITY_KEYSCLEAR
          && negb (send_delete_keys_to_tz_ret env =? 0))).

(** Two environments that agree on every answer [aboot_init] asks for
    outside lines 125-196: they may differ in the keys, the fastboot
    trigger, the reset-reason registers, the verified-boot version, and in
    how [reboot_device], [write_device_info] and [send_delete_keys_to_tz]
    end. *)
Definition same_outside_signals (e1 e2 : Env) : Prop :=
  target_is_emmc_boot e1 = target_is_emmc_boot e2 /\
  partition_multislot_is_supported e1 = partition_multislot_is_supported e2 /\
  check_alarm_boot e1 = check_alarm_boot e2 /\
  display_shutdown_polls e1 = display_shutdown_polls e2 /\
  pm_appsbl_display_init_done e1 = pm_appsbl_display_init_done e2 /\
  sn_buf_filled e1 = sn_buf_filled e2 /\
  is_user_force_reset e1 = is_user_force_reset e2 /\
  lk2nd_boot_returns e1 = lk2nd_boot_returns e2 /\
  target_use_signed_kernel e1 = target_use_signed_kernel e2 /\
  (forall k, boot_linux_from_mmc_ret e1 k = boot_linux_from_mmc_ret e2 k) /\
  boot_linux_from_flash_returns e1 = boot_linux_from_flash_returns e2.

Definition is_target_display_init (e : Event) : bool :=
  match e with Ev_target_display_init _ => true | _ => false end.

(** The panel name lines 82-98 arrive at, from the name in the loaded
    device record: the HDMI default takes the place of an empty name on a
    build with DISPLAY_HDMI_PRIMARY. *)
Definition chosen_panel (cfg : Config) (stored : string) : string :=
  if DISPLAY_HDMI_PRIMARY cfg && Nat.eqb (String.length stored) 0
  then strlcpy stored (DISPLAY_PANEL_HDMI cfg) (display_panel_size cfg)
  else stored.

(** [aboot_init] is the [init] routine of the aboot application: the
    routine comes back to [apps_init] when [aboot_init] returns, that is,
    when it has started the fastboot service. *)
Definition aboot_init_returns (cfg : Config) (env : Env) (s : State) : bool :=
  match aboot_init cfg env s with
  | Next _ _ => true
  | Stop _ _ => false
  end.

(** ** The way into [aboot_init]: kernel/main.c and app/app.c

    [kmain] brings the kernel up and hands over to the thread
    [bootstrap2], which ends in [apps_init]; [apps_init] calls the [init]
    routine of every application ([aboot_init] is that of aboot) and starts
    a thread for each one that has an [entry].  The routines these files
    call are steps that log the call; the routines reached through
    pointers ([init], [entry], the constructors) are code addresses, and
    whether the code at an address comes back to its caller is an answer of
    the environment.  Left out: [dprintf] and [printf] logging. *)

Module Kernel.

(** The preprocessor symbols of the two files. *)
Record KConfig : Type := mkKConfig {
  ENABLE_NANDWRITE : bool;
  WITH_LIB_BIO : bool;
  WITH_LIB_FS : bool;
  (* the bit mask of app.h *)
  APP_FLAG_DONT_START_ON_BOOT : Z
}.

(** A pointer to code: the address, or [None] for NULL. *)
Definition code_ptr : Type := option nat.

(** [struct app_descriptor], with the fields the two files read. *)
Record app_descriptor : Type := mkApp {
  name : string;
  init : code_ptr;
  entry : code_ptr;
  flags : Z
}.

(** What a new thread runs: the second and third argument of
    [thread_create] (the last two, DEFAULT_PRIORITY and DEFAULT_STACK_SIZE,
    are the same in every call). *)
Inductive thread_body : Type :=
| Body_bootstrap2                                (* [&bootstrap2, NULL] *)
| Body_app_thread_entry (app : app_descriptor).  (* [&app_thread_entry, app] *)

Inductive KEvent : Type :=
| Ev_thread_init_early
| Ev_arch_early_init
| Ev_platform_early_init
| Ev_target_early_init
| Ev_debug_init
| Ev_bs_set_timestamp
| Ev_constructor (func : nat)
| Ev_heap_init
| Ev_stack_chk_guard_setup
| Ev_thread_init
| Ev_dpc_init
| Ev_timer_init
| Ev_thread_create (name : string) (body : thread_body)
| Ev_panic
| Ev_thread_resume (thr : nat)
| Ev_exit_critical_section
| Ev_thread_become_idle
| Ev_arch_init
| Ev_bio_init
| Ev_fs_init
| Ev_platform_init
| Ev_target_init
| Ev_nandwrite_init
| Ev_app_init (func : nat) (app : app_descriptor)
| Ev_app_entry (func : nat) (app : app_descriptor).

Record KEnv : Type := mkKEnv {
  (* the code at this address comes back to its caller *)
  returns : nat -> bool;
  (* the result of the k-th call of [thread_create]: a thread, or NULL *)
  thread_create_ret : nat -> option nat
}.

Record KState : Type := mkKState {
  calls : list KEvent;
  thread_create_calls : nat
}.

Inductive KOutcome : Type :=
| Panicked               (* [panic] *)
| Idle                   (* [thread_become_idle] *)
| Left (func : nat)      (* the code called at [func] did not come back *)
| NullCall.              (* a call through a NULL pointer *)

Inductive KResult (A : Type) : Type :=
| KNext (a : A) (s : KState)
| KStop (o : KOutcome) (s : KState).
Arguments KNext {A} a s.
Arguments KStop {A} o s.

Definition K (A : Type) : Type := KState -> KResult A.

Definition kret {A} (a : A) : K A := fun s => KNext a s.

Definition kbind {A B} (m : K A) (k : A -> K B) : K B :=
  fun s => match m s with
           | KNext a s' => k a s'
           | KStop o s' => KStop o s'
           end.

Declare Scope kernel_scope.
Delimit Scope kernel_scope with kernel.
Notation "x <- m ;; k" := (kbind m (fun x => k))
  (at level 61, m at next level, right associativity) : kernel_scope.
Notation "m ;; k" := (kbind m (fun _ => k))
  (at level 61, right associativity) : kernel_scope.
Local Open Scope kernel_scope.

Definition kstop {A} (o : KOutcome) : K A := fun s => KStop o s.

Definition kemit (e : KEvent) : K unit :=
  fun s => KNext tt (mkKState (calls s ++ [e]) (thread_create_calls s)).

Definition kwhen (c : bool) (m : K unit) : K unit :=
  if c then m else kret tt.

Definition kfinal {A} (r : KResult A) : KState :=
  match r with KNext _ s => s | KStop _ s => s end.

(** A call through a pointer, logged as [e]. *)
Definition call_ptr (env : KEnv) (p : code_ptr) (e : nat -> KEvent)
  : K unit :=
  match p with
  | None => kstop NullCall
  | Some func =>
      kemit (e func) ;;
      if returns env func then kret tt else kstop (Left func)
  end.

Definition thread_create (env : KEnv) (name : string) (body : thread_body)
  : K (option nat) :=
  kemit (Ev_thread_create name body) ;;
  fun s =>
    KNext (thread_create_ret env (thread_create_calls s))
          (mkKState (calls s) (S (thread_create_calls s))).

(** A [for] loop over an array, here over the list of its elements. *)
Fixpoint for_each {A} (l : list A) (body : A -> K unit) : K unit :=
  match l with
  | [] => kret tt
  | a :: tl => body a ;; for_each tl body
  end.

Section Code.

Variable cfg : KConfig.
Variable env : KEnv.

(** app.c, lines 92-109. *)
Definition start_app (app : app_descriptor) : K unit :=
  thr <- thread_create env (name app) (Body_app_thread_entry app) ;;
  match thr with
  | None => kret tt
  | Some t => kemit (Ev_thread_resume t)
  end.

(** The condition of line 53. *)
Definition starts_on_boot (app : app_descriptor) : bool :=
  match entry app with Some _ => true | None => false end
  && (Z.land (flags app) (APP_FLAG_DONT_START_ON_BOOT cfg) =? 0).

(** app.c, lines 44-48: the first loop of [apps_init]. *)
Definition init_loop (apps : list app_descriptor) : K unit :=
  for_each apps
    (fun app =>
       match init app with
       | Some func => call_ptr env (Some func) (fun f => Ev_app_init f app)
       | None => kret tt
       end).

(** app.c, lines 51-57: the second loop of [apps_init]. *)
Definition start_loop (apps : list app_descriptor) : K unit :=
  for_each apps
    (fun app => kwhen (starts_on_boot app) (start_app app)).

(** app.c, lines 39-58; [apps] are the descriptors from [__apps_start] to
    [__apps_end]. *)
Definition apps_init (apps : list app_descriptor) : K unit :=
  init_loop apps ;; start_loop apps.

(** app.c, lines 71-82. *)
Definition app_thread_entry (app : app_descriptor) : K Z :=
  call_ptr env (entry app) (fun f => Ev_app_entry f app) ;;
  kret 0.

(** main.c, lines 56-70; [ctors] are the pointers from [__ctor_list] to
    [__ctor_end]. *)
Definition call_constructors (ctors : list nat) : K unit :=
  for_each ctors
    (fun func => call_ptr env (Some func) Ev_constructor).

(** main.c, lines 158-188. *)
Definition bootstrap2 (apps : list app_descriptor) : K Z :=
  kemit Ev_arch_init ;;
  kwhen (WITH_LIB_BIO cfg) (kemit Ev_bio_init) ;;
  kwhen (WITH_LIB_FS cfg) (kemit Ev_fs_init) ;;
  kemit Ev_platform_init ;;
  kemit Ev_target_init ;;
  apps_init apps ;;
  kret 0.

(** main.c, lines 191-209. *)
Definition bootstrap_nandwrite : K unit :=
  kemit Ev_arch_init ;;
  kemit Ev_platform_init ;;
  kemit Ev_target_init ;;
  kemit Ev_nandwrite_init.

(** main.c, lines 82-145. *)
Definition kmain (ctors : list nat) : K unit :=
  kemit Ev_thread_init_early ;;
  kemit Ev_arch_early_init ;;
  kemit Ev_platform_early_init ;;
  kemit Ev_target_early_init ;;
  kemit Ev_debug_init ;;
  kemit Ev_bs_set_timestamp ;;
  call_constructors ctors ;;
  kemit Ev_heap_init ;;
  kemit Ev_stack_chk_guard_setup ;;
  kemit Ev_thread_init ;;
  kemit Ev_dpc_init ;;
  kemit Ev_timer_init ;;
  if negb (ENABLE_NANDWRITE cfg)
  then
    thr <- thread_create env "bootstrap2" Body_bootstrap2 ;;
    match thr with
    | None => kemit Ev_panic ;; kstop Panicked
    | Some t =>
        kemit (Ev_thread_resume t) ;;
        kemit Ev_exit_critical_section ;;
        kemit Ev_thread_become_idle ;;
        kstop Idle
    end
  else bootstrap_nandwrite.

End Code.

(** The [init] routines called, the threads created and the threads
    resumed, in order. *)
Fixpoint inits_called (tr : list KEvent) : list app_descriptor :=
  match tr with
  | [] => []
  | Ev_app_init _ app :: tl => app :: inits_called tl
  | _ :: tl => inits_called tl
  end.

Fixpoint threads_created (tr : list KEvent) : list thread_body :=
  match tr with
  | [] => []
  | Ev_thread_create _ body :: tl => body :: threads_created tl
  | _ :: tl => threads_created tl
  end.

Fixpoint threads_resumed (tr : list KEvent) : list nat :=
  match tr with
  | [] => []
  | Ev_thread_resume thr :: tl => thr :: threads_resumed tl
  | _ :: tl => threads_resumed tl
  end.

Definition is_app_init (e : KEvent) : bool :=
  match e with Ev_app_init _ _ => true | _ => false end.

Definition is_thread_call (e : KEvent) : bool :=
  match e with
  | Ev_thread_create _ _ | Ev_thread_resume _ => true
  | _ => false
  end.

(** The [init] routine of every application in the list comes back. *)
Definition inits_return (env : KEnv) (apps : list app_descriptor) : bool :=
  forallb (fun app => match init app with
                      | Some func => returns env func
                      | None => true
                      end) apps.

Definition has_init (app : app_descriptor) : bool :=
  match init app with Some _ => true | None => false end.

(** The threads of the applications that are started at boot. *)
Definition started (cfg : KConfig) (apps : list app_descriptor)
  : list thread_body :=
  map Body_app_thread_entry (filter (starts_on_boot cfg) apps).

(** The threads that [n] calls of [thread_create] give, from the [k]-th
    call of the boot on: the results that are not NULL. *)
Definition created_from (env : KEnv) (k n : nat) : list nat :=
  flat_map (fun i => match thread_create_ret env i with
                     | Some t => [t]
                     | None => []
                     end) (seq k n).

Definition is_constructor (e : KEvent) : bool :=
  match e with Ev_constructor _ => true | _ => false end.

(** The calls of [bootstrap2] before [apps_init]. *)
Definition bootstrap2_inits (cfg : KConfig) : list KEvent :=
  [Ev_arch_init]
  ++ (if WITH_LIB_BIO cfg then [Ev_bio_init] else [])
  ++ (if WITH_LIB_FS cfg then [Ev_fs_init] else [])
  ++ [Ev_platform_init; Ev_target_init].

(** The calls of [kmain] before and after the constructors. *)
Definition kmain_early : list KEvent :=
  [Ev_thread_init_early; Ev_arch_early_init; Ev_platform_early_init;
   Ev_target_early_init; Ev_debug_init; Ev_bs_set_timestamp].

Definition kmain_late : list KEvent :=
  [Ev_heap_init; Ev_stack_chk_guard_setup; Ev_thread_init; Ev_dpc_init;
   Ev_timer_init].

(** The calls of [kmain] that hand over to [bootstrap2], when
    [thread_create] gives the thread [t]. *)
Definition kmain_handover (t : nat) : list KEvent :=
  [Ev_thread_create "bootstrap2" Body_bootstrap2; Ev_thread_resume t;
   Ev_exit_critical_section; Ev_thread_become_idle].

(** A state with one more call logged. *)
Definition logged (e : KEvent) (s : KState) : KState :=
  mkKState (calls s ++ [e]) (thread_create_calls s).

(** A sample boot, for the concrete instances below: aboot has an [init]
    routine only, the shell has both routines, and the third application
    is not started at boot. *)
Definition sample_kcfg : KConfig := mkKConfig false true false 1.

Definition sample_apps : list app_descriptor :=
  [mkApp "aboot" (Some 1%nat) None 0;
   mkApp "shell" (Some 2%nat) (Some 3%nat) 0;
   mkApp "tests" None (Some 4%nat) 1].

Definition sample_kenv (stuck : nat) (threads : nat -> option nat) : KEnv :=
  mkKEnv (fun func => negb (Nat.eqb func stuck)) threads.

Definition sample_kstate : KState := mkKState [] 0.

End Kernel.

(** * Proofs *)

(** ** Facts about the slot table *)

Module SlotFacts.
Import SlotTable.

Lemma find_boot_slot_not_invalid (tbl : t) :
  find_boot_slot tbl <> INVALID -> is_bootable (find_boot_slot tbl) tbl = true.
Proof.
  unfold find_boot_slot, is_bootable.
  destruct (find bootable tbl) as [e|] eqn:F; [intros _ | congruence].
  apply find_some in F. destruct F as [Hin Hb].
  apply existsb_exists. exists e. split; [exact Hin|].
  unfold has_index. rewrite Z.eqb_refl, Hb. reflexivity.
Qed.

Lemma find_boot_slot_invalid (tbl : t) :
  find_boot_slot tbl = INVALID <-> forall slot, is_bootable slot tbl = false.
Proof.
  unfold find_boot_slot, is_bootable. split.
  - destruct (find bootable tbl) as [e|] eqn:F.
    + unfold INVALID. lia.
    + intros _ slot.
      destruct (existsb _ tbl) eqn:E; [|reflexivity].
      apply existsb_exists in E. destruct E as [e [Hin He]].
      apply andb_true_iff in He.
      pose proof (find_none _ _ F e Hin). destruct He. congruence.
  - intros H. destruct (find bootable tbl) as [e|] eqn:F; [|reflexivity].
    apply find_some in F. destruct F as [Hin Hb].
    specialize (H (Z.of_nat (index e))).
    assert (existsb (fun e0 => has_index (Z.of_nat (index e)) e0 && bootable e0)
              tbl = true) as C.
    { apply existsb_exists. exists e. split; [exact Hin|].
      unfold has_index. rewrite Z.eqb_refl, Hb. reflexivity. }
    congruence.
Qed.

Lemma bootable_count_mark_active (slot : Z) (tbl : t) :
  bootable_count (mark_active_slot slot tbl) = bootable_count tbl.
Proof.
  unfold bootable_count, mark_active_slot.
  induction tbl as [|e tl IH]; simpl; [reflexivity|].
  destruct (bootable e); simpl; rewrite IH; reflexivity.
Qed.

Lemma is_bootable_mark_active (x slot : Z) (tbl : t) :
  is_bootable slot (mark_active_slot x tbl) = is_bootable slot tbl.
Proof.
  unfold is_bootable, mark_active_slot.
  induction tbl as [|e tl IH]; simpl; [reflexivity|].
  rewrite IH. reflexivity.
Qed.

Lemma bootable_count_deactivate_le (slot : Z) (tbl : t) :
  (bootable_count (deactivate_slot slot tbl) <= bootable_count tbl)%nat.
Proof.
  unfold bootable_count, deactivate_slot.
  induction tbl as [|e tl IH]; simpl; [lia|].
  destruct (has_index slot e); simpl; destruct (bootable e); simpl; lia.
Qed.

Lemma bootable_count_deactivate_lt (slot : Z) (tbl : t) :
  is_bootable slot tbl = true ->
  (bootable_count (deactivate_slot slot tbl) < bootable_count tbl)%nat.
Proof.
  unfold is_bootable.
  induction tbl as [|e tl IH]; simpl; [discriminate|].
  intros H. apply orb_true_iff in H.
  pose proof (bootable_count_deactivate_le slot tl) as Hle.
  unfold bootable_count, deactivate_slot in *. simpl.
  destruct (has_index slot e) eqn:Hi; simpl.
  - destruct (bootable e) eqn:Hb; simpl.
    + lia.
    + destruct H as [H|H]; [discriminate|]. apply IH. exact H.
  - destruct H as [H|H]; [discriminate|].
    specialize (IH H). destruct (bootable e); simpl; lia.
Qed.

Lemma is_bootable_deactivate_same (slot : Z) (tbl : t) :
  is_bootable slot (deactivate_slot slot tbl) = false.
Proof.
  unfold is_bootable, deactivate_slot.
  induction tbl as [|e tl IH]; simpl; [reflexivity|].
  rewrite IH. destruct (has_index slot e) eqn:Hi; simpl.
  - unfold has_index in *. simpl. rewrite andb_false_r. reflexivity.
  - rewrite Hi. reflexivity.
Qed.

Lemma is_bootable_deactivate_other (x slot : Z) (tbl : t) :
  slot <> x ->
  is_bootable slot (deactivate_slot x tbl) = is_bootable slot tbl.
Proof.
  intros Hne. unfold is_bootable, deactivate_slot.
  induction tbl as [|e tl IH]; simpl; [reflexivity|].
  rewrite IH. f_equal.
  destruct (has_index x e) eqn:Hx; [|reflexivity].
  unfold has_index in *. simpl.
  apply Z.eqb_eq in Hx.
  destruct (Z.of_nat (index e) =? slot) eqn:Hs; [|reflexivity].
  apply Z.eqb_eq in Hs. congruence.
Qed.

Lemma is_bootable_deactivate_mono (x slot : Z) (tbl : t) :
  is_bootable slot (deactivate_slot x tbl) = true ->
  is_bootable slot tbl = true.
Proof.
  destruct (Z.eq_dec slot x) as [->|Hne].
  - rewrite is_bootable_deactivate_same. discriminate.
  - rewrite is_bootable_deactivate_other by exact Hne. trivial.
Qed.

Lemma deactivate_slot_idempotent (slot : Z) (tbl : t) :
  deactivate_slot slot (deactivate_slot slot tbl) = deactivate_slot slot tbl.
Proof.
  unfold deactivate_slot. rewrite map_map. apply map_ext. intros e.
  destruct (has_index slot e) eqn:Hi.
  - unfold has_index in *. simpl. rewrite Hi. reflexivity.
  - rewrite Hi. reflexivity.
Qed.

End SlotFacts.

(** A pass that ends in [goto retry_boot] has deactivated a slot that was
    bootable: this is what makes the loop end. *)
Lemma boot_pass_retry_decreases (env : Env) (s s' : State) :
  boot_pass env s = Next GotoRetryBoot s' ->
  (SlotTable.bootable_count (slots s') < SlotTable.bootable_count (slots s))%nat.
Proof.
  unfold boot_pass, try_boot, boot_linux_from_mmc, partition_find_boot_slot,
    partition_mark_active_slot, partition_deactivate_slot,
    bind, emit, modify, gets, ret, stop.
  destruct (partition_multislot_is_supported env) eqn:Hm; simpl.
  - destruct (SlotTable.find_boot_slot (slots s) =? INVALID) eqn:Hinv; simpl;
      [discriminate|].
    destruct (boot_linux_from_mmc_ret env (mmc_calls s)) as [|err]; simpl;
      [discriminate|].
    destruct (retryable err); simpl; [|discriminate].
    intros H. injection H as <-. simpl.
    apply Z.eqb_neq in Hinv.
    eapply Nat.lt_le_trans.
    + apply SlotFacts.bootable_count_deactivate_lt.
      rewrite SlotFacts.is_bootable_mark_active.
      apply SlotFacts.find_boot_slot_not_invalid. exact Hinv.
    + rewrite SlotFacts.bootable_count_mark_active. lia.
  - destruct (boot_linux_from_mmc_ret env (mmc_calls s)) as [|err]; simpl;
      [discriminate|].
    destruct (retryable err); discriminate.
Qed.

(** ** Reasoning about steps *)

Lemma run_sat_bind {A B} (m : M A) (k : A -> M B) (s : State)
    (N' : A -> State -> Prop) (N : B -> State -> Prop)
    (E : Outcome -> State -> Prop) :
  run_sat (m s) N' E ->
  (forall a s', N' a s' -> run_sat (k a s') N E) ->
  run_sat (bind m k s) N E.
Proof.
  intros Hm Hk. unfold bind. unfold run_sat in Hm.
  destruct (m s) as [a s'|o s']; [apply Hk; exact Hm | exact Hm].
Qed.

Lemma run_sat_weaken {A} (r : Result A)
    (N N' : A -> State -> Prop) (E E' : Outcome -> State -> Prop) :
  run_sat r N E ->
  (forall a s, N a s -> N' a s) ->
  (forall o s, E o s -> E' o s) ->
  run_sat r N' E'.
Proof.
  intros H HN HE. destruct r; simpl in *; auto.
Qed.

Lemma final_state_bind {A B} (m : M A) (k : A -> M B) (s : State) :
  final_state (bind m k s) =
  match m s with
  | Next a s' => final_state (k a s')
  | Stop _ s' => s'
  end.
Proof.
  unfold bind. destruct (m s); reflexivity.
Qed.

Lemma keeps_bind {A B} (P : Event -> bool) (m : M A) (k : A -> M B) :
  keeps P m -> (forall a, keeps P (k a)) -> keeps P (bind m k).
Proof.
  intros Hm Hk s. rewrite final_state_bind.
  destruct (Hm s) as [n1 [E1 F1]].
  destruct (m s) as [a s'|o s']; simpl in *.
  - destruct (Hk a s') as [n2 [E2 F2]].
    exists (n1 ++ n2). rewrite E2, E1, app_assoc, forallb_app, F1, F2.
    split; reflexivity.
  - exists n1. split; assumption.
Qed.

Lemma keeps_nothing {A} (P : Event -> bool) (m : M A) :
  (forall s, trace (final_state (m s)) = trace s) -> keeps P m.
Proof.
  intros H s. exists []. rewrite app_nil_r. split; [apply H | reflexivity].
Qed.

Lemma keeps_ret {A} (P : Event -> bool) (a : A) : keeps P (ret a).
Proof. apply keeps_nothing. reflexivity. Qed.

Lemma keeps_stop {A} (P : Event -> bool) (o : Outcome) : keeps P (@stop A o).
Proof. apply keeps_nothing. reflexivity. Qed.

Lemma keeps_gets {A} (P : Event -> bool) (f : State -> A) : keeps P (gets f).
Proof. apply keeps_nothing. reflexivity. Qed.

Lemma keeps_modify (P : Event -> bool) (f : State -> State) :
  (forall s, trace (f s) = trace s) -> keeps P (modify f).
Proof. intros Hf. apply keeps_nothing. exact Hf. Qed.

Lemma keeps_emit (P : Event -> bool) (e : Event) :
  P e = true -> keeps P (emit e).
Proof.
  intros He s. exists [e]. simpl. rewrite He. split; reflexivity.
Qed.

Lemma keeps_when (P : Event -> bool) (c : bool) (m : M unit) :
  keeps P m -> keeps P (when c m).
Proof. intros Hm. destruct c; simpl; [exact Hm | apply keeps_ret]. Qed.

Lemma keeps_if {A} (P : Event -> bool) (c : bool) (m1 m2 : M A) :
  keeps P m1 -> keeps P m2 -> keeps P (if c then m1 else m2).
Proof. destruct c; auto. Qed.

Lemma keeps_ASSERT (P : Event -> bool) (c : bool) : keeps P (ASSERT c).
Proof. destruct c; apply keeps_nothing; reflexivity. Qed.

Lemma keeps_weaken {A} (P Q : Event -> bool) (m : M A) :
  (forall e, P e = true -> Q e = true) -> keeps P m -> keeps Q m.
Proof.
  intros HPQ Hm s. destruct (Hm s) as [new [E F]]. exists new.
  split; [exact E|]. rewrite forallb_forall in *. auto.
Qed.

Lemma count_events_app (q : Event -> bool) (l1 l2 : list Event) :
  count_events q (l1 ++ l2) = (count_events q l1 + count_events q l2)%nat.
Proof.
  unfold count_events. rewrite filter_app, length_app. reflexivity.
Qed.

Lemma count_events_none (P q : Event -> bool) (l : list Event) :
  (forall e, P e = true -> q e = false) ->
  forallb P l = true -> count_events q l = 0%nat.
Proof.
  intros HPq. unfold count_events.
  induction l as [|e tl IH]; simpl; [reflexivity|].
  intros H. apply andb_true_iff in H. destruct H as [He Htl].
  rewrite (HPq e He). apply IH. exact Htl.
Qed.

Lemma keeps_count {A} (P q : Event -> bool) (m : M A) (s : State) :
  (forall e, P e = true -> q e = false) -> keeps P m ->
  count_events q (trace (final_state (m s))) = count_events q (trace s).
Proof.
  intros HPq Hm. destruct (Hm s) as [new [E F]].
  rewrite E, count_events_app, (count_events_none P q new HPq F). lia.
Qed.

(** Takes a step apart along its binds and branches. *)
Ltac keeps_steps :=
  repeat first
    [ progress intros
    | apply keeps_bind
    | apply keeps_ret
    | apply keeps_stop
    | apply keeps_gets
    | apply keeps_ASSERT
    | apply keeps_modify; intros; reflexivity
    | apply keeps_emit; reflexivity
    | apply keeps_when
    | apply keeps_if
    | match goal with
      | |- keeps _ (match ?x with _ => _ end) => destruct x
      end ].

Section BlockEvents.

Variable cfg : Config.
Variable env : Env.
Variable P : Event -> bool.

Hypothesis init_in_P : forall e, is_init_event e = true -> P e = true.

Lemma keeps_init_globals : keeps P (init_globals cfg).
Proof.
  unfold init_globals, read_device_info.
  keeps_steps; apply keeps_emit; apply init_in_P; reflexivity.
Qed.

Lemma keeps_detect_active_slot : keeps P (detect_active_slot env).
Proof.
  unfold detect_active_slot, partition_find_active_slot,
    partition_mark_active_slot.
  keeps_steps; apply keeps_emit; apply init_in_P; reflexivity.
Qed.

Lemma keeps_wait_display_shutdown : keeps P (wait_display_shutdown env).
Proof.
  unfold wait_display_shutdown.
  destruct (display_shutdown_polls env) as [n|]; [|apply keeps_stop].
  intros s. eexists. split; [reflexivity|].
  generalize (S n). intros k.
  induction k as [|k IH]; simpl; [reflexivity|].
  rewrite init_in_P by reflexivity. exact IH.
Qed.

Lemma keeps_board_init : keeps P (board_init cfg env).
Proof.
  unfold board_init, display_init.
  keeps_steps;
    first [ apply keeps_wait_display_shutdown
          | apply keeps_emit; apply init_in_P; reflexivity ].
Qed.

End BlockEvents.

(** ** The blocks before the signal evaluation *)

Ltac unfold_steps :=
  unfold ASSERT, read_device_info, write_device_info,
    partition_find_active_slot, partition_mark_active_slot,
    partition_find_boot_slot, partition_deactivate_slot, reboot_device,
    send_delete_keys_to_tz, lk2nd_boot, boot_linux_from_mmc,
    boot_linux_from_flash, wait_display_shutdown,
    when, emit, modify, gets, stop, bind, ret in *.

Lemma init_globals_flow (cfg : Config) (s : State) :
  run_sat (init_globals cfg s)
    (fun _ s' =>
       slots s' = slots s /\ persisted s' = persisted s /\
       boot_into_fastboot s' = boot_into_fastboot s /\
       boot_into_recovery s' = boot_into_recovery s)
    (fun o _ => o = Halted).
Proof.
  unfold init_globals. unfold_steps.
  destruct (WDOG_SUPPORT cfg); simpl;
    destruct (MEMBASE cfg <? u32 (MEMBASE cfg + MEMSIZE cfg)); simpl;
    destruct (ABOOT_STANDALONE cfg); simpl; auto.
Qed.

Lemma detect_active_slot_flow (env : Env) (s : State) :
  run_sat (detect_active_slot env s)
    (fun _ s' =>
       persisted s' = persisted s /\
       boot_into_recovery s' = boot_into_recovery s /\
       boot_into_fastboot s' =
         boot_into_fastboot s
         || (partition_multislot_is_supported env
             && (SlotTable.find_active_slot (slots s) =? INVALID)))
    (fun _ _ => False).
Proof.
  unfold detect_active_slot. unfold_steps.
  destruct (partition_multislot_is_supported env); simpl;
    [destruct (SlotTable.find_active_slot (slots s) =? INVALID); simpl|];
    rewrite ?orb_true_r, ?orb_false_r; repeat split; reflexivity.
Qed.

Lemma board_init_flow (cfg : Config) (env : Env) (s : State) :
  run_sat (board_init cfg env s)
    (fun _ s' =>
       persisted s' = persisted s /\
       boot_into_recovery s' = boot_into_recovery s /\
       boot_into_fastboot s' = boot_into_fastboot s)
    (fun o _ => o = Hung).
Proof.
  unfold board_init, display_init. unfold_steps.
  destruct (WITH_LK2ND cfg), (DISPLAY_SPLASH_SCREEN cfg),
    (NO_ALARM_DISPLAY cfg), (check_alarm_boot env),
    (DISPLAY_HDMI_PRIMARY cfg), (ENABLE_WBC cfg),
    (display_shutdown_polls env), (pm_appsbl_display_init_done env),
    (sn_buf_filled env); simpl;
    try destruct (Nat.eqb (String.length (display_panel (device s))) 0);
    simpl; auto.
Qed.

(** ** The signal evaluation *)

Section SignalFacts.

Variable cfg : Config.
Variable env : Env.

Lemma check_keys_flow (s : State) :
  run_sat (check_keys cfg env s)
    (fun _ s' =>
       dload_taken env = false /\
       device s' = device s /\ persisted s' = persisted s /\
       slots s' = slots s /\ mmc_calls s' = mmc_calls s /\
       boot_reason_alarm s' = boot_reason_alarm s /\
       (boot_into_fastboot s = true -> boot_into_fastboot s' = true) /\
       (both_volume_keys env = true -> boot_into_fastboot s' = true) /\
       trace s' = trace s ++ key_events env)
    (fun o s' =>
       o = DloadReset /\ dload_taken env = true /\
       device s' = device s /\ persisted s' = persisted s /\
       trace s' = trace s ++ [Ev_reboot_device EMERGENCY_DLOAD]).
Proof.
  unfold check_keys, dload_taken, key_events, both_volume_keys.
  unfold_steps.
  destruct (keys_get_state env KEY_VOLUMEUP),
    (keys_get_state env KEY_VOLUMEDOWN),
    (reboot_device_returns env); simpl;
    destruct (boot_into_fastboot s) eqn:Hfb; simpl;
    destruct (boot_into_recovery s) eqn:Hrec; simpl;
    destruct (keys_get_state env KEY_HOME),
      (keys_get_state env KEY_BACK),
      (NO_KEYPAD_DRIVER cfg), (fastboot_trigger env); simpl;
    rewrite ?app_nil_r; repeat split; auto; discriminate.
Qed.

(** The flags the key checks latch when they start from cleared flags. *)
Lemma check_keys_fresh (s : State) :
  boot_into_fastboot s = false ->
  boot_into_recovery s = false ->
  dload_taken env = false ->
  exists s',
    check_keys cfg env s = Next tt s' /\
    boot_into_fastboot s' =
      both_volume_keys env
      || (negb (keys_get_state env KEY_VOLUMEUP)
          && (keys_get_state env KEY_HOME || keys_get_state env KEY_BACK
              || keys_get_state env KEY_VOLUMEDOWN))
      || (NO_KEYPAD_DRIVER cfg && fastboot_trigger env) /\
    boot_into_recovery s' =
      negb (both_volume_keys env) && keys_get_state env KEY_VOLUMEUP /\
    boot_reason_alarm s' = boot_reason_alarm s /\
    trace s' = trace s ++ key_events env.
Proof.
  unfold check_keys, dload_taken, key_events, both_volume_keys.
  unfold_steps. intros Hfb Hrec.
  destruct (keys_get_state env KEY_VOLUMEUP),
    (keys_get_state env KEY_VOLUMEDOWN),
    (reboot_device_returns env); simpl; try discriminate; intros _;
    rewrite ?Hfb, ?Hrec; simpl; rewrite ?Hfb, ?Hrec; simpl;
    destruct (keys_get_state env KEY_HOME),
      (keys_get_state env KEY_BACK),
      (NO_KEYPAD_DRIVER cfg), (fastboot_trigger env); simpl;
    rewrite ?app_nil_r; eexists; repeat split; auto.
Qed.

Lemma read_reboot_mode_flow (s : State) :
  exists e,
    is_register_read e = true /\
    read_reboot_mode cfg env s =
    Next (selected_reboot_mode cfg env) (set_trace (trace s ++ [e]) s).
Proof.
  unfold read_reboot_mode, selected_reboot_mode. unfold_steps.
  destruct (USE_PON_REBOOT_REG cfg); simpl; eexists; split;
    try reflexivity; reflexivity.
Qed.

End SignalFacts.

Section PolicyFacts.

Variable cfg : Config.
Variable env : Env.

Ltac split_policy :=
  unfold apply_reboot_mode, logging_reason, vb_supported in *;
  unfold_steps;
  destruct (VERIFIED_BOOT cfg), (VERIFIED_BOOT_2 cfg),
    (VB_M cfg <=? target_get_vb_version env), (ENABLE_VB_ATTEST cfg),
    (write_device_info_ok env), (send_delete_keys_to_tz_ret env =? 0);
  simpl in *.

Lemma apply_reboot_mode_flags (mode : reboot_reason) (s : State) :
  let s' := final_state (apply_reboot_mode cfg env mode s) in
  boot_into_fastboot s' =
    boot_into_fastboot s || reason_eqb mode FASTBOOT_MODE /\
  boot_into_recovery s' =
    boot_into_recovery s || reason_eqb mode RECOVERY_MODE /\
  boot_reason_alarm s' =
    boot_reason_alarm s || reason_eqb mode ALARM_BOOT /\
  slots s' = slots s /\ mmc_calls s' = mmc_calls s.
Proof.
  destruct mode; split_policy;
    rewrite ?orb_true_r, ?orb_false_r; repeat split; reflexivity.
Qed.

Lemma apply_reboot_mode_halts (mode : reboot_reason) (s : State) :
  run_sat (apply_reboot_mode cfg env mode s)
    (fun _ _ => True) (fun o _ => o = Halted).
Proof.
  destruct mode; split_policy; auto.
Qed.

Lemma apply_reboot_mode_enforcing (s : State) :
  vb_supported cfg env = true ->
  apply_reboot_mode cfg env DM_VERITY_ENFORCING s =
  let d := set_verity_mode 1 (device s) in
  let s1 := set_trace (trace s ++ [Ev_write_device_info d])
                      (set_device d s) in
  if write_device_info_ok env
  then Next tt (set_persisted d s1)
  else Stop Halted s1.
Proof.
  split_policy; intros H; try discriminate; reflexivity.
Qed.

Lemma apply_reboot_mode_logging (s : State) :
  vb_supported cfg env = true ->
  apply_reboot_mode cfg env (logging_reason cfg) s =
  let d := set_verity_mode 0 (device s) in
  let s1 := set_trace (trace s ++ [Ev_write_device_info d])
                      (set_device d s) in
  if write_device_info_ok env
  then Next tt (set_persisted d s1)
  else Stop Halted s1.
Proof.
  split_policy; intros H; try discriminate; reflexivity.
Qed.

Lemma apply_reboot_mode_keysclear (s : State) :
  vb_supported cfg env = true ->
  apply_reboot_mode cfg env DM_VERITY_KEYSCLEAR s =
  let s1 := set_trace (trace s ++ [Ev_send_delete_keys_to_tz]) s in
  if send_delete_keys_to_tz_ret env =? 0
  then Next tt s1
  else Stop Halted s1.
Proof.
  split_policy; intros H; try discriminate; reflexivity.
Qed.

Lemma apply_reboot_mode_unsupported (mode : reboot_reason) (s : State) :
  vb_supported cfg env = false ->
  exists s',
    apply_reboot_mode cfg env mode s = Next tt s' /\
    device s' = device s /\ persisted s' = persisted s /\
    trace s' = trace s.
Proof.
  destruct mode; split_policy; intros H; try discriminate;
    eexists; repeat split; reflexivity.
Qed.

(** The chain calls [write_device_info] at most once, and nothing else
    but [send_delete_keys_to_tz]. *)
Lemma apply_reboot_mode_events (mode : reboot_reason) (s : State) :
  exists new,
    trace (final_state (apply_reboot_mode cfg env mode s)) = trace s ++ new /\
    forallb is_policy_event new = true /\
    (count_events is_write_device_info new <= 1)%nat.
Proof.
  destruct mode; split_policy;
    first [ exists []; rewrite app_nil_r; repeat split; auto; fail
          | eexists; repeat split; auto ].
Qed.

Lemma keeps_apply_reboot_mode (mode : reboot_reason) :
  keeps is_policy_event (apply_reboot_mode cfg env mode).
Proof.
  unfold apply_reboot_mode, write_device_info, send_delete_keys_to_tz.
  keeps_steps.
Qed.

Lemma keeps_signal_and_policy :
  keeps is_signal_event (signal_and_policy cfg env).
Proof.
  unfold signal_and_policy, evaluate_signals.
  keeps_steps.
Qed.

End PolicyFacts.

(** ** The boot path *)

(** One turn of the loop. *)
Lemma retry_boot_step (env : Env) (s : State) :
  retry_boot env s =
  match boot_pass env s with
  | Next GotoRetryBoot s' => retry_boot env s'
  | Next _ s' => Next tt s'
  | Stop o s' => Stop o s'
  end.
Proof.
  rewrite retry_boot_equation_1. unfold retry_boot_unfold_clause_1.
  destruct (boot_pass env s) as [[]|]; reflexivity.
Qed.

(** Induction along the turns of the loop. *)
Lemma retry_boot_induction (env : Env) (Q : State -> Result unit -> Prop) :
  (forall s s', boot_pass env s = Next GotoRetryBoot s' ->
                Q s' (retry_boot env s') -> Q s (retry_boot env s')) ->
  (forall s s' e, e <> GotoRetryBoot -> boot_pass env s = Next e s' ->
                  Q s (Next tt s')) ->
  (forall s o s', boot_pass env s = Stop o s' -> Q s (Stop o s')) ->
  forall s, Q s (retry_boot env s).
Proof.
  intros Hretry Hout Hstop s.
  remember (SlotTable.bootable_count (slots s)) as n eqn:Hn.
  revert s Hn. induction n as [n IH] using lt_wf_ind. intros s Hn.
  rewrite retry_boot_step.
  destruct (boot_pass env s) as [e s'|o s'] eqn:E.
  - destruct e.
    + apply Hretry; [exact E|].
      apply (IH (SlotTable.bootable_count (slots s'))); [|reflexivity].
      subst n. apply (boot_pass_retry_decreases env). exact E.
    + apply (Hout s s' GotoFastboot); [discriminate | exact E].
    + apply (Hout s s' Break); [discriminate | exact E].
  - apply Hstop. exact E.
Qed.

Section BootPathEvents.

Variable cfg : Config.
Variable env : Env.
Variable P : Event -> bool.

Hypothesis boot_path_in_P :
  forall e, is_boot_path_event e = true -> P e = true.

Lemma keeps_boot_pass : keeps P (boot_pass env).
Proof.
  unfold boot_pass, try_boot, boot_linux_from_mmc,
    partition_find_boot_slot, partition_mark_active_slot,
    partition_deactivate_slot.
  keeps_steps; apply keeps_emit; apply boot_path_in_P; reflexivity.
Qed.

Lemma keeps_retry_boot : keeps P (retry_boot env).
Proof.
  intros s. pattern s, (retry_boot env s). apply retry_boot_induction.
  - intros s0 s' E [n2 [E2 F2]].
    destruct (keeps_boot_pass s0) as [n1 [E1 F1]]. rewrite E in E1.
    simpl in E1. exists (n1 ++ n2).
    rewrite E2, E1, app_assoc, forallb_app, F1, F2. split; reflexivity.
  - intros s0 s' e _ E.
    destruct (keeps_boot_pass s0) as [n1 [E1 F1]]. rewrite E in E1.
    exists n1. split; assumption.
  - intros s0 o s' E.
    destruct (keeps_boot_pass s0) as [n1 [E1 F1]]. rewrite E in E1.
    exists n1. split; assumption.
Qed.

Lemma keeps_normal_boot : keeps P (normal_boot cfg env).
Proof.
  unfold normal_boot, signal_tamper, lk2nd_boot, boot_linux_from_flash.
  keeps_steps;
    first [ apply keeps_retry_boot
          | apply keeps_emit; apply boot_path_in_P; reflexivity ].
Qed.

End BootPathEvents.

Lemma keeps_fastboot (cfg : Config) (env : Env) :
  keeps is_fastboot_start (fastboot cfg env).
Proof.
  unfold fastboot. keeps_steps.
Qed.

Lemma fastboot_returns (cfg : Config) (env : Env) (s : State) :
  exists s', fastboot cfg env s = Next tt s'.
Proof.
  unfold fastboot. unfold_steps.
  destruct (target_is_emmc_boot env),
    (FBCON_DISPLAY_MSG cfg || WITH_LK2ND_DEVICE_MENU cfg); simpl;
    eexists; reflexivity.
Qed.

(** With [boot_into_fastboot] set the whole block under the [normal_boot]
    label is skipped. *)
Lemma normal_boot_skipped (cfg : Config) (env : Env) (s : State) :
  boot_into_fastboot s = true -> normal_boot cfg env s = Next tt s.
Proof.
  intros H. unfold normal_boot. unfold_steps. rewrite H. reflexivity.
Qed.

(** ** The signal and policy block as a whole *)

Section SignalAndPolicy.

Variable cfg : Config.
Variable env : Env.

Lemma force_fastboot_flag_flow (s : State) :
  exists s',
    force_fastboot_flag cfg s = Next tt s' /\
    device s' = device s /\ persisted s' = persisted s /\
    trace s' = trace s /\ slots s' = slots s /\
    boot_into_fastboot s' =
      boot_into_fastboot s || LK2ND_FORCE_FASTBOOT cfg.
Proof.
  unfold force_fastboot_flag. unfold_steps.
  destruct (LK2ND_FORCE_FASTBOOT cfg); simpl; eexists;
    rewrite ?orb_true_r, ?orb_false_r; repeat split; reflexivity.
Qed.

(** Under a forced reset the block is the jump alone. *)
Lemma signal_and_policy_forced (s : State) :
  is_user_force_reset env = true ->
  signal_and_policy cfg env s =
  Next tt (set_trace (trace s ++ [Ev_is_user_force_reset]) s).
Proof.
  intros H. unfold signal_and_policy. unfold_steps. simpl.
  rewrite H. reflexivity.
Qed.

(** When both volume keys are down and the reset request works, the block
    ends in the reset. *)
Lemma signal_and_policy_dload (s : State) :
  is_user_force_reset env = false ->
  dload_taken env = true ->
  exists s',
    signal_and_policy cfg env s = Stop DloadReset s' /\
    device s' = device s /\ persisted s' = persisted s /\
    trace s' =
      trace s ++ [Ev_is_user_force_reset; Ev_reboot_device EMERGENCY_DLOAD].
Proof.
  intros Hf Hd. unfold signal_and_policy, evaluate_signals.
  unfold bind at 1. unfold emit at 1, modify at 1. rewrite Hf.
  unfold bind at 1. unfold bind at 1.
  pose proof (check_keys_flow cfg env
                (set_trace (trace s ++ [Ev_is_user_force_reset]) s)) as K.
  destruct (check_keys cfg env _) as [[] s1|o s1]; simpl in K.
  - destruct K as [K _]. congruence.
  - destruct K as [-> [_ [Kd [Kp Kt]]]]. exists s1.
    simpl in *. rewrite Kt, <- app_assoc. repeat split; auto.
Qed.

(** Otherwise the reset-reason register is read and the chain over
    [reboot_mode] runs, whatever the keys said. *)
Lemma signal_and_policy_reaches_chain (s : State) :
  is_user_force_reset env = false ->
  dload_taken env = false ->
  exists s2 e,
    signal_and_policy cfg env s =
    bind (apply_reboot_mode cfg env (selected_reboot_mode cfg env))
         (fun _ => force_fastboot_flag cfg) s2 /\
    is_register_read e = true /\
    trace s2 = trace s ++ [Ev_is_user_force_reset] ++ key_events env ++ [e] /\
    device s2 = device s /\ persisted s2 = persisted s /\
    slots s2 = slots s /\ mmc_calls s2 = mmc_calls s /\
    (boot_into_fastboot s = true -> boot_into_fastboot s2 = true) /\
    (both_volume_keys env = true -> boot_into_fastboot s2 = true).
Proof.
  intros Hf Hd. unfold signal_and_policy, evaluate_signals.
  unfold bind at 1. unfold emit at 1, modify at 1. rewrite Hf.
  unfold bind at 1. unfold bind at 1.
  pose proof (check_keys_flow cfg env
                (set_trace (trace s ++ [Ev_is_user_force_reset]) s)) as K.
  destruct (check_keys cfg env _) as [[] s1|o s1]; simpl in K.
  - destruct K as [_ [Kd [Kp [Ks [Km [_ [Kf [Kb Kt]]]]]]]].
    destruct (read_reboot_mode_flow cfg env s1) as [e [He Hr]].
    unfold bind at 1. rewrite Hr.
    exists (set_trace (trace s1 ++ [e]) s1), e. simpl.
    rewrite Kt, <- !app_assoc. repeat split; auto.
  - destruct K as [_ [K _]]. congruence.
Qed.

End SignalAndPolicy.

(** ** C10: a forced reset leaves the device state alone *)

(** C10.  If the forced-user-reset indicator is set, the signal and policy
    block of [aboot_init] is the jump to [normal_boot] alone: whatever the
    reset-reason register holds, [device] and the stored record are left as
    they are and [write_device_info] is not called (the only call logged is
    the forced-reset query itself). *)
Theorem forced_reset_leaves_device_state
    (cfg : Config) (env : Env) (s : State) :
  is_user_force_reset env = true ->
  exists s',
    signal_and_policy cfg env s = Next tt s' /\
    device s' = device s /\
    persisted s' = persisted s /\
    trace s' = trace s ++ [Ev_is_user_force_reset] /\
    count_events is_write_device_info (trace s') =
    count_events is_write_device_info (trace s).
Proof.
  intros H. rewrite (signal_and_policy_forced cfg env s H).
  eexists. split; [reflexivity|]. simpl.
  rewrite count_events_app.
  replace (count_events is_write_device_info [Ev_is_user_force_reset])
    with 0%nat by reflexivity.
  repeat split; try reflexivity. apply Nat.add_0_r.
Qed.

Lemma forced_reset_leaves_device_state_witness :
  exists s',
    signal_and_policy (sample_cfg false 2)
      (sample_env true [] true DM_VERITY_ENFORCING true 0
                  (fun _ => KernelRuns))
      sample_state = Next tt s' /\
    device s' = device sample_state /\
    persisted s' = persisted sample_state /\
    trace s' = trace sample_state ++ [Ev_is_user_force_reset] /\
    count_events is_write_device_info (trace s') =
    count_events is_write_device_info (trace sample_state).
Proof.
  apply forced_reset_leaves_device_state. reflexivity.
Defined.

(** ** Calls of [write_device_info] in one boot *)

Notation "'writes'" := (count_events is_write_device_info).

Lemma writes_bind_le {A B} (m : M A) (k : A -> M B) (n1 n2 : nat) :
  (forall s, (writes (trace (final_state (m s))) <= writes (trace s) + n1)%nat) ->
  (forall a s,
      (writes (trace (final_state (k a s))) <= writes (trace s) + n2)%nat) ->
  forall s,
    (writes (trace (final_state (bind m k s))) <=
     writes (trace s) + (n1 + n2))%nat.
Proof.
  intros Hm Hk s. rewrite final_state_bind. specialize (Hm s).
  destruct (m s) as [a s'|o s']; simpl in *.
  - specialize (Hk a s'). lia.
  - lia.
Qed.

Lemma writes_keeps {A} (P : Event -> bool) (m : M A) :
  (forall e, P e = true -> is_write_device_info e = false) ->
  keeps P m ->
  forall s, (writes (trace (final_state (m s))) <= writes (trace s) + 0)%nat.
Proof.
  intros HP Hm s. rewrite (keeps_count P _ m s HP Hm). lia.
Qed.

Lemma init_event_no_write (e : Event) :
  is_init_event e = true -> is_write_device_info e = false.
Proof. destruct e; simpl; congruence. Qed.

Lemma signal_read_no_write (e : Event) :
  is_signal_read e = true -> is_write_device_info e = false.
Proof. destruct e; simpl; congruence. Qed.

Lemma boot_path_no_write (e : Event) :
  is_boot_path_event e = true -> is_write_device_info e = false.
Proof. destruct e; simpl; congruence. Qed.

Lemma fastboot_start_no_write (e : Event) :
  is_fastboot_start e = true -> is_write_device_info e = false.
Proof. destruct e; simpl; congruence. Qed.

Section Writes.

Variable cfg : Config.
Variable env : Env.

Lemma key_events_signal_read :
  forallb is_signal_read (key_events env) = true.
Proof.
  unfold key_events. destruct (both_volume_keys env); reflexivity.
Qed.

Lemma chain_writes (mode : reboot_reason) (s : State) :
  (writes (trace (final_state
                    (bind (apply_reboot_mode cfg env mode)
                          (fun _ => force_fastboot_flag cfg) s))) <=
   writes (trace s) + 1)%nat.
Proof.
  rewrite final_state_bind.
  destruct (apply_reboot_mode_events cfg env mode s) as [new [E [_ C]]].
  destruct (apply_reboot_mode cfg env mode s) as [[] s1|o s1];
    simpl in E.
  - destruct (force_fastboot_flag_flow cfg s1) as [s2 [-> [_ [_ [T _]]]]].
    simpl. rewrite T, E, count_events_app. lia.
  - rewrite E, count_events_app. lia.
Qed.

Lemma signal_and_policy_writes (s : State) :
  (writes (trace (final_state (signal_and_policy cfg env s))) <=
   writes (trace s) + 1)%nat.
Proof.
  destruct (is_user_force_reset env) eqn:Hf.
  - rewrite signal_and_policy_forced by exact Hf. simpl.
    rewrite count_events_app.
    replace (writes [Ev_is_user_force_reset]) with 0%nat by reflexivity.
    lia.
  - destruct (dload_taken env) eqn:Hd.
    + destruct (signal_and_policy_dload cfg env s Hf Hd)
        as [s' [-> [_ [_ T]]]].
      simpl. rewrite T, count_events_app.
      replace (writes [Ev_is_user_force_reset;
                       Ev_reboot_device EMERGENCY_DLOAD])
        with 0%nat by reflexivity.
      lia.
    + destruct (signal_and_policy_reaches_chain cfg env s Hf Hd)
        as [s2 [e [-> [He [T _]]]]].
      pose proof (chain_writes (selected_reboot_mode cfg env) s2) as C.
      assert (writes (trace s2) = writes (trace s)) as W.
      { rewrite T, !count_events_app.
        rewrite (count_events_none is_signal_read _ [Ev_is_user_force_reset]
                   signal_read_no_write eq_refl).
        rewrite (count_events_none is_signal_read _ (key_events env)
                   signal_read_no_write key_events_signal_read).
        rewrite (count_events_none is_register_read _ [e]).
        - lia.
        - intros e0. destruct e0; simpl; congruence.
        - simpl. rewrite He. reflexivity. }
      lia.
Qed.

(** [write_device_info] is called at most once between the entry of
    [aboot_init] and its end. *)
Lemma aboot_init_writes (s : State) :
  (writes (trace (final_state (aboot_init cfg env s))) <=
   writes (trace s) + 1)%nat.
Proof.
  unfold aboot_init.
  change 1%nat with (0 + (0 + (0 + (1 + (0 + 0)))))%nat.
  apply writes_bind_le;
    [apply (writes_keeps is_init_event);
       [exact init_event_no_write | apply keeps_init_globals; auto]|].
  intros _. apply writes_bind_le;
    [apply (writes_keeps is_init_event);
       [exact init_event_no_write | apply keeps_detect_active_slot; auto]|].
  intros _. apply writes_bind_le;
    [apply (writes_keeps is_init_event);
       [exact init_event_no_write | apply keeps_board_init; auto]|].
  intros _. apply writes_bind_le; [apply signal_and_policy_writes|].
  intros _. apply writes_bind_le;
    [apply (writes_keeps is_boot_path_event);
       [exact boot_path_no_write | apply keeps_normal_boot; auto]|].
  intros _. apply (writes_keeps is_fastboot_start);
    [exact fastboot_start_no_write | apply keeps_fastboot].
Qed.

(** Below the minimum version the block leaves [device] and the stored
    record alone and only reads signals. *)
Lemma signal_and_policy_unsupported (s : State) :
  vb_supported cfg env = false ->
  let s' := final_state (signal_and_policy cfg env s) in
  device s' = device s /\ persisted s' = persisted s /\
  exists new, trace s' = trace s ++ new /\
              forallb is_signal_read new = true.
Proof.
  intros Hvb. destruct (is_user_force_reset env) eqn:Hf.
  - rewrite signal_and_policy_forced by exact Hf. simpl.
    repeat split. exists [Ev_is_user_force_reset]. split; reflexivity.
  - destruct (dload_taken env) eqn:Hd.
    + destruct (signal_and_policy_dload cfg env s Hf Hd)
        as [s' [-> [D [Pe T]]]].
      simpl. repeat split; auto. eexists. split; [exact T | reflexivity].
    + destruct (signal_and_policy_reaches_chain cfg env s Hf Hd)
        as [s2 [e [-> [He [T [D [Pe _]]]]]]].
      destruct (apply_reboot_mode_unsupported cfg env
                  (selected_reboot_mode cfg env) s2 Hvb)
        as [s3 [E3 [D3 [P3 T3]]]].
      unfold bind. rewrite E3.
      destruct (force_fastboot_flag_flow cfg s3)
        as [s4 [-> [D4 [P4 [T4 _]]]]].
      simpl. repeat split; try congruence.
      exists ([Ev_is_user_force_reset] ++ key_events env ++ [e]).
      split; [congruence|].
      rewrite !forallb_app, key_events_signal_read. simpl.
      destruct e; simpl in *; congruence.
Qed.

Lemma aboot_init_no_writes (s : State) :
  vb_supported cfg env = false ->
  writes (trace (final_state (aboot_init cfg env s))) = writes (trace s).
Proof.
  intros Hvb.
  assert (keeps (fun e => negb (is_write_device_info e))
                (aboot_init cfg env)) as K.
  { unfold aboot_init.
    apply keeps_bind;
      [apply keeps_init_globals; intros e; destruct e; simpl; congruence|].
    intros _. apply keeps_bind;
      [apply keeps_detect_active_slot; intros e; destruct e; simpl;
       congruence|].
    intros _. apply keeps_bind;
      [apply keeps_board_init; intros e; destruct e; simpl; congruence|].
    intros _. apply keeps_bind.
    { apply keeps_weaken with (P := is_signal_read);
        [intros e; destruct e; simpl; congruence|].
      intros s0.
      destruct (signal_and_policy_unsupported s0 Hvb) as [_ [_ H]].
      exact H. }
    intros _. apply keeps_bind;
      [apply keeps_normal_boot; intros e; destruct e; simpl; congruence|].
    intros _. apply keeps_weaken with (P := is_fastboot_start);
      [intros e; destruct e; simpl; congruence | apply keeps_fastboot]. }
  apply (keeps_count (fun e => negb (is_write_device_info e))
                     is_write_device_info (aboot_init cfg env) s);
    [|exact K].
  intros e. destruct (is_write_device_info e); simpl; congruence.
Qed.

End Writes.

(** ** C6: the verity-mode transitions *)

Section VerityTransitions.

Variable cfg : Config.
Variable env : Env.

(** The chain on a reason code that selects a verity mode [v]. *)
Lemma chain_sets_verity (mode : reboot_reason) (v : Z) (s : State) :
  vb_supported cfg env = true ->
  (mode = DM_VERITY_ENFORCING /\ v = 1) \/
  (mode = logging_reason cfg /\ v = 0) ->
  let r := bind (apply_reboot_mode cfg env mode)
                (fun _ => force_fastboot_flag cfg) s in
  let d := set_verity_mode v (device s) in
  device (final_state r) = d /\
  trace (final_state r) = trace s ++ [Ev_write_device_info d] /\
  (write_device_info_ok env = true ->
   (exists s', r = Next tt s') /\ persisted (final_state r) = d) /\
  (write_device_info_ok env = false ->
   (exists s', r = Stop Halted s') /\
   persisted (final_state r) = persisted s).
Proof.
  intros Hvb Hmode. unfold bind.
  assert (apply_reboot_mode cfg env mode s =
          let d := set_verity_mode v (device s) in
          let s1 := set_trace (trace s ++ [Ev_write_device_info d])
                              (set_device d s) in
          if write_device_info_ok env
          then Next tt (set_persisted d s1)
          else Stop Halted s1) as E.
  { destruct Hmode as [[-> ->]|[-> ->]];
      [apply apply_reboot_mode_enforcing | apply apply_reboot_mode_logging];
      exact Hvb. }
  rewrite E. simpl.
  destruct (write_device_info_ok env); simpl.
  - match goal with
    | |- context [force_fastboot_flag cfg ?s1] =>
        destruct (force_fastboot_flag_flow cfg s1)
          as [s2 [-> [D [Pe [T _]]]]]
    end.
    simpl in *. repeat split; try congruence.
    eexists; reflexivity.
  - repeat split; try congruence. eexists; reflexivity.
Qed.

End VerityTransitions.



(** ** From the entry of [aboot_init] to the signal evaluation *)

Section Prelude.

Variable cfg : Config.
Variable env : Env.

Lemma aboot_init_split (s : State) :
  aboot_init cfg env s = bind (prelude cfg env) (fun _ => decide cfg env) s.
Proof.
  unfold aboot_init, prelude, decide, bind.
  destruct (init_globals cfg s) as [[] s1|o s1]; [|reflexivity].
  destruct (detect_active_slot env s1) as [slot s2|o s2]; [|reflexivity].
  destruct (board_init cfg env s2) as [[] s3|o s3]; reflexivity.
Qed.

Lemma keeps_prelude : keeps is_init_event (prelude cfg env).
Proof.
  unfold prelude.
  apply keeps_bind; [apply keeps_init_globals; auto|]. intros _.
  apply keeps_bind; [apply keeps_detect_active_slot; auto|]. intros _.
  apply keeps_board_init; auto.
Qed.

(** The prelude goes on to the signal evaluation unless the memory layout
    check halts the boot or the display wait never ends. *)
Lemma prelude_flow (s : State) :
  run_sat (prelude cfg env s)
    (fun _ s' =>
       persisted s' = persisted s /\
       boot_into_recovery s' = boot_into_recovery s /\
       boot_into_fastboot s' =
         boot_into_fastboot s
         || (partition_multislot_is_supported env
             && (SlotTable.find_active_slot (slots s) =? INVALID)))
    (fun o _ => o = Halted \/ o = Hung).
Proof.
  unfold prelude.
  eapply run_sat_bind.
  { eapply run_sat_weaken; [apply init_globals_flow | |].
    - intros a s1 H. exact H.
    - intros o s1 ->. left. reflexivity. }
  intros [] s1 [S1 [P1 [F1 R1]]].
  eapply run_sat_bind.
  { eapply run_sat_weaken; [apply detect_active_slot_flow | |].
    - intros a s2 H. exact H.
    - intros o s2 []. }
  intros slot s2 [P2 [R2 F2]].
  eapply run_sat_weaken; [apply board_init_flow | |].
  - intros [] s3 [P3 [R3 F3]].
    rewrite P3, R3, F3, P2, R2, F2, S1, P1, F1, R1. repeat split.
  - intros o s3 ->. right. reflexivity.
Qed.

(** When the signal evaluation halts whatever state it starts from, a
    whole run of [aboot_init] produces no decision and has called nothing
    beyond initialisation and signal evaluation. *)
Lemma halt_in_signal_no_decision :
  (forall s, exists s', signal_and_policy cfg env s = Stop Halted s') ->
  forall s0,
    let r := aboot_init cfg env s0 in
    decision_of r = None /\
    exists new,
      trace (final_state r) = trace s0 ++ new /\
      forallb (fun e => is_init_event e || is_signal_event e) new = true.
Proof.
  intros Hhalt s0 r.
  assert (r = bind (prelude cfg env) (fun _ => decide cfg env) s0) as Hr
    by apply aboot_init_split.
  clearbody r. unfold bind at 1 in Hr.
  pose proof (prelude_flow s0) as F.
  destruct (keeps_prelude s0) as [n1 [E1 K1]].
  destruct (prelude cfg env s0) as [[] s1|o s1]; simpl in F, E1.
  - unfold decide, bind at 1 in Hr.
    destruct (Hhalt s1) as [s2 Hs2].
    destruct (keeps_signal_and_policy cfg env s1) as [n2 [E2 K2]].
    rewrite Hs2 in *. simpl in *. subst r. split; [reflexivity|].
    exists (n1 ++ n2). simpl. rewrite E2, E1, app_assoc.
    split; [reflexivity|].
    rewrite forallb_app. apply andb_true_iff. split.
    + rewrite forallb_forall in *. intros e He. rewrite (K1 e He).
      reflexivity.
    + rewrite forallb_forall in *. intros e He. rewrite (K2 e He).
      apply orb_true_r.
  - subst r. simpl. split; [destruct F as [-> | ->]; reflexivity|].
    exists n1. split; [exact E1|].
    rewrite forallb_forall in *. intros e He. rewrite (K1 e He).
    reflexivity.
Qed.

End Prelude.

Lemma init_or_signal_not_boot (l : list Event) :
  forallb (fun e => is_init_event e || is_signal_event e) l = true ->
  forallb (fun e => negb (is_boot_attempt e || is_fastboot_start e)) l = true.
Proof.
  intros H. rewrite forallb_forall in *. intros e He.
  specialize (H e He). unfold is_signal_event in H.
  destruct e; simpl in *; congruence.
Qed.

(** ** C4: a failed key deletion halts the boot *)

(** C4.  On a build at or above the minimum verified-boot version, when the
    reset reason is [DM_VERITY_KEYSCLEAR] (and the block is not
    short-circuited by a forced reset or an emergency reset) and
    [send_delete_keys_to_tz] reports a failure, the signal and policy block
    halts with that call as its last one, after signal reads only (the
    request is made once); a whole run of [aboot_init] then produces no
    boot decision and calls neither a kernel loader nor the fastboot
    service. *)
Theorem key_clear_failure_halts (cfg : Config) (env : Env) :
  vb_supported cfg env = true ->
  is_user_force_reset env = false ->
  dload_taken env = false ->
  selected_reboot_mode cfg env = DM_VERITY_KEYSCLEAR ->
  send_delete_keys_to_tz_ret env <> 0 ->
  (forall s, exists s' pre,
      signal_and_policy cfg env s = Stop Halted s' /\
      trace s' = trace s ++ pre ++ [Ev_send_delete_keys_to_tz] /\
      forallb is_signal_read pre = true) /\
  (forall stored ram tbl,
      let r := aboot_init cfg env (boot_entry stored ram tbl) in
      decision_of r = None /\
      forallb (fun e => negb (is_boot_attempt e || is_fastboot_start e))
              (trace (final_state r)) = true).
Proof.
  intros Hvb Hf Hd Hmode Hret.
  assert (forall s, exists s' pre,
             signal_and_policy cfg env s = Stop Halted s' /\
             trace s' = trace s ++ pre ++ [Ev_send_delete_keys_to_tz] /\
             forallb is_signal_read pre = true) as Hsig.
  { intros s.
    destruct (signal_and_policy_reaches_chain cfg env s Hf Hd)
      as [s2 [e [E [He [T _]]]]].
    rewrite E, Hmode. unfold bind.
    rewrite (apply_reboot_mode_keysclear cfg env s2 Hvb). cbv zeta.
    apply Z.eqb_neq in Hret. rewrite Hret.
    eexists. exists ([Ev_is_user_force_reset] ++ key_events env ++ [e]).
    split; [reflexivity|]. split.
    - simpl. rewrite T, <- !app_assoc. reflexivity.
    - rewrite !forallb_app, key_events_signal_read. simpl.
      destruct e; simpl in *; congruence. }
  split; [exact Hsig|].
  intros stored ram tbl r.
  destruct (halt_in_signal_no_decision cfg env) with
    (s0 := boot_entry stored ram tbl) as [Hdec [new [Htr Hnew]]].
  { intros s. destruct (Hsig s) as [s' [pre [H _]]]. exists s'. exact H. }
  split; [exact Hdec|].
  subst r. rewrite Htr. simpl. apply init_or_signal_not_boot. exact Hnew.
Qed.

Lemma key_clear_failure_halts_witness :
  let cfg := sample_cfg false 2 in
  let env := sample_env false [KEY_VOLUMEDOWN] true DM_VERITY_KEYSCLEAR true 1
                        (fun _ => KernelRuns) in
  (exists s',
      signal_and_policy cfg env sample_state = Stop Halted s' /\
      trace s' = [Ev_is_user_force_reset; Ev_check_reboot_mode;
                  Ev_send_delete_keys_to_tz]) /\
  decision_of (aboot_init cfg env sample_state) = None.
Proof.
  intros cfg env.
  assert (send_delete_keys_to_tz_ret env <> 0) as Hret
    by (simpl; discriminate).
  destruct (key_clear_failure_halts cfg env eq_refl eq_refl eq_refl eq_refl
              Hret) as [H1 H2].
  split.
  - destruct (H1 sample_state) as [s' [pre [E _]]].
    exists s'. split; [exact E|].
    vm_compute in E. injection E as <-. reflexivity.
  - destruct (H2 sample_device sample_device sample_slots) as [H _].
    exact H.
Defined.

(** ** C9: a failed write of the device state halts the boot *)

(** C9.  When a verity-mode transition applies (build at or above the
    minimum version, reason [DM_VERITY_ENFORCING] or the logging code, block
    not short-circuited) and the write of the device state fails, the
    signal and policy block halts with the call of [write_device_info] as
    its last one and the stored record unchanged; a whole run of
    [aboot_init] then produces no boot decision and calls neither a kernel
    loader nor the fastboot service. *)
Theorem persist_failure_halts (cfg : Config) (env : Env) :
  vb_supported cfg env = true ->
  is_user_force_reset env = false ->
  dload_taken env = false ->
  selected_reboot_mode cfg env = DM_VERITY_ENFORCING \/
  selected_reboot_mode cfg env = logging_reason cfg ->
  write_device_info_ok env = false ->
  (forall s, exists s' pre d,
      signal_and_policy cfg env s = Stop Halted s' /\
      trace s' = trace s ++ pre ++ [Ev_write_device_info d] /\
      forallb is_signal_read pre = true /\
      persisted s' = persisted s) /\
  (forall stored ram tbl,
      let r := aboot_init cfg env (boot_entry stored ram tbl) in
      decision_of r = None /\
      forallb (fun e => negb (is_boot_attempt e || is_fastboot_start e))
              (trace (final_state r)) = true).
Proof.
  intros Hvb Hf Hd Hmode Hw.
  assert (forall s, exists s' pre d,
             signal_and_policy cfg env s = Stop Halted s' /\
             trace s' = trace s ++ pre ++ [Ev_write_device_info d] /\
             forallb is_signal_read pre = true /\
             persisted s' = persisted s) as Hsig.
  { intros s.
    destruct (signal_and_policy_reaches_chain cfg env s Hf Hd)
      as [s2 [e [E [He [T [_ [Pe _]]]]]]].
    assert (exists v,
               (selected_reboot_mode cfg env = DM_VERITY_ENFORCING /\ v = 1) \/
               (selected_reboot_mode cfg env = logging_reason cfg /\ v = 0))
      as [v Hv].
    { destruct Hmode as [H|H]; [exists 1; left | exists 0; right]; auto. }
    pose proof (chain_sets_verity cfg env (selected_reboot_mode cfg env)
                  v s2 Hvb Hv) as C.
    cbv zeta in C. destruct C as [_ [C2 [_ C4]]].
    destruct (C4 Hw) as [[s' Hs'] Hp].
    rewrite E, Hs' in *. simpl in *.
    exists s', ([Ev_is_user_force_reset] ++ key_events env ++ [e]),
      (set_verity_mode v (device s2)).
    split; [reflexivity|]. split; [|split].
    - rewrite C2, T, <- app_assoc. reflexivity.
    - rewrite !forallb_app, key_events_signal_read. simpl.
      destruct e; simpl in *; congruence.
    - congruence. }
  split; [exact Hsig|].
  intros stored ram tbl r.
  destruct (halt_in_signal_no_decision cfg env) with
    (s0 := boot_entry stored ram tbl) as [Hdec [new [Htr Hnew]]].
  { intros s. destruct (Hsig s) as [s' [pre [d [H _]]]]. exists s'. exact H. }
  split; [exact Hdec|].
  subst r. rewrite Htr. simpl. apply init_or_signal_not_boot. exact Hnew.
Qed.

Lemma persist_failure_halts_witness :
  let cfg := sample_cfg false 2 in
  let env := sample_env false [] true DM_VERITY_ENFORCING false 0
                        (fun _ => KernelRuns) in
  (exists s',
      signal_and_policy cfg env sample_state = Stop Halted s' /\
      persisted s' = persisted sample_state) /\
  decision_of (aboot_init cfg env sample_state) = None.
Proof.
  intros cfg env.
  destruct (persist_failure_halts cfg env eq_refl eq_refl eq_refl
              (or_introl eq_refl) eq_refl) as [H1 H2].
  split.
  - destruct (H1 sample_state) as [s' [pre [d [E [_ [_ Hp]]]]]].
    exists s'. split; assumption.
  - destruct (H2 sample_device sample_device sample_slots) as [H _].
    exact H.
Defined.

(** ** Runs that arrive at the [normal_boot] label with the fastboot flag set *)

Section FastbootLatched.

Variable cfg : Config.
Variable env : Env.

(** [boot_into_fastboot] is never cleared by the block, the failed
    emergency reset sets it, and so does the force-fastboot flag; the block
    is left early only by a halt or by the emergency reset. *)
Lemma signal_and_policy_latched (s : State) :
  boot_into_fastboot s = true \/
  (is_user_force_reset env = false /\
   (both_volume_keys env = true \/ LK2ND_FORCE_FASTBOOT cfg = true)) ->
  run_sat (signal_and_policy cfg env s)
    (fun _ s' => boot_into_fastboot s' = true)
    (fun o _ =>
       o = Halted \/
       (o = DloadReset /\ is_user_force_reset env = false /\
        dload_taken env = true)).
Proof.
  intros H. destruct (is_user_force_reset env) eqn:Hf.
  - rewrite signal_and_policy_forced by exact Hf. simpl.
    destruct H as [H|[H _]]; [exact H | discriminate].
  - destruct (dload_taken env) eqn:Hd.
    + destruct (signal_and_policy_dload cfg env s Hf Hd) as [s' [-> _]].
      simpl. right. auto.
    + destruct (signal_and_policy_reaches_chain cfg env s Hf Hd)
        as [s2 [e [-> [_ [_ [_ [_ [_ [_ [Kf Kb]]]]]]]]]].
      pose proof (apply_reboot_mode_halts cfg env
                    (selected_reboot_mode cfg env) s2) as Hh.
      pose proof (apply_reboot_mode_flags cfg env
                    (selected_reboot_mode cfg env) s2) as [F3 _].
      unfold bind.
      destruct (apply_reboot_mode cfg env (selected_reboot_mode cfg env) s2)
        as [[] s3|o s3]; simpl in Hh, F3.
      * destruct (force_fastboot_flag_flow cfg s3)
          as [s4 [-> [_ [_ [_ [_ F4]]]]]].
        simpl. rewrite F4, F3.
        destruct H as [H|[_ [H|H]]].
        -- rewrite (Kf H). reflexivity.
        -- rewrite (Kb H). reflexivity.
        -- rewrite H. apply orb_true_r.
      * simpl. left. exact Hh.
Qed.

(** A run whose signal evaluation ends with the flag set goes straight to
    the fastboot service: nothing is called between the signal evaluation
    and the [fastboot] label. *)
Lemma run_with_fastboot_latched (s0 : State) (E : Outcome -> Prop) :
  (forall s1,
      boot_into_fastboot s1 =
        boot_into_fastboot s0
        || (partition_multislot_is_supported env
            && (SlotTable.find_active_slot (slots s0) =? INVALID)) ->
      run_sat (signal_and_policy cfg env s1)
        (fun _ s' => boot_into_fastboot s' = true) (fun o _ => E o)) ->
  let r := aboot_init cfg env s0 in
  run_sat r (fun _ _ => True) (fun o _ => o = Halted \/ o = Hung \/ E o) /\
  exists new,
    trace (final_state r) = trace s0 ++ new /\
    forallb (fun e => is_init_event e || is_signal_event e
                      || is_fastboot_start e) new = true.
Proof.
  intros Hsig r.
  assert (r = bind (prelude cfg env) (fun _ => decide cfg env) s0) as Hr
    by apply aboot_init_split.
  clearbody r. unfold bind at 1 in Hr.
  pose proof (prelude_flow cfg env s0) as F.
  destruct (keeps_prelude cfg env s0) as [n1 [E1 K1]].
  assert (forall n, forallb is_init_event n = true ->
                    forallb (fun e => is_init_event e || is_signal_event e
                                      || is_fastboot_start e) n = true) as I1.
  { intros n Hn. rewrite forallb_forall in *. intros e He.
    rewrite (Hn e He). reflexivity. }
  assert (forall n, forallb is_signal_event n = true ->
                    forallb (fun e => is_init_event e || is_signal_event e
                                      || is_fastboot_start e) n = true) as I2.
  { intros n Hn. rewrite forallb_forall in *. intros e He.
    rewrite (Hn e He). rewrite orb_true_r. reflexivity. }
  assert (forall n, forallb is_fastboot_start n = true ->
                    forallb (fun e => is_init_event e || is_signal_event e
                                      || is_fastboot_start e) n = true) as I3.
  { intros n Hn. rewrite forallb_forall in *. intros e He.
    rewrite (Hn e He). apply orb_true_r. }
  destruct (prelude cfg env s0) as [[] s1|o s1]; simpl in F, E1.
  - destruct F as [_ [_ F]]. specialize (Hsig s1 F).
    destruct (keeps_signal_and_policy cfg env s1) as [n2 [E2 K2]].
    unfold decide, bind at 1 in Hr.
    destruct (signal_and_policy cfg env s1) as [[] s2|o s2];
      simpl in Hsig, E2.
    + unfold bind at 1 in Hr.
      rewrite (normal_boot_skipped cfg env s2 Hsig) in Hr.
      destruct (keeps_fastboot cfg env s2) as [n3 [E3 K3]].
      destruct (fastboot_returns cfg env s2) as [s3 Hs3].
      rewrite Hs3 in *. simpl in E3. subst r. simpl. split; [exact I|].
      exists (n1 ++ n2 ++ n3).
      rewrite E3, E2, E1, <- !app_assoc. split; [reflexivity|].
      rewrite !forallb_app, (I1 _ K1), (I2 _ K2), (I3 _ K3). reflexivity.
    + subst r. simpl. split; [auto|].
      exists (n1 ++ n2). rewrite E2, E1, <- app_assoc.
      split; [reflexivity|].
      rewrite forallb_app, (I1 _ K1), (I2 _ K2). reflexivity.
  - subst r. simpl. split; [destruct F; auto|].
    exists n1. split; [exact E1 | apply I1; exact K1].
Qed.

End FastbootLatched.

Lemma no_boot_attempt_outside_boot_path (l : list Event) :
  forallb (fun e => is_init_event e || is_signal_event e
                    || is_fastboot_start e) l = true ->
  forallb (fun e => negb (is_boot_attempt e)) l = true.
Proof.
  intros H. rewrite forallb_forall in *. intros e He.
  specialize (H e He). unfold is_signal_event in H.
  destruct e; simpl in *; congruence.
Qed.

(** The decisions of a run that can only end in the fastboot service, in a
    halt or hang, or in the emergency reset. *)
Lemma decision_of_latched_run (r : Result unit) (C : Prop) :
  run_sat r (fun _ _ => True)
    (fun o _ => o = Halted \/ o = Hung \/ (o = Halted \/ (o = DloadReset /\ C))) ->
  decision_of r = Some EnterFastboot \/
  decision_of r = None \/
  (decision_of r = Some EnterEmergencyDownload /\ C).
Proof.
  destruct r as [[] s|o s]; simpl; [auto|].
  intros [->|[->|[->|[-> HC]]]]; simpl; auto.
Qed.

(** ** C7: both volume keys *)




(** ** C3: no active slot *)

(** C3, as stated, fails: in a multi-slot boot without an active slot, with
    both volume keys down and a working emergency reset, the run ends in
    the reset into emergency download, not in the fastboot service. *)
Lemma no_active_slot_emergency_download :
  let cfg := sample_cfg false 2 in
  let env := sample_env false [KEY_VOLUMEUP; KEY_VOLUMEDOWN] false
                        NORMAL_MODE true 0 (fun _ => KernelRuns) in
  let r := aboot_init cfg env
             (boot_entry sample_device sample_device inactive_slots) in
  partition_multislot_is_supported env = true /\
  SlotTable.find_active_slot inactive_slots = INVALID /\
  decision_of r = Some EnterEmergencyDownload /\
  decision_of r <> Some EnterFastboot.
Proof.
  vm_compute. repeat split; discriminate.
Qed.

(** C3, amended.  On a multi-slot system where [partition_find_active_slot]
    finds no slot, a run of [aboot_init] never calls a kernel loader, and
    whatever the forced-reset indicator, the keys and the reset reason are,
    the decision it produces is EnterFastboot, except that with the
    forced-reset indicator clear, both volume keys down and a working
    emergency reset it is EnterEmergencyDownload; a run cut short by a halt
    or hang produces none. *)
Theorem no_active_slot_decision
    (cfg : Config) (env : Env) (stored ram : device_info) (tbl : SlotTable.t) :
  partition_multislot_is_supported env = true ->
  SlotTable.find_active_slot tbl = INVALID ->
  let r := aboot_init cfg env (boot_entry stored ram tbl) in
  forallb (fun e => negb (is_boot_attempt e)) (trace (final_state r)) = true /\
  (decision_of r = Some EnterFastboot \/
   decision_of r = None \/
   (decision_of r = Some EnterEmergencyDownload /\
    is_user_force_reset env = false /\ dload_taken env = true)).
Proof.
  intros Hm Ha r.
  destruct (run_with_fastboot_latched cfg env (boot_entry stored ram tbl)
              (fun o => o = Halted \/
                        (o = DloadReset /\ is_user_force_reset env = false /\
                         dload_taken env = true)))
    as [R [new [T N]]].
  { intros s1 Hs1. apply signal_and_policy_latched. left.
    rewrite Hs1. simpl. rewrite Hm, Ha. reflexivity. }
  fold r in R, T. split.
  - rewrite T. simpl. apply no_boot_attempt_outside_boot_path. exact N.
  - apply decision_of_latched_run. exact R.
Qed.

Lemma no_active_slot_decision_witness :
  let cfg := sample_cfg false 2 in
  let env := sample_env false [KEY_VOLUMEUP] true RECOVERY_MODE true 0
                        (fun _ => KernelRuns) in
  let r := aboot_init cfg env
             (boot_entry sample_device sample_device inactive_slots) in
  forallb (fun e => negb (is_boot_attempt e)) (trace (final_state r)) = true /\
  decision_of r = Some EnterFastboot.
Proof.
  intros cfg env.
  destruct (no_active_slot_decision cfg env sample_device sample_device
              inactive_slots eq_refl eq_refl) as [N [D|[D|[D _]]]];
    [split; [exact N | exact D]
    | vm_compute in D; discriminate D
    | vm_compute in D; discriminate D].
Defined.

(** ** C5: the force-fastboot flag *)

(** C5, as stated, fails: with the force-fastboot flag compiled in and the
    forced-reset indicator set, the jump to [normal_boot] skips the flag
    and the run starts the kernel. *)
Lemma force_fastboot_skipped_by_forced_reset :
  let cfg := sample_cfg true 2 in
  let env := sample_env true [] true NORMAL_MODE true 0
                        (fun _ => KernelRuns) in
  let r := aboot_init cfg env sample_state in
  LK2ND_FORCE_FASTBOOT cfg = true /\
  decision_of r = Some StartNormal /\
  decision_of r <> Some EnterFastboot.
Proof.
  vm_compute. repeat split; discriminate.
Qed.

(** C5, amended.  With the force-fastboot flag compiled in: when the
    forced-reset indicator is clear, a run of [aboot_init] never calls a
    kernel loader, and for every combination of the other signals and of
    slot health the decision it produces is EnterFastboot, except that with
    both volume keys down and a working emergency reset it is
    EnterEmergencyDownload (a run cut short by a halt or hang produces
    none); when the forced-reset indicator is set, the signal and policy
    block leaves [boot_into_fastboot] as it was. *)
Theorem force_fastboot_decision (cfg : Config) (env : Env) :
  LK2ND_FORCE_FASTBOOT cfg = true ->
  (is_user_force_reset env = false ->
   forall stored ram tbl,
     let r := aboot_init cfg env (boot_entry stored ram tbl) in
     forallb (fun e => negb (is_boot_attempt e))
             (trace (final_state r)) = true /\
     (decision_of r = Some EnterFastboot \/
      decision_of r = None \/
      (decision_of r = Some EnterEmergencyDownload /\
       dload_taken env = true))) /\
  (is_user_force_reset env = true ->
   forall s, exists s',
     signal_and_policy cfg env s = Next tt s' /\
     boot_into_fastboot s' = boot_into_fastboot s).
Proof.
  intros Hflag. split.
  - intros Hf stored ram tbl r.
    destruct (run_with_fastboot_latched cfg env (boot_entry stored ram tbl)
                (fun o => o = Halted \/
                          (o = DloadReset /\ dload_taken env = true)))
      as [R [new [T N]]].
    { intros s1 _. eapply run_sat_weaken.
      - apply signal_and_policy_latched. right. auto.
      - auto.
      - intros o s' [->|[-> [_ H]]]; auto. }
    fold r in R, T. split.
    + rewrite T. simpl. apply no_boot_attempt_outside_boot_path. exact N.
    + apply decision_of_latched_run. exact R.
  - intros Hf s. rewrite (signal_and_policy_forced cfg env s Hf).
    eexists. split; reflexivity.
Qed.

Lemma force_fastboot_decision_witness :
  let cfg := sample_cfg true 2 in
  let env := sample_env false [KEY_VOLUMEUP] true RECOVERY_MODE true 0
                        (fun _ => KernelRuns) in
  let r := aboot_init cfg env sample_state in
  forallb (fun e => negb (is_boot_attempt e)) (trace (final_state r)) = true /\
  decision_of r = Some EnterFastboot.
Proof.
  intros cfg env.
  destruct (force_fastboot_decision cfg env eq_refl) as [H _].
  destruct (H eq_refl sample_device sample_device sample_slots)
    as [N [D|[D|[D _]]]];
    [split; [exact N | exact D]
    | vm_compute in D; discriminate D
    | vm_compute in D; discriminate D].
Defined.

(** ** C1: the resolution of the reboot intent *)

(** C1, as stated, fails: with only the volume-up key down and a reset
    reason of [FASTBOOT_MODE], the key-based intent (Recovery) has fired and
    is the first positive match, yet the register is read and its reason is
    latched as well; the run ends in the fastboot service. *)
Lemma register_read_after_key_intent :
  let cfg := sample_cfg false 2 in
  let env := sample_env false [KEY_VOLUMEUP] true FASTBOOT_MODE true 0
                        (fun _ => KernelRuns) in
  let s' := final_state (signal_and_policy cfg env sample_state) in
  key_intent_spec env = Recovery /\
  resolve_intent_spec cfg env = Recovery /\
  existsb is_register_read (trace s') = true /\
  latched s' = (true, true, false) /\
  latched s' <> flags_of_intent (resolve_intent_spec cfg env) /\
  decision_of (aboot_init cfg env sample_state) = Some EnterFastboot.
Proof.
  vm_compute. repeat split; discriminate.
Qed.

Lemma flags_of_key_intent (env : Env) :
  flags_of_intent (key_intent_spec env) =
  (both_volume_keys env
   || (negb (keys_get_state env KEY_VOLUMEUP)
       && (keys_get_state env KEY_HOME || keys_get_state env KEY_BACK
           || keys_get_state env KEY_VOLUMEDOWN)),
   negb (both_volume_keys env) && keys_get_state env KEY_VOLUMEUP,
   false).
Proof.
  unfold key_intent_spec, both_volume_keys.
  destruct (keys_get_state env KEY_VOLUMEUP),
    (keys_get_state env KEY_VOLUMEDOWN), (keys_get_state env KEY_HOME),
    (keys_get_state env KEY_BACK); reflexivity.
Qed.

Lemma flags_of_trigger_intent (cfg : Config) (env : Env) :
  flags_of_intent (trigger_intent_spec cfg env) =
  (NO_KEYPAD_DRIVER cfg && fastboot_trigger env, false, false).
Proof.
  unfold trigger_intent_spec.
  destruct (NO_KEYPAD_DRIVER cfg && fastboot_trigger env); reflexivity.
Qed.

Lemma flags_of_register_intent (cfg : Config) (env : Env) :
  flags_of_intent (register_intent_spec cfg env) =
  (reason_eqb (selected_reboot_mode cfg env) FASTBOOT_MODE,
   reason_eqb (selected_reboot_mode cfg env) RECOVERY_MODE,
   reason_eqb (selected_reboot_mode cfg env) ALARM_BOOT).
Proof.
  unfold register_intent_spec, logging_reason.
  destruct (selected_reboot_mode cfg env), (vb_supported cfg env),
    (ENABLE_VB_ATTEST cfg); reflexivity.
Qed.

(** The flags and the calls of lines 125-196, started with cleared flags. *)
Lemma evaluate_signals_fresh (cfg : Config) (env : Env) (s : State) :
  latched s = (false, false, false) ->
  dload_taken env = false ->
  let s' := final_state (evaluate_signals cfg env s) in
  latched s' =
    merge_flags (flags_of_intent (key_intent_spec env))
      (merge_flags (flags_of_intent (trigger_intent_spec cfg env))
                   (flags_of_intent (register_intent_spec cfg env))) /\
  exists e rest,
    is_register_read e = true /\
    trace s' = trace s ++ key_events env ++ [e] ++ rest /\
    forallb is_policy_event rest = true.
Proof.
  unfold latched. intros Hl Hd. injection Hl as Hfb Hrec Hal.
  destruct (check_keys_fresh cfg env s Hfb Hrec Hd)
    as [s1 [E1 [F1 [R1 [A1 T1]]]]].
  destruct (read_reboot_mode_flow cfg env s1) as [e [He E2]].
  unfold evaluate_signals, bind. rewrite E1, E2.
  set (s2 := set_trace (trace s1 ++ [e]) s1).
  pose proof (apply_reboot_mode_flags cfg env
                (selected_reboot_mode cfg env) s2) as [F3 [R3 [A3 _]]].
  destruct (apply_reboot_mode_events cfg env
              (selected_reboot_mode cfg env) s2) as [rest [T3 [K3 _]]].
  cbv zeta. split.
  - rewrite F3, R3, A3. subst s2. simpl. rewrite F1, R1, A1, Hal.
    rewrite flags_of_key_intent, flags_of_trigger_intent,
      flags_of_register_intent.
    unfold merge_flags. simpl. rewrite <- ?orb_assoc. reflexivity.
  - exists e, rest. split; [exact He|]. split; [|exact K3].
    rewrite T3. subst s2. simpl. rewrite T1, <- !app_assoc. reflexivity.
Qed.

(** C1, amended.  Started with cleared flags, the signal evaluation follows
    the order forced reset, both keys, single keys, register: a set
    forced-reset indicator ends the block at once, and so does a working
    emergency reset; among the keys the first match wins.  The register,
    however, is read on every other run, also after a key-based intent
    fired, and the flags of its reason are latched on top of those of the
    keys; the register alone decides when no key-based intent fired. *)
Theorem signal_evaluation_order (cfg : Config) (env : Env) (s : State) :
  latched s = (false, false, false) ->
  (is_user_force_reset env = true ->
   signal_and_policy cfg env s =
   Next tt (set_trace (trace s ++ [Ev_is_user_force_reset]) s)) /\
  (is_user_force_reset env = false ->
   dload_taken env = true ->
   exists s',
     signal_and_policy cfg env s = Stop DloadReset s' /\
     trace s' =
     trace s ++ [Ev_is_user_force_reset; Ev_reboot_device EMERGENCY_DLOAD]) /\
  (dload_taken env = false ->
   let s' := final_state (evaluate_signals cfg env s) in
   latched s' =
     merge_flags (flags_of_intent (key_intent_spec env))
       (merge_flags (flags_of_intent (trigger_intent_spec cfg env))
                    (flags_of_intent (register_intent_spec cfg env))) /\
   exists e rest,
     is_register_read e = true /\
     trace s' = trace s ++ key_events env ++ [e] ++ rest /\
     forallb is_policy_event rest = true) /\
  (is_user_force_reset env = false ->
   key_intent_spec env = IntentNone ->
   trigger_intent_spec cfg env = IntentNone ->
   latched (final_state (evaluate_signals cfg env s)) =
   flags_of_intent (resolve_intent_spec cfg env)).
Proof.
  intros Hl. split; [|split; [|split]].
  - apply signal_and_policy_forced.
  - intros Hf Hd.
    destruct (signal_and_policy_dload cfg env s Hf Hd) as [s' [E [_ [_ T]]]].
    exists s'. split; assumption.
  - intros Hd. apply evaluate_signals_fresh; assumption.
  - intros Hf Hk Ht.
    assert (dload_taken env = false) as Hd.
    { unfold dload_taken. unfold key_intent_spec in Hk.
      destruct (both_volume_keys env); [discriminate | reflexivity]. }
    destruct (evaluate_signals_fresh cfg env s Hl Hd) as [H _].
    rewrite H. unfold resolve_intent_spec. rewrite Hf, Hk, Ht. simpl.
    destruct (flags_of_intent (register_intent_spec cfg env)) as [[f r] a].
    reflexivity.
Qed.

Lemma signal_evaluation_order_witness :
  let cfg := sample_cfg false 2 in
  let env := sample_env false [KEY_VOLUMEUP] true FASTBOOT_MODE true 0
                        (fun _ => KernelRuns) in
  let s' := final_state (evaluate_signals cfg env sample_state) in
  latched s' = (true, true, false) /\
  exists e rest,
    is_register_read e = true /\
    trace s' = trace sample_state ++ key_events env ++ [e] ++ rest /\
    forallb is_policy_event rest = true.
Proof.
  intros cfg env.
  destruct (signal_evaluation_order cfg env sample_state eq_refl)
    as [_ [_ [H _]]].
  exact (H eq_refl).
Defined.

(** ** The loop when every attempt fails *)

Lemma app_eq_app_first (x : Event) (n1 n2 pre post : list Event) :
  n1 ++ n2 = pre ++ x :: post ->
  ~ In x n1 ->
  exists pre2, pre = n1 ++ pre2 /\ n2 = pre2 ++ x :: post.
Proof.
  revert pre. induction n1 as [|a n1 IH]; intros pre E Hn.
  - exists pre. split; [reflexivity | exact E].
  - destruct pre as [|b pre]; simpl in E.
    + injection E as -> _. exfalso. apply Hn. left. reflexivity.
    + injection E as -> E.
      destruct (IH pre E) as [pre2 [-> ->]].
      * intros H. apply Hn. right. exact H.
      * exists pre2. split; reflexivity.
Qed.

Lemma boot_pass_all_failing (env : Env) (s : State) :
  partition_multislot_is_supported env = true ->
  all_retryable env ->
  let slot := SlotTable.find_boot_slot (slots s) in
  (slot = INVALID /\
   exists s1,
     boot_pass env s = Next GotoFastboot s1 /\
     slots s1 = SlotTable.mark_active_slot INVALID (slots s) /\
     trace s1 = trace s ++ [Ev_partition_find_boot_slot;
                            Ev_partition_mark_active_slot INVALID]) \/
  (slot <> INVALID /\
   exists s1,
     boot_pass env s = Next GotoRetryBoot s1 /\
     slots s1 = SlotTable.deactivate_slot slot
                  (SlotTable.mark_active_slot slot (slots s)) /\
     trace s1 = trace s ++ [Ev_partition_find_boot_slot;
                            Ev_partition_mark_active_slot slot;
                            Ev_boot_linux_from_mmc slot;
                            Ev_partition_deactivate_slot slot]).
Proof.
  intros Hm Hall slot. subst slot.
  unfold boot_pass, try_boot, boot_linux_from_mmc, partition_find_boot_slot,
    partition_mark_active_slot, partition_deactivate_slot,
    bind, emit, modify, gets, ret, stop.
  rewrite Hm. simpl.
  destruct (SlotTable.find_boot_slot (slots s) =? INVALID) eqn:Hinv.
  - left. apply Z.eqb_eq in Hinv. split; [exact Hinv|].
    eexists. split; [reflexivity|]. simpl. rewrite Hinv, <- app_assoc.
    split; reflexivity.
  - right. apply Z.eqb_neq in Hinv. split; [exact Hinv|].
    destruct (Hall (mmc_calls s)) as [err [Herr Hr]]. simpl.
    rewrite Herr. simpl. rewrite Hr.
    eexists. split; [reflexivity|]. simpl. rewrite <- !app_assoc.
    split; reflexivity.
Qed.

Lemma retry_boot_all_failing (env : Env) :
  partition_multislot_is_supported env = true ->
  all_retryable env ->
  forall s, exists s' new,
    retry_boot env s = Next tt s' /\
    trace s' = trace s ++ new /\
    loop_events (slots s) new (slots s').
Proof.
  intros Hm Hall s. pattern s, (retry_boot env s).
  apply retry_boot_induction.
  - intros s0 s1 E [s' [new [R [T L]]]].
    destruct (boot_pass_all_failing env s0 Hm Hall)
      as [[_ [s2 [E2 _]]]|[Hne [s2 [E2 [S2 T2]]]]]; [congruence|].
    rewrite E in E2. injection E2 as <-.
    exists s'. eexists. split; [exact R|]. split.
    + rewrite T, T2, <- app_assoc. reflexivity.
    + simpl. apply loop_retry; [reflexivity | exact Hne|].
      rewrite <- S2. exact L.
  - intros s0 s1 e Hne E.
    destruct (boot_pass_all_failing env s0 Hm Hall)
      as [[Hi [s2 [E2 [S2 T2]]]]|[_ [s2 [E2 _]]]]; [|congruence].
    rewrite E in E2. injection E2 as _ <-.
    exists s1. eexists. split; [reflexivity|]. split; [exact T2|].
    rewrite S2. apply loop_exhausted. exact Hi.
  - intros s0 o s1 E.
    destruct (boot_pass_all_failing env s0 Hm Hall)
      as [[_ [s2 [E2 _]]]|[_ [s2 [E2 _]]]]; congruence.
Qed.

Section LoopEvents.
Import SlotTable.

Lemma attempted_app (l1 l2 : list Event) :
  attempted (l1 ++ l2) = attempted l1 ++ attempted l2.
Proof.
  induction l1 as [|e l1 IH]; simpl; [reflexivity|].
  destruct e; simpl; rewrite ?IH; reflexivity.
Qed.

Lemma loop_attempts_bootable tbl new tbl' :
  loop_events tbl new tbl' ->
  forall slot, In slot (attempted new) -> is_bootable slot tbl = true.
Proof.
  induction 1 as [tbl Hi|tbl slot new tbl' Hs Hne L IH]; simpl.
  - intros slot [].
  - intros x [<-|Hx].
    + subst slot. apply SlotFacts.find_boot_slot_not_invalid. exact Hne.
    + specialize (IH x Hx).
      apply SlotFacts.is_bootable_deactivate_mono in IH.
      rewrite SlotFacts.is_bootable_mark_active in IH. exact IH.
Qed.

Lemma loop_attempts_nodup tbl new tbl' :
  loop_events tbl new tbl' -> NoDup (attempted new).
Proof.
  induction 1 as [tbl Hi|tbl slot new tbl' Hs Hne L IH]; simpl.
  - constructor.
  - constructor; [|exact IH].
    intros Hin. apply (loop_attempts_bootable _ _ _ L) in Hin.
    rewrite SlotFacts.is_bootable_deactivate_same in Hin. discriminate.
Qed.

Lemma loop_attempts_all tbl new tbl' :
  loop_events tbl new tbl' ->
  forall slot, is_bootable slot tbl = true -> In slot (attempted new).
Proof.
  induction 1 as [tbl Hi|tbl slot new tbl' Hs Hne L IH]; simpl.
  - intros slot Hb.
    pose proof (proj1 (SlotFacts.find_boot_slot_invalid tbl) Hi slot).
    congruence.
  - intros x Hb. destruct (Z.eq_dec slot x) as [->|Hx]; [left; reflexivity|].
    right. apply IH.
    rewrite SlotFacts.is_bootable_deactivate_other by congruence.
    rewrite SlotFacts.is_bootable_mark_active. exact Hb.
Qed.

Lemma loop_leaves_none_bootable tbl new tbl' :
  loop_events tbl new tbl' -> forall slot, is_bootable slot tbl' = false.
Proof.
  induction 1 as [tbl Hi|tbl slot new tbl' Hs Hne L IH].
  - intros slot. rewrite SlotFacts.is_bootable_mark_active.
    apply SlotFacts.find_boot_slot_invalid. exact Hi.
  - exact IH.
Qed.

Lemma loop_attempts_count tbl new tbl' :
  loop_events tbl new tbl' ->
  (List.length (attempted new) <= bootable_count tbl)%nat.
Proof.
  induction 1 as [tbl Hi|tbl slot new tbl' Hs Hne L IH]; simpl.
  - lia.
  - assert (bootable_count (deactivate_slot slot (mark_active_slot slot tbl))
            < bootable_count tbl)%nat; [|lia].
    eapply Nat.lt_le_trans.
    + apply SlotFacts.bootable_count_deactivate_lt.
      rewrite SlotFacts.is_bootable_mark_active. subst slot.
      apply SlotFacts.find_boot_slot_not_invalid. exact Hne.
    + rewrite SlotFacts.bootable_count_mark_active. lia.
Qed.

Lemma loop_attempt_split tbl new tbl' :
  loop_events tbl new tbl' ->
  forall pre slot post,
    new = pre ++ Ev_boot_linux_from_mmc slot :: post ->
    ~ In (Ev_partition_deactivate_slot slot) pre /\
    exists post', post = Ev_partition_deactivate_slot slot :: post'.
Proof.
  induction 1 as [tbl Hi|tbl slot new tbl' Hs Hne L IH];
    intros pre x post E.
  - destruct pre as [|e1 [|e2 [|e3 pre]]]; simpl in E; discriminate.
  - destruct pre as [|e1 [|e2 [|e3 [|e4 pre]]]]; simpl in E;
      try discriminate.
    + injection E as E1 E2 E3 E4. subst e1 e2 x post. split.
      * simpl. intuition discriminate.
      * eexists. reflexivity.
    + injection E as E1 E2 E3 E4 E. subst e1 e2 e3 e4.
      destruct (IH pre x post E) as [Hn Hp]. split; [|exact Hp].
      simpl. intros [H|[H|[H|[H|H]]]]; try discriminate; [|exact (Hn H)].
      injection H as ->.
      assert (In x (attempted new)) as Hin.
      { rewrite E, attempted_app. apply in_or_app. right. left. reflexivity. }
      apply (loop_attempts_bootable _ _ _ L) in Hin.
      rewrite SlotFacts.is_bootable_deactivate_same in Hin. discriminate.
Qed.

End LoopEvents.

Lemma in_of_split (x : Event) (E pre post : list Event) :
  E = pre ++ x :: post -> In x E.
Proof. intros ->. apply in_or_app. right. left. reflexivity. Qed.

(** ** C8: the tamper signal comes before the load *)

(** The block under the [normal_boot] label: every call of
    [boot_linux_from_mmc] comes after the tamper signals. *)
Lemma normal_boot_tamper_first (cfg : Config) (env : Env) (s : State) :
  target_is_emmc_boot env = true ->
  target_use_signed_kernel env = true ->
  is_unlocked (device s) || is_tampered (device s) = true ->
  forall pre slot post,
    trace (final_state (normal_boot cfg env s)) =
    trace s ++ pre ++ Ev_boot_linux_from_mmc slot :: post ->
    (TZ_TAMPER_FUSE cfg = true -> In Ev_set_tamper_fuse_cmd pre) /\
    (USE_PCOM_SECBOOT cfg = true ->
     In (Ev_set_tamper_flag (is_tampered (device s))) pre).
Proof.
  intros He Hs Hd pre slot post.
  assert (forall s2 E,
             trace s2 = trace s ++ E ->
             ~ In (Ev_boot_linux_from_mmc slot) E ->
             trace (final_state (retry_boot env s2)) =
             trace s ++ pre ++ Ev_boot_linux_from_mmc slot :: post ->
             exists pre2, pre = E ++ pre2) as Hloop.
  { intros s2 E T HE Heq.
    destruct (keeps_retry_boot env (fun _ => true) (fun _ _ => eq_refl) s2)
      as [n2 [T2 _]].
    rewrite T2, T, <- app_assoc in Heq. apply app_inv_head in Heq.
    destruct (app_eq_app_first _ _ _ _ _ Heq HE) as [pre2 [Hp _]].
    exists pre2. exact Hp. }
  assert (forall E : list Event,
             ~ In (Ev_boot_linux_from_mmc slot) E ->
             trace s ++ E <>
             trace s ++ pre ++ Ev_boot_linux_from_mmc slot :: post) as Hstop.
  { intros E HE H. apply app_inv_head in H. apply HE.
    apply (in_of_split _ _ _ _ H). }
  unfold normal_boot, signal_tamper, lk2nd_boot.
  unfold when, emit, modify, gets, stop, bind, ret.
  rewrite He, Hs. simpl.
  destruct (boot_into_fastboot s) eqn:Hfb; simpl.
  - intros H. exfalso. apply (Hstop []); [simpl; tauto|].
    rewrite app_nil_r. exact H.
  - destruct (WITH_LK2ND_BOOT cfg), (boot_into_recovery s),
      (lk2nd_boot_returns env), (ABOOT_STANDALONE cfg); simpl;
      rewrite ?Hd; simpl;
      destruct (TZ_TAMPER_FUSE cfg), (USE_PCOM_SECBOOT cfg); simpl;
      intros H; (split; intros Hx; try discriminate Hx);
      first
        [ exfalso; revert H; apply Hstop; simpl; intuition discriminate
        | match type of H with
          | trace (final_state (retry_boot _ ?s2)) = _ =>
              let T := fresh "T" in
              eassert (trace s2 = trace s ++ _) as T
                by (simpl; rewrite <- ?app_assoc; reflexivity);
              let L := fresh "L" in
              pose proof (Hloop s2 _ T) as L;
              destruct L as [pre2 ->];
              [ simpl; intuition discriminate | exact H | simpl; tauto ]
          end ].
Qed.

Lemma app_eq_app_last (x : Event) (l1 l2 pre post : list Event) :
  l1 ++ l2 = pre ++ x :: post ->
  ~ In x l2 ->
  exists post', l1 = pre ++ x :: post'.
Proof.
  revert l1. induction pre as [|b pre IH]; intros l1 E Hn.
  - destruct l1 as [|a l1]; simpl in E.
    + exfalso. apply Hn. rewrite E. left. reflexivity.
    + injection E as -> E. exists l1. reflexivity.
  - destruct l1 as [|a l1]; simpl in E.
    + exfalso. apply Hn. rewrite E. right. apply in_or_app. right. left.
      reflexivity.
    + injection E as -> E. destruct (IH l1 E Hn) as [post' ->].
      exists post'. reflexivity.
Qed.

Lemma init_globals_device (cfg : Config) (s : State) :
  run_sat (init_globals cfg s)
    (fun _ s' => device s' = loaded_device cfg (persisted s) (device s))
    (fun _ _ => True).
Proof.
  unfold init_globals, loaded_device. unfold_steps.
  destruct (WDOG_SUPPORT cfg); simpl;
    destruct (MEMBASE cfg <? u32 (MEMBASE cfg + MEMSIZE cfg)); simpl;
    destruct (ABOOT_STANDALONE cfg); simpl; auto.
Qed.

Lemma detect_active_slot_device (env : Env) (s : State) :
  run_sat (detect_active_slot env s)
    (fun _ s' => device s' = device s) (fun _ _ => True).
Proof.
  unfold detect_active_slot. unfold_steps.
  destruct (partition_multislot_is_supported env); simpl;
    [destruct (SlotTable.find_active_slot (slots s) =? INVALID); simpl|];
    reflexivity.
Qed.

Lemma board_init_tamper_state (cfg : Config) (env : Env) (s : State) :
  run_sat (board_init cfg env s)
    (fun _ s' => tamper_state (device s') = tamper_state (device s))
    (fun _ _ => True).
Proof.
  unfold board_init, display_init, tamper_state. unfold_steps.
  destruct (WITH_LK2ND cfg), (DISPLAY_SPLASH_SCREEN cfg),
    (NO_ALARM_DISPLAY cfg), (check_alarm_boot env),
    (DISPLAY_HDMI_PRIMARY cfg), (ENABLE_WBC cfg),
    (display_shutdown_polls env), (pm_appsbl_display_init_done env),
    (sn_buf_filled env); simpl;
    try destruct (Nat.eqb (String.length (display_panel (device s))) 0);
    simpl; auto.
Qed.

Lemma prelude_tamper_state (cfg : Config) (env : Env) (s : State) :
  run_sat (prelude cfg env s)
    (fun _ s' =>
       tamper_state (device s') =
       tamper_state (loaded_device cfg (persisted s) (device s)))
    (fun _ _ => True).
Proof.
  unfold prelude.
  eapply run_sat_bind; [apply init_globals_device|].
  intros [] s1 D1.
  eapply run_sat_bind; [apply detect_active_slot_device|].
  intros slot s2 D2.
  eapply run_sat_weaken; [apply board_init_tamper_state | |].
  - intros [] s3 T3. rewrite T3, D2, D1. reflexivity.
  - auto.
Qed.

Lemma apply_reboot_mode_tamper_state
    (cfg : Config) (env : Env) (mode : reboot_reason) (s : State) :
  tamper_state (device (final_state (apply_reboot_mode cfg env mode s))) =
  tamper_state (device s).
Proof.
  unfold apply_reboot_mode, logging_reason. unfold_steps.
  destruct mode, (VERIFIED_BOOT cfg), (VERIFIED_BOOT_2 cfg),
    (VB_M cfg <=? target_get_vb_version env), (ENABLE_VB_ATTEST cfg),
    (write_device_info_ok env), (send_delete_keys_to_tz_ret env =? 0);
    reflexivity.
Qed.

Lemma signal_and_policy_tamper_state
    (cfg : Config) (env : Env) (s : State) :
  tamper_state (device (final_state (signal_and_policy cfg env s))) =
  tamper_state (device s).
Proof.
  destruct (is_user_force_reset env) eqn:Hf.
  - rewrite signal_and_policy_forced by exact Hf. reflexivity.
  - destruct (dload_taken env) eqn:Hd.
    + destruct (signal_and_policy_dload cfg env s Hf Hd) as [s' [-> [D _]]].
      simpl. rewrite D. reflexivity.
    + destruct (signal_and_policy_reaches_chain cfg env s Hf Hd)
        as [s2 [e [-> [_ [_ [D _]]]]]].
      rewrite final_state_bind.
      pose proof (apply_reboot_mode_tamper_state cfg env
                    (selected_reboot_mode cfg env) s2) as A.
      destruct (apply_reboot_mode cfg env (selected_reboot_mode cfg env) s2)
        as [[] s3|o s3]; simpl in A.
      * destruct (force_fastboot_flag_flow cfg s3) as [s4 [-> [D4 _]]].
        simpl. rewrite D4, A, D. reflexivity.
      * rewrite A, D. reflexivity.
Qed.

Lemma not_in_class (P : Event -> bool) (x : Event) (l : list Event) :
  forallb P l = true -> P x = false -> ~ In x l.
Proof.
  intros H Hx Hin. rewrite forallb_forall in H. rewrite (H x Hin) in Hx.
  discriminate.
Qed.

(** The same over a whole run of [aboot_init]: the calls before the
    [normal_boot] label and after the [fastboot] label are no loads, and
    the lock and tamper flags of [device] are those it was loaded with. *)
Lemma aboot_init_tamper_first
    (cfg : Config) (env : Env) (stored ram : device_info) (tbl : SlotTable.t) :
  target_is_emmc_boot env = true ->
  target_use_signed_kernel env = true ->
  let d := loaded_device cfg stored ram in
  is_unlocked d || is_tampered d = true ->
  forall pre slot post,
    trace (final_state (aboot_init cfg env (boot_entry stored ram tbl))) =
    pre ++ Ev_boot_linux_from_mmc slot :: post ->
    (TZ_TAMPER_FUSE cfg = true -> In Ev_set_tamper_fuse_cmd pre) /\
    (USE_PCOM_SECBOOT cfg = true ->
     In (Ev_set_tamper_flag (is_tampered d)) pre).
Proof.
  intros He Hs d Hd pre slot post.
  rewrite aboot_init_split, final_state_bind.
  pose proof (prelude_tamper_state cfg env (boot_entry stored ram tbl)) as P1.
  destruct (keeps_prelude cfg env (boot_entry stored ram tbl))
    as [n1 [E1 K1]].
  simpl in E1.
  assert (forall l, forallb is_init_event l = true ->
                    ~ In (Ev_boot_linux_from_mmc slot) l) as N1
    by (intros l Hl; apply (not_in_class _ _ _ Hl); reflexivity).
  assert (forall l, forallb is_signal_event l = true ->
                    ~ In (Ev_boot_linux_from_mmc slot) l) as N2
    by (intros l Hl; apply (not_in_class _ _ _ Hl); reflexivity).
  assert (forall l, forallb is_fastboot_start l = true ->
                    ~ In (Ev_boot_linux_from_mmc slot) l) as N3
    by (intros l Hl; apply (not_in_class _ _ _ Hl); reflexivity).
  destruct (prelude cfg env (boot_entry stored ram tbl)) as [[] s1|o s1];
    simpl in P1, E1.
  2:{ intros H. rewrite E1 in H. exfalso. apply (N1 n1 K1).
      rewrite H. apply in_or_app. right. left. reflexivity. }
  unfold decide. rewrite final_state_bind.
  pose proof (signal_and_policy_tamper_state cfg env s1) as P2.
  destruct (keeps_signal_and_policy cfg env s1) as [n2 [E2 K2]].
  destruct (signal_and_policy cfg env s1) as [[] s2|o s2]; simpl in P2, E2.
  2:{ intros H. rewrite E2, E1 in H. exfalso.
      assert (In (Ev_boot_linux_from_mmc slot) (n1 ++ n2)) as Hin
        by (rewrite H; apply in_or_app; right; left; reflexivity).
      apply in_app_or in Hin. destruct Hin as [Hin|Hin];
        [exact (N1 n1 K1 Hin) | exact (N2 n2 K2 Hin)]. }
  assert (tamper_state (device s2) = tamper_state d) as Ht
    by (rewrite P2, P1; reflexivity).
  unfold tamper_state in Ht. injection Ht as Hu Hta.
  assert (is_unlocked (device s2) || is_tampered (device s2) = true) as Hd2
    by (rewrite Hu, Hta; exact Hd).
  pose proof (normal_boot_tamper_first cfg env s2 He Hs Hd2) as Blk.
  rewrite Hta in Blk.
  assert (~ In (Ev_boot_linux_from_mmc slot) (trace s2)) as N12.
  { rewrite E2, E1. intros Hin. apply in_app_or in Hin.
    destruct Hin as [Hin|Hin];
      [exact (N1 n1 K1 Hin) | exact (N2 n2 K2 Hin)]. }
  rewrite final_state_bind.
  destruct (keeps_normal_boot cfg env (fun _ => true) (fun _ _ => eq_refl) s2)
    as [x [Ex _]].
  destruct (normal_boot cfg env s2) as [[] s3|o s3] eqn:Enb; simpl in Ex.
  - destruct (keeps_fastboot cfg env s3) as [f [Ef Kf]].
    intros H. rewrite Ef, Ex, <- app_assoc in H.
    destruct (app_eq_app_first _ _ _ _ _ H N12) as [pre2 [-> H2]].
    destruct (app_eq_app_last _ _ _ _ _ H2 (N3 f Kf)) as [post' Hx].
    destruct (Blk pre2 slot post') as [B1 B2].
    { simpl. rewrite Ex, Hx. reflexivity. }
    split; intros Hc; apply in_or_app; right; auto.
  - intros H. simpl in H. rewrite Ex in H.
    destruct (app_eq_app_first _ _ _ _ _ H N12) as [pre2 [-> H2]].
    destruct (Blk pre2 slot post) as [B1 B2].
    { simpl. rewrite Ex, H2. reflexivity. }
    split; intros Hc; apply in_or_app; right; auto.
Qed.

(** C8, as stated, fails: on a build with neither TZ_TAMPER_FUSE nor
    USE_PCOM_SECBOOT the block of lines 219-232 is empty, and the image of
    an unlocked, tampered device is loaded on the signed-kernel eMMC path
    with no tamper signal sent at all. *)
Lemma load_without_tamper_signal :
  let cfg := sample_cfg_no_tamper_signal in
  let env := sample_env false [] true NORMAL_MODE true 0
                        (fun _ => KernelRuns) in
  let r := aboot_init cfg env
             (boot_entry tampered_device tampered_device sample_slots) in
  target_is_emmc_boot env = true /\
  target_use_signed_kernel env = true /\
  is_unlocked (loaded_device cfg tampered_device tampered_device) = true /\
  is_tampered (loaded_device cfg tampered_device tampered_device) = true /\
  attempted (trace (final_state r)) = [0] /\
  existsb is_tamper_signal (trace (final_state r)) = false /\
  decision_of r = Some StartNormal.
Proof.
  vm_compute. repeat split.
Qed.

(** C8, amended.  On the signed-kernel eMMC path, when [device] is unlocked
    or tampered, every call of [boot_linux_from_mmc] comes after each tamper
    signal the build compiles in: [set_tamper_fuse_cmd] when TZ_TAMPER_FUSE
    is defined and [set_tamper_flag(device.is_tampered)] when
    USE_PCOM_SECBOOT is set; a build with neither sends no signal.  This
    holds for the block under the [normal_boot] label entered in any state,
    and for a whole run of [aboot_init], where [device] is the record
    loaded at the entry (unlocked on standalone builds). *)
Theorem tamper_signal_before_load (cfg : Config) (env : Env) :
  target_is_emmc_boot env = true ->
  target_use_signed_kernel env = true ->
  (forall s,
      is_unlocked (device s) || is_tampered (device s) = true ->
      forall pre slot post,
        trace (final_state (normal_boot cfg env s)) =
        trace s ++ pre ++ Ev_boot_linux_from_mmc slot :: post ->
        (TZ_TAMPER_FUSE cfg = true -> In Ev_set_tamper_fuse_cmd pre) /\
        (USE_PCOM_SECBOOT cfg = true ->
         In (Ev_set_tamper_flag (is_tampered (device s))) pre)) /\
  (forall stored ram tbl,
      let d := loaded_device cfg stored ram in
      is_unlocked d || is_tampered d = true ->
      forall pre slot post,
        trace (final_state (aboot_init cfg env (boot_entry stored ram tbl))) =
        pre ++ Ev_boot_linux_from_mmc slot :: post ->
        (TZ_TAMPER_FUSE cfg = true -> In Ev_set_tamper_fuse_cmd pre) /\
        (USE_PCOM_SECBOOT cfg = true ->
         In (Ev_set_tamper_flag (is_tampered d)) pre)).
Proof.
  intros He Hs. split.
  - intros s. apply normal_boot_tamper_first; assumption.
  - intros stored ram tbl. apply aboot_init_tamper_first; assumption.
Qed.

Lemma tamper_signal_before_load_witness :
  let pre := [Ev_read_device_info; Ev_read_allow_oem_unlock;
              Ev_partition_find_active_slot; Ev_partition_mark_active_slot 0;
              Ev_lk2nd_init; Ev_is_user_force_reset; Ev_check_reboot_mode;
              Ev_emmc_recovery_init; Ev_set_tamper_fuse_cmd;
              Ev_set_tamper_flag false; Ev_partition_find_boot_slot;
              Ev_partition_mark_active_slot 0] in
  In Ev_set_tamper_fuse_cmd pre /\ In (Ev_set_tamper_flag false) pre.
Proof.
  intros pre.
  destruct (tamper_signal_before_load (sample_cfg false 2)
              (sample_env false [] true NORMAL_MODE true 0
                          (fun _ => KernelRuns))
              eq_refl eq_refl) as [_ H].
  destruct (H sample_device sample_device sample_slots eq_refl pre 0 []
              eq_refl) as [H1 H2].
  split; [apply H1 | apply H2]; reflexivity.
Defined.

(** ** C2: the retry loop *)

(** C2.  On a multi-slot system where every call of the loader returns a
    retryable error, the loop over [retry_boot] ends at the [fastboot]
    label, whatever the slot table is.  Each slot is handed to the loader
    at most once, the slots handed to it are exactly the bootable ones,
    none was deactivated earlier in the loop, each failed slot is
    deactivated right after its attempt and so before the next pass, and
    at the end no slot is bootable. *)
Theorem retry_loop_exhausts_slots (env : Env) (s : State) :
  partition_multislot_is_supported env = true ->
  all_retryable env ->
  exists s' new,
    retry_boot env s = Next tt s' /\
    trace s' = trace s ++ new /\
    NoDup (attempted new) /\
    (forall slot,
        In slot (attempted new) <->
        SlotTable.is_bootable slot (slots s) = true) /\
    (forall pre slot post,
        new = pre ++ Ev_boot_linux_from_mmc slot :: post ->
        ~ In (Ev_partition_deactivate_slot slot) pre /\
        exists post', post = Ev_partition_deactivate_slot slot :: post') /\
    (forall slot, SlotTable.is_bootable slot (slots s') = false) /\
    (List.length (attempted new) <= SlotTable.bootable_count (slots s))%nat.
Proof.
  intros Hm Hall.
  destruct (retry_boot_all_failing env Hm Hall s) as [s' [new [R [T L]]]].
  exists s', new. split; [exact R|]. split; [exact T|].
  split; [exact (loop_attempts_nodup _ _ _ L)|].
  split; [|split; [|split]].
  - intros slot. split.
    + apply (loop_attempts_bootable _ _ _ L).
    + apply (loop_attempts_all _ _ _ L).
  - apply (loop_attempt_split _ _ _ L).
  - apply (loop_leaves_none_bootable _ _ _ L).
  - apply (loop_attempts_count _ _ _ L).
Qed.

Lemma retry_loop_exhausts_slots_witness :
  let env := sample_env false [] true NORMAL_MODE true 0
                        (fun _ => Returns ERR_INVALID_BOOT_MAGIC) in
  exists s' new,
    retry_boot env sample_state = Next tt s' /\
    trace s' = trace sample_state ++ new /\
    NoDup (attempted new) /\
    (forall slot,
        In slot (attempted new) <->
        SlotTable.is_bootable slot (slots sample_state) = true) /\
    (forall pre slot post,
        new = pre ++ Ev_boot_linux_from_mmc slot :: post ->
        ~ In (Ev_partition_deactivate_slot slot) pre /\
        exists post', post = Ev_partition_deactivate_slot slot :: post') /\
    (forall slot, SlotTable.is_bootable slot (slots s') = false) /\
    (List.length (attempted new)
     <= SlotTable.bootable_count (slots sample_state))%nat.
Proof.
  intros env. apply retry_loop_exhausts_slots.
  - reflexivity.
  - intros k. exists ERR_INVALID_BOOT_MAGIC. split; reflexivity.
Defined.

(** * Further properties *)

(** ** What a run keeps between its first and its last state *)

Section Steady.

Variable R : State -> State -> Prop.
Hypothesis R_refl : forall s, R s s.
Hypothesis R_trans : forall s1 s2 s3, R s1 s2 -> R s2 s3 -> R s1 s3.

Lemma steady_bind {A B} (m : M A) (k : A -> M B) :
  steady R m -> (forall a, steady R (k a)) -> steady R (bind m k).
Proof.
  intros Hm Hk s. rewrite final_state_bind. specialize (Hm s).
  destruct (m s) as [a s'|o s']; simpl in *; [|exact Hm].
  eapply R_trans; [exact Hm | apply Hk].
Qed.

Lemma steady_ret {A} (a : A) : steady R (ret a).
Proof. intros s. apply R_refl. Qed.

Lemma steady_stop {A} (o : Outcome) : steady R (@stop A o).
Proof. intros s. apply R_refl. Qed.

Lemma steady_gets {A} (f : State -> A) : steady R (gets f).
Proof. intros s. apply R_refl. Qed.

Lemma steady_modify (f : State -> State) :
  (forall s, R s (f s)) -> steady R (modify f).
Proof. intros Hf s. apply Hf. Qed.

Lemma steady_when (c : bool) (m : M unit) :
  steady R m -> steady R (when c m).
Proof. intros Hm. destruct c; simpl; [exact Hm | apply steady_ret]. Qed.

Lemma steady_ASSERT (c : bool) : steady R (ASSERT c).
Proof. destruct c; intros s; apply R_refl. Qed.

End Steady.

(** Takes a step apart along its binds and branches; [tac] settles the
    state updates. *)
Ltac steady_steps tac :=
  repeat first
    [ progress intros
    | match goal with
      | |- steady _ (bind _ _) => apply steady_bind; [assumption | | ]
      | |- steady _ (ret _) => apply steady_ret; assumption
      | |- steady _ (stop _) => apply steady_stop; assumption
      | |- steady _ (gets _) => apply steady_gets; assumption
      | |- steady _ (ASSERT _) => apply steady_ASSERT; assumption
      | |- steady _ (modify _) => apply steady_modify; intros; solve [tac]
      | |- steady _ (when _ _) => apply steady_when; [assumption | ]
      | |- steady _ (if ?c then _ else _) => destruct c eqn:?
      | |- steady _ (match ?x with _ => _ end) => destruct x
      end ].

Section SteadyBlocks.

Variable cfg : Config.
Variable env : Env.
Variable R : State -> State -> Prop.

Hypothesis R_refl : forall s, R s s.
Hypothesis R_trans : forall s1 s2 s3, R s1 s2 -> R s2 s3 -> R s1 s3.

(** What the statements of [aboot_init] do to the globals. *)
Hypothesis R_trace : forall s t, R s (set_trace t s).
Hypothesis R_mmc_calls : forall s n, R s (set_mmc_calls n s).
Hypothesis R_load :
  ABOOT_STANDALONE cfg = false -> forall s, R s (set_device (persisted s) s).
Hypothesis R_standalone :
  ABOOT_STANDALONE cfg = true ->
  forall s, R s (set_device (set_is_unlocked true (device s)) s).
Hypothesis R_panel :
  forall s p, R s (set_device (set_display_panel p (device s)) s).
Hypothesis R_verity :
  forall s v, R s (set_device (set_verity_mode v (device s)) s).
Hypothesis R_write : forall s, R s (set_persisted (device s) s).
Hypothesis R_mark :
  partition_multislot_is_supported env = true ->
  forall s x,
    R s (set_slots (SlotTable.mark_active_slot x (slots s)) s).
Hypothesis R_deactivate :
  partition_multislot_is_supported env = true ->
  forall s x,
    R s (set_slots (SlotTable.deactivate_slot x (slots s)) s).
Hypothesis R_fastboot : forall s, R s (set_boot_into_fastboot true s).
Hypothesis R_recovery : forall s, R s (set_boot_into_recovery true s).
Hypothesis R_alarm : forall s, R s (set_boot_reason_alarm true s).

Ltac steps := steady_steps ltac:(eauto).

Lemma steady_emit (e : Event) : steady R (emit e).
Proof. unfold emit. apply steady_modify. intros s. apply R_trace. Qed.

Lemma steady_write_device_info : steady R (write_device_info env).
Proof.
  intros s. unfold write_device_info. unfold_steps.
  destruct (write_device_info_ok env); simpl; [|apply R_trace].
  eapply R_trans; [apply R_trace|].
  apply (R_write (set_trace (trace s ++ [Ev_write_device_info (device s)]) s)).
Qed.

Lemma steady_init_globals : steady R (init_globals cfg).
Proof.
  unfold init_globals, read_device_info.
  destruct (ABOOT_STANDALONE cfg) eqn:Hs; simpl negb;
    steps; apply steady_emit.
Qed.

Lemma steady_detect_active_slot : steady R (detect_active_slot env).
Proof.
  unfold detect_active_slot, partition_find_active_slot,
    partition_mark_active_slot.
  steps; apply steady_emit.
Qed.

Lemma steady_board_init : steady R (board_init cfg env).
Proof.
  unfold board_init, display_init, wait_display_shutdown.
  steps; apply steady_emit.
Qed.

Lemma steady_signal_and_policy : steady R (signal_and_policy cfg env).
Proof.
  unfold signal_and_policy, evaluate_signals, check_keys, read_reboot_mode,
    apply_reboot_mode, reboot_device, send_delete_keys_to_tz.
  steps; first [apply steady_emit | apply steady_write_device_info].
Qed.

Lemma steady_boot_pass : steady R (boot_pass env).
Proof.
  unfold boot_pass, try_boot, boot_linux_from_mmc,
    partition_find_boot_slot, partition_mark_active_slot,
    partition_deactivate_slot.
  destruct (partition_multislot_is_supported env) eqn:Hm;
    steps; apply steady_emit.
Qed.

Lemma steady_retry_boot : steady R (retry_boot env).
Proof.
  intros s. pattern s, (retry_boot env s). apply retry_boot_induction.
  - intros s0 s' E IH. eapply R_trans; [|exact IH].
    pose proof (steady_boot_pass s0) as H. rewrite E in H. exact H.
  - intros s0 s' e _ E.
    pose proof (steady_boot_pass s0) as H. rewrite E in H. exact H.
  - intros s0 o s' E.
    pose proof (steady_boot_pass s0) as H. rewrite E in H. exact H.
Qed.

Lemma steady_normal_boot : steady R (normal_boot cfg env).
Proof.
  unfold normal_boot, signal_tamper, lk2nd_boot, boot_linux_from_flash.
  steps; first [apply steady_emit | apply steady_retry_boot].
Qed.

Lemma steady_fastboot : steady R (fastboot cfg env).
Proof.
  unfold fastboot. steps; apply steady_emit.
Qed.

Lemma steady_decide : steady R (decide cfg env).
Proof.
  unfold decide.
  steps;
    first [ apply steady_signal_and_policy | apply steady_normal_boot
          | apply steady_fastboot ].
Qed.

Lemma steady_aboot_init : steady R (aboot_init cfg env).
Proof.
  unfold aboot_init.
  steps;
    first [ apply steady_init_globals | apply steady_detect_active_slot
          | apply steady_board_init | apply steady_signal_and_policy
          | apply steady_normal_boot | apply steady_fastboot ].
Qed.

End SteadyBlocks.


(** X1.  The three boot-mode flags are only ever set: a flag that is set
    when [aboot_init] is entered, or at any point of the run, is still set
    in the state the run ends in, whether [aboot_init] returns, starts a
    kernel, resets or halts. *)
Theorem boot_flags_only_set (cfg : Config) (env : Env) (s : State) :
  flags_kept s (final_state (aboot_init cfg env s)).
Proof.
  apply steady_aboot_init; unfold flags_kept; intros; simpl; tauto.
Qed.

(** ** The calls a configuration allows *)

Lemma keeps_when_eq (P : Event -> bool) (c : bool) (m : M unit) :
  (c = true -> keeps P m) -> keeps P (when c m).
Proof.
  intros Hm. destruct c; simpl; [apply Hm; reflexivity | apply keeps_ret].
Qed.

(** Splits a condition into the answers it is made of. *)
Ltac split_cond c :=
  lazymatch c with
  | negb ?a => split_cond a
  | (if ?a then _ else _) => split_cond a
  | ?a && ?b => split_cond a; try split_cond b
  | ?a || ?b => split_cond a; try split_cond b
  | _ => destruct c eqn:?
  end.

(** Takes a step apart along its binds and branches, fixing the answer of
    every condition on the way; an event is checked against the class
    with the answers fixed so far. *)
Ltac calls_steps :=
  repeat first
    [ progress intros
    | match goal with
      | |- keeps _ (bind _ _) => apply keeps_bind
      | |- keeps _ (ret _) => apply keeps_ret
      | |- keeps _ (stop _) => apply keeps_stop
      | |- keeps _ (gets _) => apply keeps_gets
      | |- keeps _ (ASSERT _) => apply keeps_ASSERT
      | |- keeps _ (modify _) => apply keeps_modify; intros; reflexivity
      | |- keeps _ (emit _) => apply keeps_emit; reflexivity
      | |- keeps _ (when _ _) => unfold when at 1
      | |- keeps _ (if ?c then _ else _) =>
          split_cond c; cbv beta iota delta [negb andb orb];
          try congruence
      | |- keeps _ (match ?x with _ => _ end) => destruct x
      end ].

Ltac unfold_may_call :=
  unfold may_call, splash_shown, vb_supported, both_volume_keys.

Section Calls.

Variable cfg : Config.
Variable env : Env.

Lemma calls_init_globals : keeps (may_call cfg env) (init_globals cfg).
Proof.
  unfold init_globals, read_device_info. unfold_may_call. calls_steps.
Qed.

Lemma calls_detect_active_slot :
  keeps (may_call cfg env) (detect_active_slot env).
Proof.
  unfold detect_active_slot, partition_find_active_slot,
    partition_mark_active_slot.
  unfold_may_call. calls_steps.
Qed.

Lemma keeps_polls (P : Event -> bool) :
  P Ev_pm_app_display_shutdown_in_prgs = true ->
  keeps P (wait_display_shutdown env).
Proof.
  intros HP. unfold wait_display_shutdown.
  destruct (display_shutdown_polls env) as [n|]; [|apply keeps_stop].
  intros s. eexists. split; [reflexivity|].
  generalize (S n). intros k.
  induction k as [|k IH]; simpl; [reflexivity|].
  rewrite HP. exact IH.
Qed.

Lemma calls_board_init : keeps (may_call cfg env) (board_init cfg env).
Proof.
  unfold board_init, display_init. unfold_may_call.
  calls_steps; apply keeps_polls; reflexivity.
Qed.

Lemma calls_signal_and_policy :
  keeps (may_call cfg env) (signal_and_policy cfg env).
Proof.
  unfold signal_and_policy, evaluate_signals, check_keys, read_reboot_mode,
    apply_reboot_mode, reboot_device, write_device_info,
    send_delete_keys_to_tz.
  unfold_may_call. calls_steps.
Qed.

Lemma calls_boot_pass :
  target_is_emmc_boot env = true ->
  keeps (may_call cfg env) (boot_pass env).
Proof.
  intros He.
  unfold boot_pass, try_boot, boot_linux_from_mmc,
    partition_find_boot_slot, partition_mark_active_slot,
    partition_deactivate_slot.
  unfold_may_call. rewrite He. calls_steps.
Qed.

(** The loop adds what its passes add. *)
Lemma keeps_loop (P : Event -> bool) :
  keeps P (boot_pass env) -> keeps P (retry_boot env).
Proof.
  intros Hp s. pattern s, (retry_boot env s). apply retry_boot_induction.
  - intros s0 s' E [n2 [E2 F2]].
    destruct (Hp s0) as [n1 [E1 F1]]. rewrite E in E1.
    simpl in E1. exists (n1 ++ n2).
    rewrite E2, E1, app_assoc, forallb_app, F1, F2. split; reflexivity.
  - intros s0 s' e _ E.
    destruct (Hp s0) as [n1 [E1 F1]]. rewrite E in E1.
    exists n1. split; assumption.
  - intros s0 o s' E.
    destruct (Hp s0) as [n1 [E1 F1]]. rewrite E in E1.
    exists n1. split; assumption.
Qed.

Lemma calls_normal_boot : keeps (may_call cfg env) (normal_boot cfg env).
Proof.
  pose proof calls_boot_pass as Hpass. revert Hpass.
  unfold normal_boot, signal_tamper, lk2nd_boot, boot_linux_from_flash.
  unfold_may_call. intros Hpass.
  calls_steps. apply keeps_loop. apply Hpass. reflexivity.
Qed.

Lemma calls_fastboot : keeps (may_call cfg env) (fastboot cfg env).
Proof.
  unfold fastboot. unfold_may_call. calls_steps.
  apply keeps_emit. apply eqb_reflx.
Qed.

Lemma calls_aboot_init : keeps (may_call cfg env) (aboot_init cfg env).
Proof.
  unfold aboot_init.
  apply keeps_bind; [apply calls_init_globals|]. intros _.
  apply keeps_bind; [apply calls_detect_active_slot|]. intros _.
  apply keeps_bind; [apply calls_board_init|]. intros _.
  apply keeps_bind; [apply calls_signal_and_policy|]. intros _.
  apply keeps_bind; [apply calls_normal_boot|]. intros _.
  apply calls_fastboot.
Qed.

End Calls.

(** X2.  Every call [aboot_init] makes is one its configuration allows: a
    collaborator whose call is compiled out, guarded by an answer of the
    environment that is negative, or placed on the other storage path, is
    not called in any run. *)
Theorem calls_only_when_enabled (cfg : Config) (env : Env) (s : State) :
  exists new,
    trace (final_state (aboot_init cfg env s)) = trace s ++ new /\
    forallb (may_call cfg env) new = true.
Proof.
  apply calls_aboot_init.
Qed.

(** ** The retry loop, whatever the loader answers *)

Lemma boot_pass_multislot (env : Env) (s : State) :
  partition_multislot_is_supported env = true ->
  let slot := SlotTable.find_boot_slot (slots s) in
  let marked := SlotTable.mark_active_slot slot (slots s) in
  let pass := trace s ++ [Ev_partition_find_boot_slot;
                          Ev_partition_mark_active_slot slot] in
  match boot_pass env s with
  | Next GotoFastboot s1 =>
      slot = INVALID /\ slots s1 = marked /\ trace s1 = pass
  | Next Break s1 =>
      slot <> INVALID /\ slots s1 = marked /\
      trace s1 = pass ++ [Ev_boot_linux_from_mmc slot]
  | Next GotoRetryBoot s1 =>
      slot <> INVALID /\
      slots s1 = SlotTable.deactivate_slot slot marked /\
      trace s1 = pass ++ [Ev_boot_linux_from_mmc slot;
                          Ev_partition_deactivate_slot slot] /\
      boot_into_recovery s1 = boot_into_recovery s
  | Stop o s1 =>
      slot <> INVALID /\ slots s1 = marked /\
      trace s1 = pass ++ [Ev_boot_linux_from_mmc slot] /\
      o = KernelStarted (boot_into_recovery s)
  end.
Proof.
  intros Hm.
  unfold boot_pass, try_boot, boot_linux_from_mmc, partition_find_boot_slot,
    partition_mark_active_slot, partition_deactivate_slot,
    bind, emit, modify, gets, ret, stop.
  rewrite Hm. simpl.
  destruct (SlotTable.find_boot_slot (slots s) =? INVALID) eqn:Hinv.
  - apply Z.eqb_eq in Hinv. simpl. rewrite <- app_assoc. auto.
  - apply Z.eqb_neq in Hinv. simpl.
    destruct (boot_linux_from_mmc_ret env (mmc_calls s)) as [|err]; simpl.
    + rewrite <- !app_assoc. auto.
    + destruct (retryable err); simpl; rewrite <- !app_assoc; auto.
Qed.

Lemma retry_boot_loop_run (env : Env) :
  partition_multislot_is_supported env = true ->
  forall s, exists new last,
    trace (final_state (retry_boot env s)) = trace s ++ new /\
    loop_run (slots s) new (slots (final_state (retry_boot env s))) last /\
    loop_end_agrees s (retry_boot env s) last.
Proof.
  intros Hm s. pattern s, (retry_boot env s).
  apply retry_boot_induction.
  - intros s0 s1 E [new [last [T [L A]]]].
    pose proof (boot_pass_multislot env s0 Hm) as B. rewrite E in B.
    destruct B as [Hne [S1 [T1 R1]]].
    eexists. exists last. split; [|split].
    + rewrite T, T1, <- !app_assoc. reflexivity.
    + simpl. apply run_retry; [reflexivity | exact Hne|].
      rewrite <- S1. exact L.
    + unfold loop_end_agrees in *.
      destruct (retry_boot env s1); [exact I|]. rewrite <- R1. exact A.
  - intros s0 s1 e Hne E.
    pose proof (boot_pass_multislot env s0 Hm) as B. rewrite E in B.
    destruct e; [congruence| |].
    + destruct B as [Hi [S1 T1]]. eexists. exists None. simpl.
      split; [exact T1|]. split; [|exact I].
      rewrite S1, Hi. apply run_exhausted. exact Hi.
    + destruct B as [Hi [S1 T1]]. eexists. eexists. simpl.
      split; [rewrite T1, <- app_assoc; reflexivity|]. split; [|exact I].
      rewrite S1. apply run_last; [reflexivity | exact Hi].
  - intros s0 o s1 E.
    pose proof (boot_pass_multislot env s0 Hm) as B. rewrite E in B.
    destruct B as [Hi [S1 [T1 ->]]]. eexists. eexists. simpl.
    split; [rewrite T1, <- app_assoc; reflexivity|]. split.
    + rewrite S1. apply run_last; [reflexivity | exact Hi].
    + split; [reflexivity|]. eexists. reflexivity.
Qed.

Section LoopRun.
Import SlotTable.

Lemma mark_deactivate_lt (slot : Z) (tbl : t) :
  slot = find_boot_slot tbl -> slot <> INVALID ->
  (bootable_count (deactivate_slot slot (mark_active_slot slot tbl))
   < bootable_count tbl)%nat.
Proof.
  intros -> Hne. eapply Nat.lt_le_trans.
  - apply SlotFacts.bootable_count_deactivate_lt.
    rewrite SlotFacts.is_bootable_mark_active.
    apply SlotFacts.find_boot_slot_not_invalid. exact Hne.
  - rewrite SlotFacts.bootable_count_mark_active. lia.
Qed.

Lemma run_attempts_bootable tbl new tbl' last :
  loop_run tbl new tbl' last ->
  forall slot, In slot (attempted new) -> is_bootable slot tbl = true.
Proof.
  induction 1 as [tbl Hi|tbl slot Hs Hne|tbl slot new tbl' last Hs Hne L IH];
    simpl.
  - intros slot [].
  - intros x [<-|[]]. subst slot.
    apply SlotFacts.find_boot_slot_not_invalid. exact Hne.
  - intros x [<-|Hx].
    + subst slot. apply SlotFacts.find_boot_slot_not_invalid. exact Hne.
    + specialize (IH x Hx).
      apply SlotFacts.is_bootable_deactivate_mono in IH.
      rewrite SlotFacts.is_bootable_mark_active in IH. exact IH.
Qed.

Lemma run_attempts_nodup tbl new tbl' last :
  loop_run tbl new tbl' last -> NoDup (attempted new).
Proof.
  induction 1 as [tbl Hi|tbl slot Hs Hne|tbl slot new tbl' last Hs Hne L IH];
    simpl.
  - constructor.
  - constructor; [intros [] | constructor].
  - constructor; [|exact IH].
    intros Hin. apply (run_attempts_bootable _ _ _ _ L) in Hin.
    rewrite SlotFacts.is_bootable_deactivate_same in Hin. discriminate.
Qed.

Lemma run_attempts_count tbl new tbl' last :
  loop_run tbl new tbl' last ->
  (List.length (attempted new) <= bootable_count tbl)%nat.
Proof.
  induction 1 as [tbl Hi|tbl slot Hs Hne|tbl slot new tbl' last Hs Hne L IH];
    simpl.
  - lia.
  - subst slot. apply SlotFacts.find_boot_slot_not_invalid in Hne.
    unfold is_bootable, bootable_count in *.
    apply existsb_exists in Hne. destruct Hne as [e [Hin He]].
    apply andb_true_iff in He. destruct He as [_ Hb].
    assert (In e (filter bootable tbl)) as Hf
      by (apply filter_In; split; assumption).
    destruct (filter bootable tbl); [destruct Hf | simpl; lia].
  - pose proof (mark_deactivate_lt slot tbl Hs Hne). lia.
Qed.

(** The slots the loop deactivated are the ones it tried, but for the
    attempt that ended it. *)
Lemma run_attempts_split tbl new tbl' last :
  loop_run tbl new tbl' last ->
  attempted new = deactivated new ++ last_attempt last.
Proof.
  induction 1 as [tbl Hi|tbl slot Hs Hne|tbl slot new tbl' last Hs Hne L IH];
    simpl; [reflexivity | reflexivity | rewrite IH; reflexivity].
Qed.

Lemma run_bootable_after tbl new tbl' last :
  loop_run tbl new tbl' last ->
  forall slot,
    is_bootable slot tbl' =
    is_bootable slot tbl && negb (existsb (Z.eqb slot) (deactivated new)).
Proof.
  induction 1 as [tbl Hi|tbl x Hs Hne|tbl x new tbl' last Hs Hne L IH];
    intros slot; simpl.
  - rewrite SlotFacts.is_bootable_mark_active, andb_true_r. reflexivity.
  - rewrite SlotFacts.is_bootable_mark_active, andb_true_r. reflexivity.
  - rewrite IH. destruct (slot =? x) eqn:E.
    + apply Z.eqb_eq in E. subst slot.
      rewrite SlotFacts.is_bootable_deactivate_same. simpl.
      rewrite andb_false_r. reflexivity.
    + apply Z.eqb_neq in E.
      rewrite SlotFacts.is_bootable_deactivate_other by exact E.
      rewrite SlotFacts.is_bootable_mark_active. reflexivity.
Qed.

Lemma is_active_mark_active (slot : Z) (tbl : t) :
  is_bootable slot tbl = true ->
  slot_is_active slot (mark_active_slot slot tbl) = true.
Proof.
  unfold is_bootable, slot_is_active, mark_active_slot.
  induction tbl as [|e tl IH]; simpl; [discriminate|].
  intros H. apply orb_true_iff in H. apply orb_true_iff.
  destruct H as [H|H]; [left | right; apply IH; exact H].
  apply andb_true_iff in H. destruct H as [H _].
  unfold has_index in *. simpl. rewrite H. reflexivity.
Qed.

Lemma is_active_mark_active_only (x slot : Z) (tbl : t) :
  slot_is_active slot (mark_active_slot x tbl) = true -> slot = x.
Proof.
  unfold slot_is_active, mark_active_slot.
  induction tbl as [|e tl IH]; simpl; [discriminate|].
  intros H. apply orb_true_iff in H.
  destruct H as [H|H]; [|apply IH; exact H].
  apply andb_true_iff in H. destruct H as [H1 H2].
  unfold has_index in *. simpl in *.
  apply Z.eqb_eq in H1. apply Z.eqb_eq in H2. congruence.
Qed.

(** The attempt that ended the loop was on the slot that is marked active
    in the table the loop leaves, the only one, and it is still
    bootable. *)
Lemma run_last_active tbl new tbl' last :
  loop_run tbl new tbl' last ->
  forall slot, last = Some slot ->
    slot <> INVALID /\
    (exists pre, new = pre ++ [Ev_boot_linux_from_mmc slot]) /\
    is_bootable slot tbl' = true /\
    forall x, slot_is_active x tbl' = true <-> x = slot.
Proof.
  induction 1 as [tbl Hi|tbl x Hs Hne|tbl x new tbl' last Hs Hne L IH];
    intros slot E.
  - discriminate.
  - injection E as <-. split; [exact Hne|]. split; [|split].
    + eexists [_; _]. reflexivity.
    + rewrite SlotFacts.is_bootable_mark_active. subst x.
      apply SlotFacts.find_boot_slot_not_invalid. exact Hne.
    + intros y. split; [apply is_active_mark_active_only|].
      intros ->. apply is_active_mark_active. subst x.
      apply SlotFacts.find_boot_slot_not_invalid. exact Hne.
  - destruct (IH slot E) as [H1 [[pre H2] [H3 H4]]].
    split; [exact H1|]. split; [|split; assumption].
    exists (Ev_partition_find_boot_slot :: Ev_partition_mark_active_slot x
            :: Ev_boot_linux_from_mmc x :: Ev_partition_deactivate_slot x
            :: pre).
    rewrite H2. reflexivity.
Qed.

End LoopRun.

(** X3.  On a multi-slot device the loop over [retry_boot] calls the loader
    at most once per slot that was bootable when the loop was entered,
    whatever the loader answers (kernel started, one of the four errors of
    the switch, any other error): the slots handed to it are pairwise
    distinct, each was bootable at entry, and there are at most as many
    calls as there were bootable slots. *)
Theorem retry_loop_attempts_bounded (env : Env) (s : State) :
  partition_multislot_is_supported env = true ->
  exists new,
    trace (final_state (retry_boot env s)) = trace s ++ new /\
    NoDup (attempted new) /\
    (forall slot, In slot (attempted new) ->
                  SlotTable.is_bootable slot (slots s) = true) /\
    (List.length (attempted new) <= SlotTable.bootable_count (slots s))%nat.
Proof.
  intros Hm.
  destruct (retry_boot_loop_run env Hm s) as [new [last [T [L _]]]].
  exists new. split; [exact T|].
  split; [exact (run_attempts_nodup _ _ _ _ L)|].
  split; [exact (run_attempts_bootable _ _ _ _ L)|].
  exact (run_attempts_count _ _ _ _ L).
Qed.

Lemma retry_loop_attempts_bounded_witness :
  let env := sample_env false [] true NORMAL_MODE true 0
               (fun k => match k with
                         | O => Returns ERR_DT_PARSE
                         | _ => Returns (ERR_OTHER 7)
                         end) in
  exists new,
    trace (final_state (retry_boot env sample_state)) =
      trace sample_state ++ new /\
    NoDup (attempted new) /\
    (forall slot, In slot (attempted new) ->
                  SlotTable.is_bootable slot (slots sample_state) = true) /\
    (List.length (attempted new)
     <= SlotTable.bootable_count (slots sample_state))%nat.
Proof.
  intros env. apply retry_loop_attempts_bounded. reflexivity.
Defined.

(** ** The answers of the loader along the loop *)

(** What the loader answered in one pass on a multi-slot device, by the
    way the pass ends; a pass that goes back to the label has made one
    more call. *)
Lemma boot_pass_answers (env : Env) (s : State) :
  partition_multislot_is_supported env = true ->
  match boot_pass env s with
  | Next GotoFastboot _ => True
  | Next Break _ =>
      exists err, boot_linux_from_mmc_ret env (mmc_calls s) = Returns err /\
                  retryable err = false
  | Next GotoRetryBoot s1 =>
      mmc_calls s1 = S (mmc_calls s) /\
      exists err, boot_linux_from_mmc_ret env (mmc_calls s) = Returns err /\
                  retryable err = true
  | Stop _ _ => boot_linux_from_mmc_ret env (mmc_calls s) = KernelRuns
  end.
Proof.
  intros Hm.
  unfold boot_pass, try_boot, boot_linux_from_mmc, partition_find_boot_slot,
    partition_mark_active_slot, partition_deactivate_slot,
    bind, emit, modify, gets, ret, stop.
  rewrite Hm. simpl.
  destruct (SlotTable.find_boot_slot (slots s) =? INVALID); simpl;
    [exact I|].
  destruct (boot_linux_from_mmc_ret env (mmc_calls s)) as [|err]; simpl;
    [reflexivity|].
  destruct (retryable err) eqn:R; simpl; eauto.
Qed.

(** The loop with the answers of the loader: the i-th slot it deactivated
    is the slot of the i-th call it made, and that call came back with an
    error [retryable] accepts; the call that ended the loop started the
    kernel or came back with an error [retryable] refuses. *)
Lemma retry_boot_loop_answers (env : Env) :
  partition_multislot_is_supported env = true ->
  forall s, exists new last,
    trace (final_state (retry_boot env s)) = trace s ++ new /\
    loop_run (slots s) new (slots (final_state (retry_boot env s))) last /\
    (forall i slot,
        nth_error (deactivated new) i = Some slot ->
        exists err,
          boot_linux_from_mmc_ret env (mmc_calls s + i) = Returns err /\
          retryable err = true) /\
    (forall slot,
        last = Some slot ->
        let k := (mmc_calls s + List.length (deactivated new))%nat in
        boot_linux_from_mmc_ret env k = KernelRuns \/
        exists err, boot_linux_from_mmc_ret env k = Returns err /\
                    retryable err = false).
Proof.
  intros Hm s. pattern s, (retry_boot env s).
  apply retry_boot_induction.
  - intros s0 s1 E [new [last [T [L [A1 A2]]]]].
    pose proof (boot_pass_multislot env s0 Hm) as B. rewrite E in B.
    pose proof (boot_pass_answers env s0 Hm) as C. rewrite E in C.
    destruct B as [Hne [S1 [T1 R1]]]. destruct C as [K1 [err [Herr Hr]]].
    eexists. exists last. split; [|split; [|split]].
    + rewrite T, T1, <- !app_assoc. reflexivity.
    + simpl. apply run_retry; [reflexivity | exact Hne|].
      rewrite <- S1. exact L.
    + simpl. intros [|i] slot Hi.
      * rewrite Nat.add_0_r. eauto.
      * simpl in Hi. rewrite Nat.add_succ_r, <- Nat.add_succ_l, <- K1.
        apply (A1 i slot Hi).
    + simpl. intros slot Hl.
      rewrite Nat.add_succ_r, <- Nat.add_succ_l, <- K1.
      apply (A2 slot Hl).
  - intros s0 s1 e Hne E.
    pose proof (boot_pass_multislot env s0 Hm) as B. rewrite E in B.
    pose proof (boot_pass_answers env s0 Hm) as C. rewrite E in C.
    destruct e; [congruence| |].
    + destruct B as [Hi [S1 T1]]. eexists. exists None. simpl.
      split; [exact T1|]. split; [|split].
      * rewrite S1, Hi. apply run_exhausted. exact Hi.
      * intros [|i] slot Hn; discriminate.
      * discriminate.
    + destruct B as [Hi [S1 T1]]. eexists. eexists. simpl.
      split; [rewrite T1, <- app_assoc; reflexivity|]. split; [|split].
      * rewrite S1. apply run_last; [reflexivity | exact Hi].
      * intros [|i] slot Hn; discriminate.
      * intros slot _. simpl. rewrite Nat.add_0_r. right. exact C.
  - intros s0 o s1 E.
    pose proof (boot_pass_multislot env s0 Hm) as B. rewrite E in B.
    pose proof (boot_pass_answers env s0 Hm) as C. rewrite E in C.
    destruct B as [Hi [S1 [T1 ->]]]. eexists. eexists. simpl.
    split; [rewrite T1, <- app_assoc; reflexivity|]. split; [|split].
    + rewrite S1. apply run_last; [reflexivity | exact Hi].
    + intros [|i] slot Hn; discriminate.
    + intros slot _. simpl. rewrite Nat.add_0_r. left. exact C.
Qed.

(** X4.  On a multi-slot device the loop deactivates only slots whose load
    has failed with one of the four errors of the switch.  The slots it
    deactivated are the slots it handed to the loader, in order, but for
    the attempt that ended the loop (if one did); the call for the i-th
    deactivated slot, the i-th call of the loop, came back with
    ERR_INVALID_PAGE_SIZE, ERR_DT_PARSE, ERR_ABOOT_ADDR_OVERLAP or
    ERR_INVALID_BOOT_MAGIC; the call that ended the loop started the
    kernel or came back with another error, and its slot is still
    bootable.  A slot is bootable after the loop exactly when it was
    bootable before and is none of the deactivated ones. *)
Theorem retry_loop_deactivates_failed_only (env : Env) (s : State) :
  partition_multislot_is_supported env = true ->
  let s' := final_state (retry_boot env s) in
  exists new rest,
    trace s' = trace s ++ new /\
    attempted new = deactivated new ++ rest /\
    (List.length rest <= 1)%nat /\
    (forall slot,
        SlotTable.is_bootable slot (slots s') =
        SlotTable.is_bootable slot (slots s)
        && negb (existsb (Z.eqb slot) (deactivated new))) /\
    (forall i slot,
        nth_error (deactivated new) i = Some slot ->
        let answer := boot_linux_from_mmc_ret env (mmc_calls s + i) in
        answer = Returns ERR_INVALID_PAGE_SIZE \/
        answer = Returns ERR_DT_PARSE \/
        answer = Returns ERR_ABOOT_ADDR_OVERLAP \/
        answer = Returns ERR_INVALID_BOOT_MAGIC) /\
    (forall slot,
        rest = [slot] ->
        let answer :=
          boot_linux_from_mmc_ret env
            (mmc_calls s + List.length (deactivated new)) in
        SlotTable.is_bootable slot (slots s') = true /\
        (answer = KernelRuns \/
         exists code, answer = Returns (ERR_OTHER code))).
Proof.
  intros Hm s'. subst s'.
  destruct (retry_boot_loop_answers env Hm s)
    as [new [last [T [L [A1 A2]]]]].
  exists new, (last_attempt last). split; [exact T|].
  split; [exact (run_attempts_split _ _ _ _ L)|].
  split; [destruct last; simpl; lia|].
  split; [exact (run_bootable_after _ _ _ _ L)|]. split.
  - intros i slot Hi. destruct (A1 i slot Hi) as [err [E R]].
    cbv zeta. rewrite E. destruct err; try discriminate R; auto.
  - intros slot Hl. destruct last as [x|]; [|discriminate Hl].
    injection Hl as ->. split.
    + apply (run_last_active _ _ _ _ L slot eq_refl).
    + destruct (A2 slot eq_refl) as [K|[err [E R]]]; [left; exact K|].
      right. cbv zeta. destruct err; try discriminate R.
      eexists. exact E.
Qed.

Lemma retry_loop_deactivates_failed_only_witness :
  let env := sample_env false [] true NORMAL_MODE true 0
               (fun k => match k with
                         | O => Returns ERR_DT_PARSE
                         | _ => Returns (ERR_OTHER 7)
                         end) in
  let s := sample_state in
  let s' := final_state (retry_boot env s) in
  exists new rest,
    trace s' = trace s ++ new /\
    attempted new = deactivated new ++ rest /\
    (List.length rest <= 1)%nat /\
    (forall slot,
        SlotTable.is_bootable slot (slots s') =
        SlotTable.is_bootable slot (slots s)
        && negb (existsb (Z.eqb slot) (deactivated new))) /\
    (forall i slot,
        nth_error (deactivated new) i = Some slot ->
        let answer := boot_linux_from_mmc_ret env (mmc_calls s + i) in
        answer = Returns ERR_INVALID_PAGE_SIZE \/
        answer = Returns ERR_DT_PARSE \/
        answer = Returns ERR_ABOOT_ADDR_OVERLAP \/
        answer = Returns ERR_INVALID_BOOT_MAGIC) /\
    (forall slot,
        rest = [slot] ->
        let answer :=
          boot_linux_from_mmc_ret env
            (mmc_calls s + List.length (deactivated new)) in
        SlotTable.is_bootable slot (slots s') = true /\
        (answer = KernelRuns \/
         exists code, answer = Returns (ERR_OTHER code))).
Proof.
  intros env s. apply retry_loop_deactivates_failed_only. reflexivity.
Defined.

(** X5.  When the loop over [retry_boot] leaves [aboot_init] on a multi-slot
    device, it does so because the loader started a kernel: it is the
    recovery image exactly when [boot_into_recovery] was set at the entry
    of the loop, the call of the loader is the last call of the run, and
    the slot it was given is a real slot, still bootable, and the one slot
    marked active in the table. *)
Theorem started_slot_is_active (env : Env) (s s' : State) (o : Outcome) :
  partition_multislot_is_supported env = true ->
  retry_boot env s = Stop o s' ->
  o = KernelStarted (boot_into_recovery s) /\
  exists slot pre,
    trace s' = trace s ++ pre ++ [Ev_boot_linux_from_mmc slot] /\
    slot <> INVALID /\
    SlotTable.is_bootable slot (slots s') = true /\
    forall x, slot_is_active x (slots s') = true <-> x = slot.
Proof.
  intros Hm E.
  destruct (retry_boot_loop_run env Hm s) as [new [last [T [L A]]]].
  rewrite E in T, L, A. simpl in T, L, A.
  destruct A as [-> [slot ->]]. split; [reflexivity|].
  destruct (run_last_active _ _ _ _ L slot eq_refl)
    as [H1 [[pre H2] [H3 H4]]].
  exists slot, pre. rewrite T, H2. auto.
Qed.

Lemma started_slot_is_active_witness :
  let env := sample_env false [] true NORMAL_MODE true 0
               (fun k => match k with
                         | O => Returns ERR_INVALID_BOOT_MAGIC
                         | _ => KernelRuns
                         end) in
  exists s',
    retry_boot env sample_state = Stop (KernelStarted false) s' /\
    exists slot pre,
      trace s' = trace sample_state ++ pre ++ [Ev_boot_linux_from_mmc slot] /\
      slot <> INVALID /\
      SlotTable.is_bootable slot (slots s') = true /\
      forall x, slot_is_active x (slots s') = true <-> x = slot.
Proof.
  intros env.
  destruct (retry_boot env sample_state) as [a s'|o s'] eqn:E;
    [vm_compute in E; discriminate|].
  pose proof (started_slot_is_active env sample_state s' o eq_refl E)
    as [Ho H].
  exists s'. split; [rewrite Ho; reflexivity | exact H].
Defined.

(** ** The block under the [normal_boot] label, in one piece *)

Lemma normal_boot_closed (cfg : Config) (env : Env) (s : State) :
  normal_boot cfg env s =
  if boot_into_fastboot s then Next tt s
  else if lk2nd_takes_over cfg env s
  then Stop Lk2ndStarted (set_trace (trace s ++ [Ev_lk2nd_boot]) s)
  else
    let s1 := set_trace (trace s ++ before_load cfg env s) s in
    if target_is_emmc_boot env
    then retry_boot env s1
    else boot_linux_from_flash env s1.
Proof.
  unfold normal_boot, signal_tamper, lk2nd_takes_over, before_load,
    tamper_signals, lk2nd_boot.
  unfold when, emit, modify, gets, stop, bind, ret.
  destruct s as [d p sl fb rec al mc tr]. simpl.
  destruct fb; [reflexivity|]. simpl.
  destruct (WITH_LK2ND_BOOT cfg), rec, (lk2nd_boot_returns env); simpl;
    try reflexivity;
    destruct (target_is_emmc_boot env), (ABOOT_STANDALONE cfg); simpl;
    try destruct (target_use_signed_kernel env); simpl;
    try destruct (TZ_TAMPER_FUSE cfg); simpl;
    destruct (USE_PCOM_SECBOOT cfg); simpl;
    destruct (is_unlocked d), (is_tampered d); simpl;
    rewrite <- ?app_assoc, ?app_nil_r; reflexivity.
Qed.

Lemma before_load_no_load (cfg : Config) (env : Env) (s : State) :
  forallb (fun e => negb (is_mmc_load e)) (before_load cfg env s) = true.
Proof.
  unfold before_load, tamper_signals.
  destruct (WITH_LK2ND_BOOT cfg && negb (boot_into_recovery s)),
    (ABOOT_STANDALONE cfg), (target_is_emmc_boot env),
    (is_unlocked (device s) || is_tampered (device s)),
    (target_use_signed_kernel env), (TZ_TAMPER_FUSE cfg),
    (USE_PCOM_SECBOOT cfg); reflexivity.
Qed.

(** ** Devices without multi-slot support *)

(** Without multi-slot support the loop is one call of the loader. *)
Lemma retry_boot_single (env : Env) (s : State) :
  partition_multislot_is_supported env = false ->
  retry_boot env s =
  let s1 := set_mmc_calls (S (mmc_calls s))
              (set_trace (trace s ++ [Ev_boot_linux_from_mmc INVALID]) s) in
  match boot_linux_from_mmc_ret env (mmc_calls s) with
  | KernelRuns => Stop (KernelStarted (boot_into_recovery s)) s1
  | Returns _ => Next tt s1
  end.
Proof.
  intros Hm. rewrite retry_boot_step.
  unfold boot_pass, try_boot, boot_linux_from_mmc, bind, emit, modify, gets,
    ret, stop.
  rewrite Hm. simpl.
  destruct (boot_linux_from_mmc_ret env (mmc_calls s)) as [|err]; simpl;
    [reflexivity|].
  destruct (retryable err); reflexivity.
Qed.

Lemma count_bind_le {A B} (q : Event -> bool) (m : M A) (k : A -> M B)
    (n1 n2 : nat) :
  (forall s, (count_events q (trace (final_state (m s)))
              <= count_events q (trace s) + n1)%nat) ->
  (forall a s, (count_events q (trace (final_state (k a s)))
                <= count_events q (trace s) + n2)%nat) ->
  forall s, (count_events q (trace (final_state (bind m k s)))
             <= count_events q (trace s) + (n1 + n2))%nat.
Proof.
  intros Hm Hk s. rewrite final_state_bind. specialize (Hm s).
  destruct (m s) as [a s'|o s']; simpl in *.
  - specialize (Hk a s'). lia.
  - lia.
Qed.

Lemma count_keeps {A} (P q : Event -> bool) (m : M A) :
  (forall e, P e = true -> q e = false) ->
  keeps P m ->
  forall s, (count_events q (trace (final_state (m s)))
             <= count_events q (trace s) + 0)%nat.
Proof.
  intros HP Hm s. rewrite (keeps_count P _ m s HP Hm). lia.
Qed.

Lemma normal_boot_single_load (cfg : Config) (env : Env) (s : State) :
  partition_multislot_is_supported env = false ->
  (count_events is_mmc_load (trace (final_state (normal_boot cfg env s)))
   <= count_events is_mmc_load (trace s) + 1)%nat.
Proof.
  intros Hm. rewrite normal_boot_closed.
  destruct (boot_into_fastboot s); [simpl; lia|].
  destruct (lk2nd_takes_over cfg env s).
  { simpl. rewrite count_events_app. unfold count_events. simpl. lia. }
  cbv zeta.
  assert (count_events is_mmc_load (before_load cfg env s) = 0%nat) as H0.
  { apply (count_events_none (fun e => negb (is_mmc_load e))).
    - intros e He. destruct (is_mmc_load e); [discriminate | reflexivity].
    - apply before_load_no_load. }
  destruct (target_is_emmc_boot env).
  - rewrite (retry_boot_single env _ Hm). simpl.
    destruct (boot_linux_from_mmc_ret env (mmc_calls s)); simpl;
      rewrite !count_events_app, H0; unfold count_events; simpl; lia.
  - unfold boot_linux_from_flash, bind, emit, modify, gets, stop, ret.
    simpl.
    destruct (boot_linux_from_flash_returns env); simpl;
      rewrite !count_events_app, H0; unfold count_events; simpl; lia.
Qed.

(** X6.  On a device without multi-slot support a whole run of [aboot_init]
    leaves the slot table as it found it and calls [boot_linux_from_mmc] at
    most once: the four error codes that make a multi-slot device try the
    next slot end the boot path here as any other error does. *)
Theorem no_multislot_single_attempt (cfg : Config) (env : Env) (s : State) :
  partition_multislot_is_supported env = false ->
  let s' := final_state (aboot_init cfg env s) in
  slots s' = slots s /\
  (count_events is_mmc_load (trace s')
   <= count_events is_mmc_load (trace s) + 1)%nat.
Proof.
  intros Hm s'. subst s'. split.
  - apply (steady_aboot_init cfg env (fun s s' => slots s' = slots s));
      intros; simpl; congruence.
  - rewrite aboot_init_split.
    apply (count_bind_le is_mmc_load _ _ 0 1).
    + apply (count_keeps is_init_event); [|apply keeps_prelude].
      intros e; destruct e; simpl; congruence.
    + intros _. unfold decide.
      apply (count_bind_le is_mmc_load _ _ 0 1).
      * apply (count_keeps is_signal_event);
          [|apply keeps_signal_and_policy].
        unfold is_signal_event. intros e; destruct e; simpl; congruence.
      * intros _. apply (count_bind_le is_mmc_load _ _ 1 0).
        -- intros s1. apply normal_boot_single_load. exact Hm.
        -- intros _. apply (count_keeps is_fastboot_start);
             [|apply keeps_fastboot].
           intros e; destruct e; simpl; congruence.
Qed.

Lemma no_multislot_single_attempt_witness :
  let cfg := sample_cfg false 2 in
  let env :=
    {| target_is_emmc_boot := true;
       partition_multislot_is_supported := false;
       check_alarm_boot := false;
       display_shutdown_polls := Some 0%nat;
       pm_appsbl_display_init_done := true;
       sn_buf_filled := true;
       is_user_force_reset := false;
       keys_get_state := fun _ => false;
       reboot_device_returns := true;
       fastboot_trigger := false;
       reboot_mode_reg := NORMAL_MODE;
       hard_reboot_mode_reg := NORMAL_MODE;
       target_get_vb_version := 2;
       write_device_info_ok := true;
       send_delete_keys_to_tz_ret := 0;
       lk2nd_boot_returns := true;
       target_use_signed_kernel := true;
       boot_linux_from_mmc_ret := fun _ => Returns ERR_INVALID_BOOT_MAGIC;
       boot_linux_from_flash_returns := true |} in
  let s' := final_state (aboot_init cfg env sample_state) in
  slots s' = slots sample_state /\
  (count_events is_mmc_load (trace s')
   <= count_events is_mmc_load (trace sample_state) + 1)%nat.
Proof.
  intros cfg env. apply no_multislot_single_attempt. reflexivity.
Defined.

(** ** The lock and tamper flags *)

Lemma aboot_init_after_init (cfg : Config) (env : Env) :
  aboot_init cfg env = (init_globals cfg ;; after_init cfg env).
Proof. reflexivity. Qed.

Lemma steady_after_init (cfg : Config) (env : Env)
    (R : State -> State -> Prop) :
  (forall s, R s s) ->
  (forall s1 s2 s3, R s1 s2 -> R s2 s3 -> R s1 s3) ->
  steady R (detect_active_slot env) ->
  steady R (board_init cfg env) ->
  steady R (decide cfg env) ->
  steady R (after_init cfg env).
Proof.
  intros Hr Ht H1 H2 H3. unfold after_init.
  apply steady_bind; [exact Ht | exact H1|]. intros _.
  apply steady_bind; [exact Ht | exact H2|]. intros _. exact H3.
Qed.

(** Once [device] is loaded, its lock and tamper flags and those of the
    stored record stay what they are. *)
Lemma lock_state_after_init (cfg : Config) (env : Env) (s : State) :
  lock_state_loaded s ->
  let s' := final_state (after_init cfg env s) in
  lock_state_loaded s' /\
  tamper_state (persisted s') = tamper_state (persisted s).
Proof.
  revert s.
  change (steady (fun s s' =>
                    lock_state_loaded s ->
                    lock_state_loaded s' /\
                    tamper_state (persisted s') = tamper_state (persisted s))
                 (after_init cfg env)).
  unfold lock_state_loaded, tamper_state.
  apply steady_after_init;
    [ | | apply steady_detect_active_slot | apply steady_board_init
      | apply steady_decide ];
    try (intros; simpl in *; tauto).
  all: intros s1 s2 s3 H12 H23 H1;
    destruct (H12 H1) as [J2 P2]; destruct (H23 J2) as [J3 P3];
    split; [exact J3 | congruence].
Qed.

(** X7.  On a build that is not standalone, a run of [aboot_init] never
    changes the lock and tamper flags of the stored device record, whatever
    the keys, the reset reason and the loader do: the only writes are those
    of the verity mode, and they write back the flags that were loaded. *)
Theorem stored_lock_state_kept (cfg : Config) (env : Env) (s : State) :
  ABOOT_STANDALONE cfg = false ->
  tamper_state (persisted (final_state (aboot_init cfg env s))) =
  tamper_state (persisted s).
Proof.
  intros Hs. rewrite aboot_init_after_init, final_state_bind.
  pose proof (init_globals_device cfg s) as D.
  pose proof (init_globals_flow cfg s) as F.
  pose proof (steady_init_globals cfg
                (fun s s' => persisted s' = persisted s)) as P.
  specialize (P (fun _ => eq_refl)).
  assert (persisted (final_state (init_globals cfg s)) = persisted s) as Hp.
  { apply P; intros; simpl; congruence. }
  clear P.
  destruct (init_globals cfg s) as [[] s1|o s1]; simpl in *;
    [|rewrite Hp; reflexivity].
  unfold loaded_device in D. rewrite Hs in D.
  destruct (lock_state_after_init cfg env s1) as [_ H].
  - unfold lock_state_loaded. rewrite D, Hp. reflexivity.
  - rewrite H, Hp. reflexivity.
Qed.

Lemma stored_lock_state_kept_witness :
  let env := sample_env false [] true DM_VERITY_ENFORCING true 0
                        (fun _ => KernelRuns) in
  tamper_state
    (persisted (final_state (aboot_init (sample_cfg false 2) env
                                        sample_state))) =
  tamper_state (persisted sample_state).
Proof.
  intros env. apply stored_lock_state_kept. reflexivity.
Defined.

(** ** A run of [aboot_init], stage by stage *)

Lemma aboot_init_stages (cfg : Config) (env : Env) (s0 : State)
    (Q : Result unit -> Prop) :
  (forall o s1, prelude cfg env s0 = Stop o s1 -> Q (Stop o s1)) ->
  (forall s1 o s2,
      prelude cfg env s0 = Next tt s1 ->
      signal_and_policy cfg env s1 = Stop o s2 -> Q (Stop o s2)) ->
  (forall s1 s2 o s3,
      prelude cfg env s0 = Next tt s1 ->
      signal_and_policy cfg env s1 = Next tt s2 ->
      normal_boot cfg env s2 = Stop o s3 -> Q (Stop o s3)) ->
  (forall s1 s2 s3 s4,
      prelude cfg env s0 = Next tt s1 ->
      signal_and_policy cfg env s1 = Next tt s2 ->
      normal_boot cfg env s2 = Next tt s3 ->
      fastboot cfg env s3 = Next tt s4 -> Q (Next tt s4)) ->
  Q (aboot_init cfg env s0).
Proof.
  intros H1 H2 H3 H4. rewrite aboot_init_split. unfold bind at 1.
  destruct (prelude cfg env s0) as [[] s1|o s1] eqn:E1; [|auto].
  unfold decide, bind.
  destruct (signal_and_policy cfg env s1) as [[] s2|o s2] eqn:E2;
    [|eauto].
  destruct (normal_boot cfg env s2) as [[] s3|o s3] eqn:E3; [|eauto].
  destruct (fastboot_returns cfg env s3) as [s4 E4]. rewrite E4. eauto.
Qed.

Lemma forallb_weaken (P Q : Event -> bool) (l : list Event) :
  (forall e, P e = true -> Q e = true) ->
  forallb P l = true -> forallb Q l = true.
Proof.
  intros H Hl. rewrite forallb_forall in *. auto.
Qed.

(** The events a run adds, stage by stage: those of the stages before and
    after the block under [normal_boot] are of the classes of these
    stages. *)
Lemma aboot_init_events (cfg : Config) (env : Env) (s0 : State)
    (P : Event -> bool) :
  (forall e, is_init_event e || is_signal_event e || is_fastboot_start e
             = true -> P e = true) ->
  (forall s1 s2,
      prelude cfg env s0 = Next tt s1 ->
      signal_and_policy cfg env s1 = Next tt s2 ->
      exists new,
        trace (final_state (normal_boot cfg env s2)) = trace s2 ++ new /\
        forallb P new = true) ->
  exists new,
    trace (final_state (aboot_init cfg env s0)) = trace s0 ++ new /\
    forallb P new = true.
Proof.
  intros HP Hnb.
  assert (forall n, forallb is_init_event n = true -> forallb P n = true)
    as I1.
  { intros n. apply forallb_weaken. intros e He. apply HP. rewrite He. reflexivity. }
  assert (forall n, forallb is_signal_event n = true -> forallb P n = true)
    as I2.
  { intros n. apply forallb_weaken. intros e He. apply HP. rewrite He.
    rewrite orb_true_r. reflexivity. }
  assert (forall n, forallb is_fastboot_start n = true ->
                    forallb P n = true) as I3.
  { intros n. apply forallb_weaken. intros e He. apply HP. rewrite He.
    apply orb_true_r. }
  apply aboot_init_stages.
  - intros o s1 E1. destruct (keeps_prelude cfg env s0) as [n1 [T1 K1]].
    rewrite E1 in T1. exists n1. split; [exact T1 | auto].
  - intros s1 o s2 E1 E2.
    destruct (keeps_prelude cfg env s0) as [n1 [T1 K1]].
    destruct (keeps_signal_and_policy cfg env s1) as [n2 [T2 K2]].
    rewrite E1 in T1. rewrite E2 in T2. simpl in *.
    exists (n1 ++ n2). rewrite T2, T1, app_assoc, forallb_app.
    split; [reflexivity|]. rewrite (I1 _ K1), (I2 _ K2). reflexivity.
  - intros s1 s2 o s3 E1 E2 E3.
    destruct (keeps_prelude cfg env s0) as [n1 [T1 K1]].
    destruct (keeps_signal_and_policy cfg env s1) as [n2 [T2 K2]].
    destruct (Hnb s1 s2 E1 E2) as [n3 [T3 K3]].
    rewrite E1 in T1. rewrite E2 in T2. rewrite E3 in T3. simpl in *.
    exists (n1 ++ n2 ++ n3).
    rewrite T3, T2, T1, <- !app_assoc, !forallb_app.
    split; [reflexivity|]. rewrite (I1 _ K1), (I2 _ K2), K3. reflexivity.
  - intros s1 s2 s3 s4 E1 E2 E3 E4.
    destruct (keeps_prelude cfg env s0) as [n1 [T1 K1]].
    destruct (keeps_signal_and_policy cfg env s1) as [n2 [T2 K2]].
    destruct (Hnb s1 s2 E1 E2) as [n3 [T3 K3]].
    destruct (keeps_fastboot cfg env s3) as [n4 [T4 K4]].
    rewrite E1 in T1. rewrite E2 in T2. rewrite E3 in T3. rewrite E4 in T4.
    simpl in *. exists (n1 ++ n2 ++ n3 ++ n4).
    rewrite T4, T3, T2, T1, <- !app_assoc, !forallb_app.
    split; [reflexivity|].
    rewrite (I1 _ K1), (I2 _ K2), K3, (I3 _ K4). reflexivity.
Qed.

Lemma keeps_boot_pass_no_tamper (env : Env) :
  keeps (fun e => negb (is_tamper_signal e)) (boot_pass env).
Proof.
  unfold boot_pass, try_boot, boot_linux_from_mmc,
    partition_find_boot_slot, partition_mark_active_slot,
    partition_deactivate_slot.
  calls_steps.
Qed.

Lemma normal_boot_locked (cfg : Config) (env : Env) (s : State) :
  is_unlocked (device s) || is_tampered (device s) = false ->
  exists new,
    trace (final_state (normal_boot cfg env s)) = trace s ++ new /\
    forallb (fun e => negb (is_tamper_signal e)) new = true.
Proof.
  intros Hd. rewrite normal_boot_closed.
  destruct (boot_into_fastboot s).
  { exists []. rewrite app_nil_r. split; reflexivity. }
  destruct (lk2nd_takes_over cfg env s).
  { eexists. split; reflexivity. }
  cbv zeta.
  assert (forallb (fun e => negb (is_tamper_signal e))
                  (before_load cfg env s) = true) as Hb.
  { unfold before_load, tamper_signals. rewrite Hd.
    destruct (WITH_LK2ND_BOOT cfg && negb (boot_into_recovery s)),
      (ABOOT_STANDALONE cfg), (target_is_emmc_boot env); reflexivity. }
  destruct (target_is_emmc_boot env).
  - destruct (keeps_loop env _ (keeps_boot_pass_no_tamper env)
                (set_trace (trace s ++ before_load cfg env s) s))
      as [n [T K]].
    exists (before_load cfg env s ++ n).
    rewrite T. simpl. rewrite <- app_assoc, forallb_app, Hb, K.
    split; reflexivity.
  - exists (before_load cfg env s ++ [Ev_boot_linux_from_flash]).
    rewrite forallb_app, Hb.
    unfold boot_linux_from_flash, bind, emit, modify, gets, stop, ret.
    destruct (boot_linux_from_flash_returns env); simpl;
      rewrite <- app_assoc; split; reflexivity.
Qed.

(** X8.  On a build that is not standalone, when the stored device record
    is locked and not tampered, no run of [aboot_init] signals tampering:
    neither [set_tamper_fuse_cmd] nor [set_tamper_flag] is called, on the
    eMMC path or on the flash path, whatever slot is booted. *)
Theorem locked_device_no_tamper_signal
    (cfg : Config) (env : Env) (s : State) :
  ABOOT_STANDALONE cfg = false ->
  is_unlocked (persisted s) || is_tampered (persisted s) = false ->
  exists new,
    trace (final_state (aboot_init cfg env s)) = trace s ++ new /\
    forallb (fun e => negb (is_tamper_signal e)) new = true.
Proof.
  intros Hs Hd. apply aboot_init_events.
  - unfold is_signal_event. intros e. destruct e; simpl; congruence.
  - intros s1 s2 E1 E2. apply normal_boot_locked.
    pose proof (prelude_tamper_state cfg env s) as T1.
    pose proof (signal_and_policy_tamper_state cfg env s1) as T2.
    rewrite E1 in T1. rewrite E2 in T2. simpl in T1, T2.
    unfold loaded_device in T1. rewrite Hs in T1.
    unfold tamper_state in *. rewrite T1 in T2.
    injection T2 as -> ->. exact Hd.
Qed.

Lemma locked_device_no_tamper_signal_witness :
  let locked := mkDevice false false 0 "" in
  let s := boot_entry locked locked sample_slots in
  let env := sample_env false [] true NORMAL_MODE true 0
                        (fun _ => KernelRuns) in
  exists new,
    trace (final_state (aboot_init (sample_cfg false 2) env s)) =
      trace s ++ new /\
    forallb (fun e => negb (is_tamper_signal e)) new = true.
Proof.
  intros locked s env.
  apply locked_device_no_tamper_signal; reflexivity.
Defined.

(** ** The flash path *)

Lemma split_at_last (x : Event) (l pre post : list Event) :
  l ++ [x] = pre ++ x :: post -> ~ In x l -> pre = l /\ post = [].
Proof.
  revert pre. induction l as [|a l IH]; intros pre E Hn.
  - destruct pre as [|b pre]; simpl in E.
    + injection E as <-. split; reflexivity.
    + injection E as _ E. destruct pre; discriminate.
  - destruct pre as [|b pre]; simpl in E.
    + injection E as -> _. exfalso. apply Hn. left. reflexivity.
    + injection E as -> E. destruct (IH pre E) as [-> ->].
      * intros H. apply Hn. right. exact H.
      * split; reflexivity.
Qed.

Lemma before_load_no_flash (cfg : Config) (env : Env) (s : State) :
  ~ In Ev_boot_linux_from_flash (before_load cfg env s).
Proof.
  unfold before_load, tamper_signals.
  destruct (WITH_LK2ND_BOOT cfg && negb (boot_into_recovery s)),
    (ABOOT_STANDALONE cfg), (target_is_emmc_boot env),
    (is_unlocked (device s) || is_tampered (device s)),
    (target_use_signed_kernel env), (TZ_TAMPER_FUSE cfg),
    (USE_PCOM_SECBOOT cfg); simpl; intuition discriminate.
Qed.

(** X9.  When the device does not boot from eMMC, the block under the
    [normal_boot] label leaves the slot table alone and calls
    [boot_linux_from_flash] at most once, as its last call; before it come
    [recovery_init] (unless the build is standalone) and, on a build with
    USE_PCOM_SECBOOT, [set_tamper_flag(device.is_tampered)] when [device] is
    unlocked or tampered. *)
Theorem flash_boot_path (cfg : Config) (env : Env) (s : State) :
  target_is_emmc_boot env = false ->
  let s' := final_state (normal_boot cfg env s) in
  slots s' = slots s /\
  forall pre post,
    trace s' = trace s ++ pre ++ Ev_boot_linux_from_flash :: post ->
    post = [] /\
    ~ In Ev_boot_linux_from_flash pre /\
    (ABOOT_STANDALONE cfg = false -> In Ev_recovery_init pre) /\
    (USE_PCOM_SECBOOT cfg = true ->
     is_unlocked (device s) || is_tampered (device s) = true ->
     In (Ev_set_tamper_flag (is_tampered (device s))) pre).
Proof.
  intros He s'. subst s'. rewrite normal_boot_closed.
  destruct (boot_into_fastboot s).
  { simpl. split; [reflexivity|]. intros pre post H. exfalso.
    rewrite <- (app_nil_r (trace s)) in H at 1.
    apply app_inv_head in H. destruct pre; discriminate. }
  destruct (lk2nd_takes_over cfg env s).
  { simpl. split; [reflexivity|]. intros pre post H. exfalso.
    apply app_inv_head in H.
    destruct pre as [|e [|e2 pre]]; discriminate. }
  cbv zeta. rewrite He.
  assert (trace (final_state
                   (boot_linux_from_flash env
                      (set_trace (trace s ++ before_load cfg env s) s))) =
          trace s ++ before_load cfg env s ++ [Ev_boot_linux_from_flash] /\
          slots (final_state
                   (boot_linux_from_flash env
                      (set_trace (trace s ++ before_load cfg env s) s))) =
          slots s) as [T S].
  { unfold boot_linux_from_flash, bind, emit, modify, gets, stop, ret.
    destruct (boot_linux_from_flash_returns env); simpl;
      rewrite <- app_assoc; split; reflexivity. }
  split; [exact S|]. intros pre post H. rewrite T in H.
  apply app_inv_head in H.
  destruct (split_at_last _ _ _ _ H (before_load_no_flash cfg env s))
    as [-> ->].
  split; [reflexivity|]. split; [apply before_load_no_flash|].
  unfold before_load, tamper_signals. rewrite He. split.
  - intros ->. simpl. apply in_or_app. right. left. reflexivity.
  - intros -> ->. apply in_or_app. right. apply in_or_app. right.
    left. reflexivity.
Qed.

Lemma flash_boot_path_witness :
  let cfg := sample_cfg false 2 in
  let env :=
    {| target_is_emmc_boot := false;
       partition_multislot_is_supported := false;
       check_alarm_boot := false;
       display_shutdown_polls := Some 0%nat;
       pm_appsbl_display_init_done := true;
       sn_buf_filled := true;
       is_user_force_reset := false;
       keys_get_state := fun _ => false;
       reboot_device_returns := true;
       fastboot_trigger := false;
       reboot_mode_reg := NORMAL_MODE;
       hard_reboot_mode_reg := NORMAL_MODE;
       target_get_vb_version := 2;
       write_device_info_ok := true;
       send_delete_keys_to_tz_ret := 0;
       lk2nd_boot_returns := true;
       target_use_signed_kernel := false;
       boot_linux_from_mmc_ret := fun _ => KernelRuns;
       boot_linux_from_flash_returns := false |} in
  In Ev_recovery_init [Ev_recovery_init; Ev_set_tamper_flag false] /\
  In (Ev_set_tamper_flag false) [Ev_recovery_init; Ev_set_tamper_flag false].
Proof.
  intros cfg env.
  destruct (flash_boot_path cfg env sample_state eq_refl) as [_ H].
  destruct (H [Ev_recovery_init; Ev_set_tamper_flag false] [] eq_refl)
    as [_ [_ [H1 H2]]].
  split; [apply H1 | apply H2]; reflexivity.
Defined.

(** ** What a run decides, and why *)

Lemma check_keys_flags (cfg : Config) (env : Env) (s : State) :
  run_sat (check_keys cfg env s)
    (fun _ s' =>
       boot_into_fastboot s' =
         boot_into_fastboot s
         || (both_volume_keys env
             || (negb (boot_into_recovery s)
                 && negb (keys_get_state env KEY_VOLUMEUP)
                 && (keys_get_state env KEY_HOME
                     || keys_get_state env KEY_BACK
                     || keys_get_state env KEY_VOLUMEDOWN))
             || (NO_KEYPAD_DRIVER cfg && fastboot_trigger env)) /\
       boot_into_recovery s' =
         boot_into_recovery s
         || (negb (boot_into_fastboot s) && negb (both_volume_keys env)
             && keys_get_state env KEY_VOLUMEUP))
    (fun _ _ => True).
Proof.
  unfold check_keys, both_volume_keys. unfold_steps.
  destruct (keys_get_state env KEY_VOLUMEUP),
    (keys_get_state env KEY_VOLUMEDOWN),
    (reboot_device_returns env); simpl;
    destruct (boot_into_fastboot s) eqn:Hfb; simpl;
    destruct (boot_into_recovery s) eqn:Hrec; simpl;
    destruct (keys_get_state env KEY_HOME),
      (keys_get_state env KEY_BACK),
      (NO_KEYPAD_DRIVER cfg), (fastboot_trigger env); simpl;
    auto.
Qed.

(** The flags the signal and policy block leaves, for any flags it is
    entered with, and the two ways it has of not reaching the [normal_boot]
    label. *)
Lemma signal_and_policy_flags (cfg : Config) (env : Env) (s : State) :
  run_sat (signal_and_policy cfg env s)
    (fun _ s' =>
       if is_user_force_reset env
       then boot_into_fastboot s' = boot_into_fastboot s /\
            boot_into_recovery s' = boot_into_recovery s
       else boot_into_fastboot s' =
              boot_into_fastboot s
              || fastboot_requested cfg env (boot_into_recovery s) /\
            boot_into_recovery s' =
              boot_into_recovery s
              || recovery_requested cfg env (boot_into_fastboot s))
    (fun o _ =>
       o = Halted \/
       (o = DloadReset /\ is_user_force_reset env = false /\
        dload_taken env = true)).
Proof.
  destruct (is_user_force_reset env) eqn:Hf.
  { rewrite signal_and_policy_forced by exact Hf. simpl. auto. }
  destruct (dload_taken env) eqn:Hd.
  { destruct (signal_and_policy_dload cfg env s Hf Hd) as [s' [-> _]].
    simpl. auto. }
  unfold signal_and_policy, evaluate_signals.
  unfold bind at 1. unfold emit at 1, modify at 1. rewrite Hf.
  unfold bind at 1. unfold bind at 1.
  set (s0 := set_trace (trace s ++ [Ev_is_user_force_reset]) s).
  pose proof (check_keys_flags cfg env s0) as K.
  pose proof (check_keys_flow cfg env s0) as K'.
  destruct (check_keys cfg env s0) as [[] s1|o s1]; simpl in K, K';
    [|destruct K' as [_ [K' _]]; congruence].
  destruct K as [F1 R1].
  destruct (read_reboot_mode_flow cfg env s1) as [e [_ Hr]].
  unfold bind at 1. rewrite Hr.
  set (s2 := set_trace (trace s1 ++ [e]) s1).
  pose proof (apply_reboot_mode_flags cfg env
                (selected_reboot_mode cfg env) s2) as [F3 [R3 _]].
  pose proof (apply_reboot_mode_halts cfg env
                (selected_reboot_mode cfg env) s2) as Hh.
  unfold bind.
  destruct (apply_reboot_mode cfg env (selected_reboot_mode cfg env) s2)
    as [[] s3|o s3]; simpl in Hh, F3, R3; [|simpl; auto].
  destruct (force_fastboot_flag_flow cfg s3)
    as [s4 [E4 [_ [_ [_ [_ F4]]]]]].
  assert (boot_into_recovery s4 = boot_into_recovery s3) as R4.
  { revert E4. unfold force_fastboot_flag. unfold_steps.
    destruct (LK2ND_FORCE_FASTBOOT cfg); simpl; intros E4;
      injection E4 as <-; reflexivity. }
  unfold force_fastboot_flag in E4. rewrite E4. simpl.
  rewrite F4, F3, R4, R3. subst s2 s0. simpl in *. rewrite F1, R1.
  unfold fastboot_requested, recovery_requested.
  rewrite <- !orb_assoc. split; reflexivity.
Qed.

(** The loop leaves [aboot_init] only by starting a kernel. *)
Lemma retry_boot_stops (env : Env) (s s' : State) (o : Outcome) :
  retry_boot env s = Stop o s' ->
  o = KernelStarted (boot_into_recovery s).
Proof.
  intros E. destruct (partition_multislot_is_supported env) eqn:Hm.
  - destruct (retry_boot_loop_run env Hm s) as [new [last [_ [_ A]]]].
    rewrite E in A. destruct A as [A _]. exact A.
  - rewrite (retry_boot_single env s Hm) in E.
    destruct (boot_linux_from_mmc_ret env (mmc_calls s)); [|discriminate].
    simpl in E. injection E as <- _. reflexivity.
Qed.

Lemma normal_boot_stops (cfg : Config) (env : Env) (s s' : State)
    (o : Outcome) :
  normal_boot cfg env s = Stop o s' ->
  boot_into_fastboot s = false /\
  ((o = Lk2ndStarted /\ boot_into_recovery s = false) \/
   o = KernelStarted (boot_into_recovery s)).
Proof.
  rewrite normal_boot_closed.
  destruct (boot_into_fastboot s); [discriminate|].
  intros E. split; [reflexivity|].
  destruct (lk2nd_takes_over cfg env s) eqn:L.
  - injection E as <- _. left. split; [reflexivity|].
    unfold lk2nd_takes_over in L.
    destruct (boot_into_recovery s); [|reflexivity].
    rewrite andb_false_r in L. discriminate.
  - right. cbv zeta in E. destruct (target_is_emmc_boot env).
    + apply retry_boot_stops in E. exact E.
    + revert E.
      unfold boot_linux_from_flash, bind, emit, modify, gets, stop, ret.
      destruct (boot_linux_from_flash_returns env); simpl;
        [discriminate|].
      intros E. injection E as <- _. reflexivity.
Qed.

Lemma boots_stop (o : Outcome) (s : State) :
  boots (Stop o s) = true ->
  o = Lk2ndStarted \/ exists rec, o = KernelStarted rec.
Proof.
  unfold boots. destruct o as [[]| | | |]; simpl; try discriminate; eauto.
Qed.

(** X10.  A run of [aboot_init] starts an operating system only when nothing
    has asked for fastboot: [boot_into_fastboot] was clear at the entry, a
    multi-slot device had an active slot, and either the shutdown was a
    forced user reset (which skips all other signals) or none of the
    signals of lines 125-202 was there: both volume keys, a fastboot key
    without volume-up, the fastboot trigger of a build without keypad
    driver, the reset reason [FASTBOOT_MODE], LK2ND_FORCE_FASTBOOT. *)
Theorem boot_only_without_fastboot_request
    (cfg : Config) (env : Env) (s : State) :
  boots (aboot_init cfg env s) = true ->
  boot_into_fastboot s = false /\
  no_active_slot env s = false /\
  (is_user_force_reset env = true \/
   fastboot_requested cfg env (boot_into_recovery s) = false).
Proof.
  apply aboot_init_stages.
  - intros o s1 E1 B. pose proof (prelude_flow cfg env s) as F.
    rewrite E1 in F. simpl in F. destruct F as [-> | ->]; discriminate.
  - intros s1 o s2 E1 E2 B.
    pose proof (signal_and_policy_flags cfg env s1) as F.
    rewrite E2 in F. simpl in F.
    destruct F as [-> | [-> _]]; discriminate.
  - intros s1 s2 o s3 E1 E2 E3 _.
    pose proof (prelude_flow cfg env s) as F1. rewrite E1 in F1.
    simpl in F1. destruct F1 as [_ [R1 F1]].
    pose proof (signal_and_policy_flags cfg env s1) as F2.
    rewrite E2 in F2. simpl in F2.
    destruct (normal_boot_stops cfg env s2 s3 o E3) as [Hfb _].
    fold (no_active_slot env s) in F1.
    destruct (is_user_force_reset env).
    + destruct F2 as [F2 _]. rewrite F2, F1 in Hfb.
      apply orb_false_iff in Hfb. tauto.
    + destruct F2 as [F2 _]. rewrite F2, F1, R1 in Hfb.
      apply orb_false_iff in Hfb. destruct Hfb as [Hfb Hreq].
      apply orb_false_iff in Hfb. tauto.
  - intros s1 s2 s3 s4 _ _ _ _ B. discriminate.
Qed.

Lemma boot_only_without_fastboot_request_witness :
  let env := sample_env false [KEY_VOLUMEUP] true NORMAL_MODE true 0
                        (fun _ => KernelRuns) in
  boot_into_fastboot sample_state = false /\
  no_active_slot env sample_state = false /\
  (is_user_force_reset env = true \/
   fastboot_requested (sample_cfg false 2) env
     (boot_into_recovery sample_state) = false).
Proof.
  intros env.
  apply (boot_only_without_fastboot_request (sample_cfg false 2) env).
  reflexivity.
Defined.

(** X11.  A run of [aboot_init] that is entered with [boot_into_recovery]
    clear starts the recovery image only when recovery was asked for and
    the shutdown was no forced user reset: the volume-up key was down
    without volume-down, or the reset reason is [RECOVERY_MODE]. *)
Theorem recovery_only_on_request (cfg : Config) (env : Env) (s : State) :
  boot_into_recovery s = false ->
  decision_of (aboot_init cfg env s) = Some StartRecovery ->
  is_user_force_reset env = false /\
  ((keys_get_state env KEY_VOLUMEUP = true /\
    keys_get_state env KEY_VOLUMEDOWN = false) \/
   selected_reboot_mode cfg env = RECOVERY_MODE).
Proof.
  intros Hrec. apply aboot_init_stages.
  - intros o s1 E1 B. pose proof (prelude_flow cfg env s) as F.
    rewrite E1 in F. simpl in F. destruct F as [-> | ->]; discriminate.
  - intros s1 o s2 E1 E2 B.
    pose proof (signal_and_policy_flags cfg env s1) as F.
    rewrite E2 in F. simpl in F.
    destruct F as [-> | [-> _]]; discriminate.
  - intros s1 s2 o s3 E1 E2 E3 B.
    pose proof (prelude_flow cfg env s) as F1. rewrite E1 in F1.
    simpl in F1. destruct F1 as [_ [R1 _]].
    pose proof (signal_and_policy_flags cfg env s1) as F2.
    rewrite E2 in F2. simpl in F2.
    destruct (normal_boot_stops cfg env s2 s3 o E3) as [_ [[Ho _]|Ho]];
      subst o; [discriminate|].
    simpl in B. destruct (boot_into_recovery s2) eqn:R2; [|discriminate].
    destruct (is_user_force_reset env).
    + destruct F2 as [_ F2]. congruence.
    + split; [reflexivity|]. destruct F2 as [_ F2].
      rewrite R1, Hrec in F2. simpl in F2.
      unfold recovery_requested, both_volume_keys in F2.
      symmetry in F2. apply orb_true_iff in F2. destruct F2 as [F2|F2].
      * left. destruct (keys_get_state env KEY_VOLUMEUP),
          (keys_get_state env KEY_VOLUMEDOWN),
          (boot_into_fastboot s1); simpl in F2; try discriminate.
        split; reflexivity.
      * right. destruct (selected_reboot_mode cfg env);
          try discriminate; reflexivity.
  - intros s1 s2 s3 s4 _ _ _ _ B. discriminate.
Qed.

Lemma recovery_only_on_request_witness :
  let env := sample_env false [KEY_VOLUMEUP] true NORMAL_MODE true 0
                        (fun _ => KernelRuns) in
  is_user_force_reset env = false /\
  ((keys_get_state env KEY_VOLUMEUP = true /\
    keys_get_state env KEY_VOLUMEDOWN = false) \/
   selected_reboot_mode (sample_cfg false 2) env = RECOVERY_MODE).
Proof.
  intros env.
  apply (recovery_only_on_request (sample_cfg false 2) env sample_state);
    reflexivity.
Defined.

(** ** Runs that give no decision *)

Lemma mem_sum_exact_check (cfg : Config) :
  mem_sum_exact cfg = true ->
  0 <= MEMSIZE cfg /\
  (MEMBASE cfg <? u32 (MEMBASE cfg + MEMSIZE cfg)) = (0 <? MEMSIZE cfg).
Proof.
  unfold mem_sum_exact, u32. intros H.
  apply andb_true_iff in H. destruct H as [H H2].
  apply andb_true_iff in H. destruct H as [Hb Hs].
  apply Z.leb_le in Hb. apply Z.leb_le in Hs.
  assert (MEMBASE cfg + MEMSIZE cfg < 2 ^ 32) as Hlt.
  { apply orb_true_iff in H2. destruct H2 as [H2|H2].
    - apply Z.ltb_lt in H2. lia.
    - apply andb_true_iff in H2. destruct H2 as [_ H2].
      apply Z.ltb_lt in H2. exact H2. }
  split; [exact Hs|].
  rewrite Z.mod_small by lia.
  destruct (0 <? MEMSIZE cfg) eqn:E.
  - apply Z.ltb_lt in E. apply Z.ltb_lt. lia.
  - apply Z.ltb_ge in E. apply Z.ltb_ge. lia.
Qed.

Lemma init_globals_outcome (cfg : Config) (s : State) :
  mem_sum_exact cfg = true ->
  if 0 <? MEMSIZE cfg
  then exists s', init_globals cfg s = Next tt s'
  else init_globals cfg s =
       Stop Halted
         (if WDOG_SUPPORT cfg
          then set_trace (trace s ++ [Ev_msm_wdog_init]) s else s).
Proof.
  intros Hx. destruct (mem_sum_exact_check cfg Hx) as [_ <-].
  unfold init_globals. unfold_steps.
  destruct (WDOG_SUPPORT cfg); simpl;
    destruct (MEMBASE cfg <? u32 (MEMBASE cfg + MEMSIZE cfg)); simpl;
    try reflexivity;
    destruct (ABOOT_STANDALONE cfg); simpl; eexists; reflexivity.
Qed.

Lemma board_init_outcome (cfg : Config) (env : Env) (s : State) :
  if display_wait_ends cfg env
  then exists s', board_init cfg env s = Next tt s'
  else exists s', board_init cfg env s = Stop Hung s'.
Proof.
  unfold board_init, display_init, display_wait_ends, splash_shown.
  unfold_steps.
  destruct (WITH_LK2ND cfg), (DISPLAY_SPLASH_SCREEN cfg),
    (NO_ALARM_DISPLAY cfg), (check_alarm_boot env),
    (DISPLAY_HDMI_PRIMARY cfg), (ENABLE_WBC cfg),
    (display_shutdown_polls env), (pm_appsbl_display_init_done env),
    (sn_buf_filled env); simpl;
    try destruct (Nat.eqb (String.length (display_panel (device s))) 0);
    simpl; eexists; reflexivity.
Qed.

Lemma prelude_outcome (cfg : Config) (env : Env) (s : State) :
  mem_sum_exact cfg = true ->
  if prelude_passes cfg env
  then exists s', prelude cfg env s = Next tt s'
  else exists o s', prelude cfg env s = Stop o s' /\
                    (o = Halted \/ o = Hung).
Proof.
  intros Hx. unfold prelude_passes, prelude, bind.
  pose proof (init_globals_outcome cfg s Hx) as I.
  destruct (0 <? MEMSIZE cfg); simpl.
  - destruct I as [s1 ->].
    pose proof (detect_active_slot_flow env s1) as D.
    destruct (detect_active_slot env s1) as [slot s2|o s2]; [|destruct D].
    pose proof (board_init_outcome cfg env s2) as B.
    destruct (display_wait_ends cfg env).
    + exact B.
    + destruct B as [s3 ->]. eauto.
  - rewrite I. eauto.
Qed.

Lemma apply_reboot_mode_outcome
    (cfg : Config) (env : Env) (mode : reboot_reason) (s : State) :
  if policy_halts cfg env mode
  then exists s', apply_reboot_mode cfg env mode s = Stop Halted s'
  else exists s', apply_reboot_mode cfg env mode s = Next tt s'.
Proof.
  unfold policy_halts, apply_reboot_mode, logging_reason, vb_supported.
  unfold_steps.
  destruct mode, (VERIFIED_BOOT cfg), (VERIFIED_BOOT_2 cfg),
    (VB_M cfg <=? target_get_vb_version env), (ENABLE_VB_ATTEST cfg),
    (write_device_info_ok env), (send_delete_keys_to_tz_ret env =? 0);
    simpl; eexists; reflexivity.
Qed.

(** Without forced reset and emergency reset, the block ends as the chain
    over [reboot_mode] ends. *)
Lemma signal_and_policy_outcome (cfg : Config) (env : Env) (s : State) :
  is_user_force_reset env = false ->
  dload_taken env = false ->
  if policy_halts cfg env (selected_reboot_mode cfg env)
  then exists s', signal_and_policy cfg env s = Stop Halted s'
  else exists s', signal_and_policy cfg env s = Next tt s'.
Proof.
  intros Hf Hd.
  destruct (signal_and_policy_reaches_chain cfg env s Hf Hd)
    as [s2 [e [-> _]]].
  pose proof (apply_reboot_mode_outcome cfg env
                (selected_reboot_mode cfg env) s2) as A.
  unfold bind.
  destruct (policy_halts cfg env (selected_reboot_mode cfg env)).
  - destruct A as [s3 ->]. eauto.
  - destruct A as [s3 ->].
    destruct (force_fastboot_flag_flow cfg s3) as [s4 [E4 _]]. eauto.
Qed.

Lemma decision_of_stages (cfg : Config) (env : Env) (s : State) :
  decision_of (aboot_init cfg env s) =
  match prelude cfg env s with
  | Stop _ _ => None
  | Next _ s1 =>
      match signal_and_policy cfg env s1 with
      | Stop o s2 => decision_of (Stop o s2)
      | Next _ s2 =>
          match normal_boot cfg env s2 with
          | Stop o s3 => decision_of (Stop o s3)
          | Next _ _ => Some EnterFastboot
          end
      end
  end.
Proof.
  apply aboot_init_stages.
  - intros o s1 E1. rewrite E1.
    pose proof (prelude_flow cfg env s) as F. rewrite E1 in F.
    destruct F as [-> | ->]; reflexivity.
  - intros s1 o s2 E1 E2. rewrite E1, E2. reflexivity.
  - intros s1 s2 o s3 E1 E2 E3. rewrite E1, E2, E3. reflexivity.
  - intros s1 s2 s3 s4 E1 E2 E3 E4. rewrite E1, E2, E3. reflexivity.
Qed.

Lemma prelude_passes_false (cfg : Config) (env : Env) :
  mem_sum_exact cfg = true ->
  prelude_passes cfg env = false <->
  MEMSIZE cfg = 0 \/ display_wait_ends cfg env = false.
Proof.
  intros Hx. destruct (mem_sum_exact_check cfg Hx) as [Hs _].
  unfold prelude_passes. rewrite andb_false_iff, Z.ltb_ge. intuition lia.
Qed.

Lemma prelude_passes_true (cfg : Config) (env : Env) :
  prelude_passes cfg env = true <->
  0 < MEMSIZE cfg /\ display_wait_ends cfg env = true.
Proof.
  unfold prelude_passes. rewrite andb_true_iff, Z.ltb_lt. reflexivity.
Qed.



(** X13.  On a build in the range of [mem_sum_exact], a run of
    [aboot_init] ends in the reset into emergency download exactly when
    the memory region is not empty (line 38 is passed), the wait for the
    display shutdown ends, the shutdown was no forced user reset, both
    volume keys are down and the reset request works. *)
Theorem emergency_download_iff (cfg : Config) (env : Env) (s : State) :
  mem_sum_exact cfg = true ->
  (decision_of (aboot_init cfg env s) = Some EnterEmergencyDownload <->
   0 < MEMSIZE cfg /\
   display_wait_ends cfg env = true /\
   is_user_force_reset env = false /\
   dload_taken env = true).
Proof.
  intros Hx.
  rewrite <- and_assoc, <- (prelude_passes_true cfg env).
  rewrite decision_of_stages.
  pose proof (prelude_outcome cfg env s Hx) as P.
  destruct (prelude_passes cfg env).
  - destruct P as [s1 ->].
    pose proof (signal_and_policy_flags cfg env s1) as F.
    destruct (signal_and_policy cfg env s1) as [[] s2|o s2] eqn:E2;
      simpl in F.
    + split.
      * destruct (normal_boot cfg env s2) as [[] s3|o s3] eqn:E3;
          [discriminate|].
        destruct (normal_boot_stops cfg env _ _ _ E3) as [_ [[-> _]| ->]];
          [discriminate|].
        simpl. destruct (boot_into_recovery _); discriminate.
      * intros [_ [Hf Hd]].
        destruct (signal_and_policy_dload cfg env s1 Hf Hd) as [s' [E _]].
        congruence.
    + destruct F as [-> | [-> [Hf Hd]]]; simpl.
      * split; [discriminate|]. intros [_ [Hf Hd]].
        destruct (signal_and_policy_dload cfg env s1 Hf Hd) as [s' [E _]].
        congruence.
      * split; auto.
  - destruct P as [o [s1 [-> _]]].
    split; [discriminate | intros [H _]; discriminate].
Qed.

Lemma emergency_download_iff_witness :
  decision_of
    (aboot_init (sample_cfg false 2)
       (sample_env false [KEY_VOLUMEUP; KEY_VOLUMEDOWN] false NORMAL_MODE
                   true 0 (fun _ => KernelRuns))
       sample_state) = Some EnterEmergencyDownload.
Proof.
  apply emergency_download_iff; [reflexivity|].
  repeat split; reflexivity.
Defined.

(** X14.  The check of line 38, [(MEMBASE + MEMSIZE) > MEMBASE], on a
    build in the range of [mem_sum_exact] (where the sum does not depend
    on the integer types of the two macros): lines 17-47 are passed
    exactly when the memory region is not empty.  When it is empty the
    boot halts before the device record is read or any slot is looked at:
    at most the watchdog was started. *)
Theorem memory_layout_check (cfg : Config) (env : Env) (s : State) :
  mem_sum_exact cfg = true ->
  ((exists s', init_globals cfg s = Next tt s') <-> 0 < MEMSIZE cfg) /\
  (MEMSIZE cfg = 0 ->
   aboot_init cfg env s =
   Stop Halted
     (if WDOG_SUPPORT cfg
      then set_trace (trace s ++ [Ev_msm_wdog_init]) s else s)).
Proof.
  intros Hx. pose proof (init_globals_outcome cfg s Hx) as I. split.
  - destruct (0 <? MEMSIZE cfg) eqn:E.
    + apply Z.ltb_lt in E. split; [intros _; exact E | intros _; exact I].
    + apply Z.ltb_ge in E. rewrite I.
      split; [intros [s' H]; discriminate | lia].
  - intros H0. rewrite H0 in I. simpl in I.
    rewrite aboot_init_after_init. unfold bind. rewrite I. reflexivity.
Qed.

Lemma memory_layout_check_witness :
  let cfg := sample_cfg false 2 in
  let env := sample_env false [] true NORMAL_MODE true 0
                        (fun _ => KernelRuns) in
  ((exists s', init_globals cfg sample_state = Next tt s') <->
   0 < MEMSIZE cfg) /\
  (MEMSIZE cfg = 0 ->
   aboot_init cfg env sample_state =
   Stop Halted
     (if WDOG_SUPPORT cfg
      then set_trace (trace sample_state ++ [Ev_msm_wdog_init]) sample_state
      else sample_state)).
Proof.
  intros cfg env. apply memory_layout_check. reflexivity.
Defined.

(** ** A forced reset makes the other signals irrelevant *)

Section SameOutsideSignals.

Variable cfg : Config.
Variables e1 e2 : Env.
Hypothesis same : same_outside_signals e1 e2.

Lemma same_prelude (s : State) : prelude cfg e1 s = prelude cfg e2 s.
Proof.
  destruct same as [_ [H2 [H3 [H4 [H5 [H6 _]]]]]].
  unfold prelude, detect_active_slot, board_init, display_init,
    wait_display_shutdown.
  rewrite H2, H3, H4, H5, H6. reflexivity.
Qed.

Lemma same_boot_pass (s : State) : boot_pass e1 s = boot_pass e2 s.
Proof.
  destruct same as [_ [H2 [_ [_ [_ [_ [_ [_ [_ [H10 _]]]]]]]]]].
  unfold boot_pass, try_boot, boot_linux_from_mmc, partition_find_boot_slot,
    partition_mark_active_slot, partition_deactivate_slot,
    bind, emit, modify, gets, ret, stop.
  rewrite H2.
  destruct (partition_multislot_is_supported e2); simpl;
    [destruct (SlotTable.find_boot_slot (slots s) =? INVALID); simpl|];
    rewrite ?H10; reflexivity.
Qed.

Lemma same_retry_boot (s : State) : retry_boot e1 s = retry_boot e2 s.
Proof.
  pattern s, (retry_boot e1 s). apply retry_boot_induction.
  - intros s0 s' E IH. rewrite (retry_boot_step e2 s0), <- same_boot_pass, E.
    exact IH.
  - intros s0 s' e Hne E. rewrite (retry_boot_step e2 s0), <- same_boot_pass, E.
    destruct e; [congruence | reflexivity | reflexivity].
  - intros s0 o s' E. rewrite (retry_boot_step e2 s0), <- same_boot_pass, E.
    reflexivity.
Qed.

Lemma same_normal_boot (s : State) :
  normal_boot cfg e1 s = normal_boot cfg e2 s.
Proof.
  rewrite !normal_boot_closed.
  destruct same as [H1 [_ [_ [_ [_ [_ [_ [H8 [H9 [_ H11]]]]]]]]]].
  unfold lk2nd_takes_over, before_load, tamper_signals,
    boot_linux_from_flash.
  rewrite H1, H8, H9, H11. cbv zeta. rewrite same_retry_boot. reflexivity.
Qed.

Lemma same_fastboot (s : State) : fastboot cfg e1 s = fastboot cfg e2 s.
Proof.
  destruct same as [H1 _]. unfold fastboot. rewrite H1. reflexivity.
Qed.

End SameOutsideSignals.

(** X15.  After a forced user reset the keys, the fastboot trigger, the
    reset reason, the verified-boot version and the results of the reset
    request, of the device-info write and of the key deletion have no
    influence on what [aboot_init] does: two runs from the same state
    whose environments agree on everything else make the same calls and
    end in the same way and in the same state. *)
Theorem forced_reset_ignores_signals
    (cfg : Config) (e1 e2 : Env) (s : State) :
  is_user_force_reset e1 = true ->
  same_outside_signals e1 e2 ->
  aboot_init cfg e1 s = aboot_init cfg e2 s.
Proof.
  intros Hf Hsame.
  assert (is_user_force_reset e2 = true) as Hf2.
  { destruct Hsame as [_ [_ [_ [_ [_ [_ [H7 _]]]]]]]. congruence. }
  rewrite !aboot_init_split. unfold bind at 1 2.
  rewrite (same_prelude cfg e1 e2 Hsame).
  destruct (prelude cfg e2 s) as [[] s1|o s1]; [|reflexivity].
  unfold decide, bind.
  rewrite !signal_and_policy_forced by assumption.
  rewrite (same_normal_boot cfg e1 e2 Hsame).
  destruct (normal_boot cfg e2 _) as [[] s3|o s3]; [|reflexivity].
  apply same_fastboot. exact Hsame.
Qed.

Lemma forced_reset_ignores_signals_witness :
  aboot_init (sample_cfg false 2)
    (sample_env true [KEY_VOLUMEUP; KEY_VOLUMEDOWN] false FASTBOOT_MODE
                false 1 (fun _ => KernelRuns))
    sample_state =
  aboot_init (sample_cfg false 2)
    (sample_env true [] true NORMAL_MODE true 0 (fun _ => KernelRuns))
    sample_state.
Proof.
  apply forced_reset_ignores_signals; [reflexivity|].
  unfold same_outside_signals. simpl. repeat split; reflexivity.
Defined.

(** ** The display panel *)

(** A step that adds no event of a kind leaves the events of that kind
    what they were. *)
Lemma keeps_in {A} (P : Event -> bool) (m : M A) (s : State) (e : Event) :
  keeps P m -> P e = false ->
  In e (trace (final_state (m s))) -> In e (trace s).
Proof.
  intros Hk He Hin. destruct (Hk s) as [new [T K]]. rewrite T in Hin.
  apply in_app_or in Hin. destruct Hin as [Hin|Hin]; [exact Hin|].
  exfalso. exact (not_in_class P e new K He Hin).
Qed.

Lemma keeps_init_globals_no_display (cfg : Config) :
  keeps (fun e => negb (is_target_display_init e)) (init_globals cfg).
Proof.
  unfold init_globals, read_device_info. calls_steps.
Qed.

Lemma keeps_detect_no_display (env : Env) :
  keeps (fun e => negb (is_target_display_init e)) (detect_active_slot env).
Proof.
  unfold detect_active_slot, partition_find_active_slot,
    partition_mark_active_slot.
  calls_steps.
Qed.

Lemma keeps_decide_no_display (cfg : Config) (env : Env) :
  keeps (fun e => negb (is_target_display_init e)) (decide cfg env).
Proof.
  unfold decide.
  apply keeps_bind.
  { apply (keeps_weaken is_signal_event); [|apply keeps_signal_and_policy].
    unfold is_signal_event. intros e. destruct e; simpl; congruence. }
  intros _. apply keeps_bind.
  { apply keeps_normal_boot. intros e. destruct e; simpl; congruence. }
  intros _.
  apply (keeps_weaken is_fastboot_start); [|apply keeps_fastboot].
  intros e. destruct e; simpl; congruence.
Qed.

Lemma board_init_panel (cfg : Config) (env : Env) (s : State) (p : string) :
  In (Ev_target_display_init p)
     (trace (final_state (board_init cfg env s))) ->
  In (Ev_target_display_init p) (trace s) \/
  p = chosen_panel cfg (display_panel (device s)).
Proof.
  unfold board_init, display_init, chosen_panel. unfold_steps.
  destruct (WITH_LK2ND cfg), (DISPLAY_SPLASH_SCREEN cfg),
    (NO_ALARM_DISPLAY cfg), (check_alarm_boot env),
    (DISPLAY_HDMI_PRIMARY cfg), (ENABLE_WBC cfg),
    (display_shutdown_polls env), (pm_appsbl_display_init_done env),
    (sn_buf_filled env); simpl;
    try destruct (Nat.eqb (String.length (display_panel (device s))) 0);
    simpl; intros H;
    repeat (apply in_app_or in H; destruct H as [H|H]);
    repeat match type of H with
           | In _ (_ :: _) => destruct H as [H|H]
           | In _ [] => destruct H
           | In _ (repeat _ _) => apply repeat_spec in H
           end;
    try discriminate; try (injection H as <-); auto.
Qed.

(** X16.  On a build that is not standalone, the panel name a run of
    [aboot_init] hands to [target_display_init] is the name in the stored
    device record; only an empty name is replaced, on a build with
    DISPLAY_HDMI_PRIMARY, by the HDMI default cut to the size of the
    field.  A stored name that is not empty is never overridden. *)
Theorem display_panel_choice
    (cfg : Config) (env : Env) (s : State) (p : string) :
  ABOOT_STANDALONE cfg = false ->
  In (Ev_target_display_init p)
     (trace (final_state (aboot_init cfg env s))) ->
  In (Ev_target_display_init p) (trace s) \/
  p = chosen_panel cfg (display_panel (persisted s)).
Proof.
  intros Hs. rewrite aboot_init_after_init, final_state_bind.
  pose proof (init_globals_device cfg s) as D.
  pose proof (init_globals_flow cfg s) as F.
  pose proof (keeps_in _ (init_globals cfg) s (Ev_target_display_init p)
                (keeps_init_globals_no_display cfg) eq_refl) as K0.
  destruct (init_globals cfg s) as [[] s1|o s1]; simpl in *; [|auto].
  unfold loaded_device in D. rewrite Hs in D.
  destruct F as [_ [P1 _]].
  unfold after_init. rewrite final_state_bind.
  pose proof (detect_active_slot_device env s1) as D2.
  pose proof (keeps_in _ (detect_active_slot env) s1
                (Ev_target_display_init p)
                (keeps_detect_no_display env) eq_refl) as K1.
  destruct (detect_active_slot env s1) as [slot s2|o s2]; simpl in *;
    [|auto].
  rewrite final_state_bind.
  pose proof (board_init_panel cfg env s2 p) as B.
  destruct (board_init cfg env s2) as [[] s3|o s3]; simpl in *.
  - intros H.
    apply (keeps_in _ (decide cfg env) s3 (Ev_target_display_init p)
             (keeps_decide_no_display cfg env) eq_refl) in H.
    destruct (B H) as [H2|H2]; [auto|].
    right. rewrite H2, D2, D. reflexivity.
  - intros H. destruct (B H) as [H2|H2]; [auto|].
    right. rewrite H2, D2, D. reflexivity.
Qed.

Lemma display_panel_choice_witness :
  let cfg := {| WDOG_SUPPORT := false; ABOOT_STANDALONE := false;
                WITH_LK2ND := false; DISPLAY_SPLASH_SCREEN := true;
                NO_ALARM_DISPLAY := false; DISPLAY_HDMI_PRIMARY := true;
                ENABLE_WBC := false; NO_KEYPAD_DRIVER := false;
                USE_PON_REBOOT_REG := false; VERIFIED_BOOT := false;
                VERIFIED_BOOT_2 := false; ENABLE_VB_ATTEST := false;
                LK2ND_FORCE_FASTBOOT := false; WITH_LK2ND_BOOT := false;
                TZ_TAMPER_FUSE := false; USE_PCOM_SECBOOT := false;
                FBCON_DISPLAY_MSG := false; WITH_LK2ND_DEVICE_MENU := false;
                VB_M := 2; MEMBASE := 0x8F600000; MEMSIZE := 0x00A00000;
                DISPLAY_PANEL_HDMI := "hdmi_msm"; display_panel_size := 5
             |} in
  let env := sample_env false [] true NORMAL_MODE true 0
                        (fun _ => KernelRuns) in
  In (Ev_target_display_init "hdmi") (trace sample_state) \/
  "hdmi"%string = chosen_panel cfg (display_panel (persisted sample_state)).
Proof.
  intros cfg env.
  apply (display_panel_choice cfg env sample_state "hdmi"); [reflexivity|].
  vm_compute. tauto.
Defined.

(** ** The way into [aboot_init]: [apps_init], [bootstrap2], [kmain] *)

Section KernelFacts.
Import Kernel.
Local Open Scope kernel_scope.

Variable cfg : KConfig.
Variable env : KEnv.

Lemma inits_called_app (l1 l2 : list KEvent) :
  inits_called (l1 ++ l2) = inits_called l1 ++ inits_called l2.
Proof.
  induction l1 as [|e l1 IH]; simpl; [reflexivity|].
  destruct e; simpl; rewrite ?IH; reflexivity.
Qed.

Lemma threads_created_app (l1 l2 : list KEvent) :
  threads_created (l1 ++ l2) = threads_created l1 ++ threads_created l2.
Proof.
  induction l1 as [|e l1 IH]; simpl; [reflexivity|].
  destruct e; simpl; rewrite ?IH; reflexivity.
Qed.

Lemma threads_resumed_app (l1 l2 : list KEvent) :
  threads_resumed (l1 ++ l2) = threads_resumed l1 ++ threads_resumed l2.
Proof.
  induction l1 as [|e l1 IH]; simpl; [reflexivity|].
  destruct e; simpl; rewrite ?IH; reflexivity.
Qed.

Lemma kfinal_kbind {A B} (m : K A) (k : A -> K B) (s : KState) :
  kfinal (kbind m k s) =
  match m s with
  | KNext a s' => kfinal (k a s')
  | KStop _ s' => s'
  end.
Proof. unfold kbind. destruct (m s); reflexivity. Qed.

(** One turn of the first loop. *)
Lemma init_loop_cons (app : app_descriptor) (tl : list app_descriptor)
    (s : KState) :
  init_loop env (app :: tl) s =
  match init app with
  | None => init_loop env tl s
  | Some func =>
      if returns env func
      then init_loop env tl (logged (Ev_app_init func app) s)
      else KStop (Left func) (logged (Ev_app_init func app) s)
  end.
Proof.
  unfold init_loop. simpl. unfold kbind, call_ptr, kbind, kemit, logged.
  destruct (init app) as [func|]; [|reflexivity].
  destruct (returns env func); reflexivity.
Qed.

(** One turn of the second loop. *)
Lemma start_loop_cons (app : app_descriptor) (tl : list app_descriptor)
    (s : KState) :
  start_loop cfg env (app :: tl) s =
  if starts_on_boot cfg app
  then
    let e := Ev_thread_create (name app) (Body_app_thread_entry app) in
    let s1 := mkKState (calls s ++ [e]) (S (thread_create_calls s)) in
    match thread_create_ret env (thread_create_calls s) with
    | Some t => start_loop cfg env tl (logged (Ev_thread_resume t) s1)
    | None => start_loop cfg env tl s1
    end
  else start_loop cfg env tl s.
Proof.
  unfold start_loop. simpl.
  unfold kwhen, kbind, start_app, thread_create, kbind, kemit, logged.
  destruct (starts_on_boot cfg app); [|reflexivity]. simpl.
  destruct (thread_create_ret env (thread_create_calls s)); reflexivity.
Qed.

(** The first loop calls the [init] routines in the order of the
    descriptors, up to the first one that does not come back, and nothing
    else. *)
Lemma init_loop_run (apps : list app_descriptor) (s : KState) :
  exists new,
    calls (kfinal (init_loop env apps s)) = calls s ++ new /\
    thread_create_calls (kfinal (init_loop env apps s)) =
      thread_create_calls s /\
    forallb is_app_init new = true /\
    if inits_return env apps
    then init_loop env apps s = KNext tt (kfinal (init_loop env apps s)) /\
         inits_called new = filter has_init apps
    else exists func pre app post,
        init_loop env apps s =
          KStop (Left func) (kfinal (init_loop env apps s)) /\
        apps = pre ++ app :: post /\
        init app = Some func /\ returns env func = false /\
        inits_return env pre = true /\
        inits_called new = filter has_init pre ++ [app].
Proof.
  revert s. induction apps as [|app tl IH]; intros s.
  - exists []. simpl. rewrite app_nil_r. repeat split; reflexivity.
  - rewrite init_loop_cons. simpl. unfold has_init at 1.
    destruct (init app) as [func|] eqn:Hi.
    + destruct (returns env func) eqn:Hr; simpl.
      * destruct (IH (logged (Ev_app_init func app) s))
          as [new [C [T [F R]]]].
        exists (Ev_app_init func app :: new). rewrite C, T. simpl.
        rewrite <- app_assoc. repeat split; try reflexivity; [exact F|].
        destruct (inits_return env tl).
        -- destruct R as [R1 R2]. rewrite R2. split; [exact R1|reflexivity].
        -- destruct R as [f [pre [a [post [R1 [R2 [R3 [R4 [R5 R6]]]]]]]]].
           exists f, (app :: pre), a, post. simpl.
           unfold has_init at 1. rewrite Hi, Hr, R5, R6.
           repeat split; try assumption; try reflexivity.
           rewrite R2. reflexivity.
      * exists [Ev_app_init func app]. repeat split; try reflexivity.
        exists func, [], app, tl. repeat split; try assumption; reflexivity.
    + destruct (IH s) as [new [C [T [F R]]]].
      exists new. repeat split; try assumption.
      destruct (inits_return env tl).
      * exact R.
      * destruct R as [f [pre [a [post [R1 [R2 [R3 [R4 [R5 R6]]]]]]]]].
        exists f, (app :: pre), a, post. simpl.
        unfold has_init at 1. rewrite Hi, R5, R6.
        repeat split; try assumption; try reflexivity.
        rewrite R2. reflexivity.
Qed.

(** The second loop comes back whatever [thread_create] answers; it
    creates a thread for each application that is started at boot and
    resumes the threads it got. *)
Lemma start_loop_run (apps : list app_descriptor) (s : KState) :
  exists s' new,
    start_loop cfg env apps s = KNext tt s' /\
    calls s' = calls s ++ new /\
    forallb is_thread_call new = true /\
    threads_created new = started cfg apps /\
    thread_create_calls s' =
      (thread_create_calls s + List.length (started cfg apps))%nat /\
    threads_resumed new =
      created_from env (thread_create_calls s)
                   (List.length (started cfg apps)).
Proof.
  revert s. induction apps as [|app tl IH]; intros s.
  - exists s, []. simpl. rewrite app_nil_r, Nat.add_0_r.
    repeat split; reflexivity.
  - rewrite start_loop_cons. unfold started, created_from in *. simpl.
    destruct (starts_on_boot cfg app) eqn:Hb; simpl.
    + destruct (thread_create_ret env (thread_create_calls s)) as [t|].
      * match goal with
        | |- context [start_loop cfg env tl ?s1] =>
            destruct (IH s1) as [s' [new [R [C [F [TC [N TR]]]]]]]
        end.
        eexists s', (_ :: Ev_thread_resume t :: new).
        simpl in *. rewrite R, C, TC, N, TR, <- !app_assoc.
        repeat split; try reflexivity; try assumption. lia.
      * match goal with
        | |- context [start_loop cfg env tl ?s1] =>
            destruct (IH s1) as [s' [new [R [C [F [TC [N TR]]]]]]]
        end.
        eexists s', (_ :: new).
        simpl in *. rewrite R, C, TC, N, TR, <- !app_assoc.
        repeat split; try reflexivity; try assumption. lia.
    + destruct (IH s) as [s' [new [R [C [F [TC [N TR]]]]]]].
      exists s', new. repeat split; assumption.
Qed.


Lemma app_init_only (l : list KEvent) :
  forallb is_app_init l = true ->
  threads_created l = [] /\ threads_resumed l = [].
Proof.
  induction l as [|e tl IH]; [split; reflexivity|].
  simpl. intros F. apply andb_true_iff in F. destruct F as [He Htl].
  destruct e; try discriminate; simpl; auto.
Qed.

Lemma thread_call_only (l : list KEvent) :
  forallb is_thread_call l = true -> inits_called l = [].
Proof.
  induction l as [|e tl IH]; [reflexivity|].
  simpl. intros F. apply andb_true_iff in F. destruct F as [He Htl].
  destruct e; try discriminate; simpl; auto.
Qed.

Lemma apps_init_run (apps : list app_descriptor) (s : KState) :
  exists inits starts,
    calls (kfinal (apps_init cfg env apps s)) = calls s ++ inits ++ starts /\
    forallb is_app_init inits = true /\
    forallb is_thread_call starts = true /\
    (threads_created starts = [] \/
     threads_created starts = started cfg apps).
Proof.
  unfold apps_init. rewrite kfinal_kbind.
  destruct (init_loop_run apps s) as [inits [C [T [F R]]]].
  destruct (init_loop env apps s) as [[] s1|o s1]; simpl in *.
  - destruct (start_loop_run apps s1) as [s2 [starts [E [C2 [F2 [TC _]]]]]].
    exists inits, starts. rewrite E. simpl. rewrite C2, C, app_assoc.
    repeat split; auto.
  - exists inits, []. rewrite app_nil_r. repeat split; auto.
Qed.

(** X17.  [apps_init] works in two phases: whatever the descriptors are,
    every call of an [init] routine comes before the first call of
    [thread_create] or [thread_resume], so that an application is started
    only after all applications, also those listed after it, were
    initialised. *)
Theorem apps_init_two_phases (apps : list app_descriptor) (s : KState) :
  exists inits starts,
    calls (kfinal (apps_init cfg env apps s)) = calls s ++ inits ++ starts /\
    forallb is_app_init inits = true /\
    forallb is_thread_call starts = true.
Proof.
  destruct (apps_init_run apps s) as [inits [starts [C [F1 [F2 _]]]]].
  exists inits, starts. repeat split; assumption.
Qed.

(** X18.  When every [init] routine comes back, [apps_init] comes back
    too, whatever [thread_create] answers.  It has called the [init]
    routine of each application that has one, once and in the order of
    the descriptors; it has called [thread_create] once for each
    application with an [entry] and a clear DONT_START_ON_BOOT flag, in
    that order, also after a call that gave NULL; and it has resumed
    exactly the threads it got. *)
Theorem apps_init_starts (apps : list app_descriptor) (s : KState) :
  inits_return env apps = true ->
  exists s' new,
    apps_init cfg env apps s = KNext tt s' /\
    calls s' = calls s ++ new /\
    inits_called new = filter has_init apps /\
    threads_created new = started cfg apps /\
    threads_resumed new =
      created_from env (thread_create_calls s)
                   (List.length (started cfg apps)).
Proof.
  intros Hr. unfold apps_init, kbind.
  destruct (init_loop_run apps s) as [inits [C [T [F R]]]].
  rewrite Hr in R. destruct R as [R1 R2]. rewrite R1.
  set (s1 := kfinal (init_loop env apps s)) in *.
  destruct (start_loop_run apps s1)
    as [s2 [starts [E [C2 [F2 [TC [N TR]]]]]]].
  exists s2, (inits ++ starts). rewrite E, C2, C, app_assoc.
  split; [reflexivity|]. split; [reflexivity|].
  pose proof (thread_call_only starts F2) as I0.
  destruct (app_init_only inits F) as [C0 R0].
  rewrite inits_called_app, threads_created_app, threads_resumed_app.
  rewrite I0, C0, R0, app_nil_r, R2, TC, TR, T. repeat split; reflexivity.
Qed.

(** X19.  When the [init] routine of an application does not come back (as
    that of aboot when it starts a kernel), [apps_init] does not come back
    either: the applications listed after it are not initialised and no
    thread is created for any application. *)
Theorem apps_init_init_takes_over (apps : list app_descriptor) (s : KState) :
  inits_return env apps = false ->
  exists func pre app post s' new,
    apps = pre ++ app :: post /\
    init app = Some func /\ returns env func = false /\
    inits_return env pre = true /\
    apps_init cfg env apps s = KStop (Left func) s' /\
    calls s' = calls s ++ new /\
    inits_called new = filter has_init pre ++ [app] /\
    threads_created new = [].
Proof.
  intros Hr. unfold apps_init, kbind.
  destruct (init_loop_run apps s) as [new [C [T [F R]]]].
  rewrite Hr in R.
  destruct R as [func [pre [app [post [R1 [R2 [R3 [R4 [R5 R6]]]]]]]]].
  rewrite R1. exists func, pre, app, post. eexists. exists new.
  repeat split; try eassumption.
  apply (app_init_only new F).
Qed.

Lemma land_pow2_eqb (x : Z) (k : Z) :
  0 <= k -> (Z.land x (2 ^ k) =? 0) = negb (Z.testbit x k).
Proof.
  intros Hk. destruct (Z.testbit x k) eqn:Hb; simpl.
  - apply Z.eqb_neq. intros H.
    assert (Z.testbit (Z.land x (2 ^ k)) k = false) as C
      by (rewrite H; apply Z.bits_0).
    rewrite Z.land_spec, Hb, Z.pow2_bits_true in C by exact Hk.
    discriminate.
  - apply Z.eqb_eq. apply Z.bits_inj'. intros n Hn.
    rewrite Z.land_spec, Z.bits_0.
    destruct (Z.eq_dec n k) as [->|Hne].
    + rewrite Hb. reflexivity.
    + rewrite Z.pow2_bits_false by congruence. apply andb_false_r.
Qed.

(** X20.  With the flag a single bit, a thread is created only for an
    application of the list whose [entry] is not NULL and whose
    DONT_START_ON_BOOT bit is clear; so [app_thread_entry], run for a thread
    that [apps_init] created, never calls through a NULL pointer: it calls
    the [entry] routine, and gives 0 when that comes back. *)
Theorem started_threads_have_entry
    (k : Z) (apps : list app_descriptor) (s : KState) :
  0 <= k ->
  APP_FLAG_DONT_START_ON_BOOT cfg = 2 ^ k ->
  exists new,
    calls (kfinal (apps_init cfg env apps s)) = calls s ++ new /\
    forall body, In body (threads_created new) ->
      exists app func,
        body = Body_app_thread_entry app /\
        In app apps /\
        entry app = Some func /\
        Z.testbit (flags app) k = false /\
        forall s2,
          app_thread_entry env app s2 =
          if returns env func
          then KNext 0 (logged (Ev_app_entry func app) s2)
          else KStop (Left func) (logged (Ev_app_entry func app) s2).
Proof.
  intros Hk Hflag.
  destruct (apps_init_run apps s) as [inits [starts [C [F1 [F2 Hs]]]]].
  exists (inits ++ starts). split; [exact C|].
  destruct (app_init_only inits F1) as [C0 _].
  rewrite threads_created_app, C0. simpl.
  intros body Hin. destruct Hs as [Hs|Hs]; rewrite Hs in Hin;
    [destruct Hin|].
  unfold started in Hin. apply in_map_iff in Hin.
  destruct Hin as [app [<- Hin]]. apply filter_In in Hin.
  destruct Hin as [Hin Hb]. unfold starts_on_boot in Hb.
  apply andb_true_iff in Hb. destruct Hb as [He Hf].
  destruct (entry app) as [func|] eqn:Hentry; [|discriminate].
  exists app, func. repeat split; try assumption.
  - rewrite Hflag, land_pow2_eqb in Hf by exact Hk.
    destruct (Z.testbit (flags app) k); [discriminate | reflexivity].
  - intros s2. unfold app_thread_entry, call_ptr, kbind, kemit, logged.
    rewrite Hentry. destruct (returns env func); reflexivity.
Qed.


(** ** [bootstrap2] and [kmain] *)

Lemma call_constructors_cons (f : nat) (tl : list nat) (s : KState) :
  call_constructors env (f :: tl) s =
  if returns env f
  then call_constructors env tl (logged (Ev_constructor f) s)
  else KStop (Left f) (logged (Ev_constructor f) s).
Proof.
  unfold call_constructors. simpl.
  unfold kbind, call_ptr, kbind, kemit, logged.
  destruct (returns env f); reflexivity.
Qed.

(** The constructors are called in the order of the list, up to the first
    one that does not come back. *)
Lemma call_constructors_run (ctors : list nat) (s : KState) :
  exists new,
    calls (kfinal (call_constructors env ctors s)) = calls s ++ new /\
    thread_create_calls (kfinal (call_constructors env ctors s)) =
      thread_create_calls s /\
    if forallb (returns env) ctors
    then call_constructors env ctors s =
           KNext tt (kfinal (call_constructors env ctors s)) /\
         new = map Ev_constructor ctors
    else exists func pre post,
        call_constructors env ctors s =
          KStop (Left func) (kfinal (call_constructors env ctors s)) /\
        ctors = pre ++ func :: post /\
        returns env func = false /\
        forallb (returns env) pre = true /\
        new = map Ev_constructor (pre ++ [func]).
Proof.
  revert s. induction ctors as [|f tl IH]; intros s.
  - exists []. simpl. rewrite app_nil_r. repeat split; reflexivity.
  - rewrite call_constructors_cons. simpl.
    destruct (returns env f) eqn:Hr; simpl.
    + destruct (IH (logged (Ev_constructor f) s)) as [new [C [T R]]].
      exists (Ev_constructor f :: new). rewrite C, T. simpl.
      rewrite <- app_assoc. repeat split; try reflexivity.
      destruct (forallb (returns env) tl).
      * destruct R as [R1 R2]. rewrite R2. split; [exact R1|reflexivity].
      * destruct R as [g [pre [post [R1 [R2 [R3 [R4 R5]]]]]]].
        exists g, (f :: pre), post. simpl. rewrite R5, Hr, R4.
        repeat split; try assumption; try reflexivity.
        rewrite R2. reflexivity.
    + exists [Ev_constructor f]. repeat split; try reflexivity.
      exists f, [], tl. repeat split; try assumption; reflexivity.
Qed.

Lemma apps_init_outcome (apps : list app_descriptor) (s : KState) :
  if inits_return env apps
  then exists s', apps_init cfg env apps s = KNext tt s'
  else exists func s', apps_init cfg env apps s = KStop (Left func) s'.
Proof.
  unfold apps_init, kbind.
  destruct (init_loop_run apps s) as [inits [_ [_ [_ R]]]].
  destruct (inits_return env apps).
  - destruct R as [-> _].
    destruct (start_loop_run apps (kfinal (init_loop env apps s)))
      as [s2 [starts [-> _]]].
    eexists. reflexivity.
  - destruct R as [f [pre [a [post [-> _]]]]]. eexists. eexists. reflexivity.
Qed.

(** X21.  [bootstrap2] calls [apps_init] last: every call of an [init]
    routine, of [thread_create] and of [thread_resume] comes after
    [arch_init], [platform_init] and [target_init] (and after [bio_init]
    and [fs_init] on builds that have them), and [bootstrap2] gives 0
    exactly when every [init] routine comes back. *)
Theorem bootstrap2_runs_apps_last (apps : list app_descriptor) (s : KState) :
  let r := bootstrap2 cfg env apps s in
  (exists rest,
      calls (kfinal r) = calls s ++ bootstrap2_inits cfg ++ rest /\
      forallb (fun e => is_app_init e || is_thread_call e) rest = true) /\
  ((exists s', r = KNext 0 s') <-> inits_return env apps = true).
Proof.
  intros r. subst r.
  set (s1 := mkKState (calls s ++ bootstrap2_inits cfg)
                      (thread_create_calls s)).
  assert (bootstrap2 cfg env apps s =
          kbind (apps_init cfg env apps) (fun _ => kret 0) s1) as E.
  { unfold s1, bootstrap2, bootstrap2_inits, kwhen, kbind, kemit, kret.
    destruct (WITH_LIB_BIO cfg), (WITH_LIB_FS cfg); simpl;
      rewrite <- ?app_assoc; simpl; reflexivity. }
  rewrite E. split.
  - destruct (apps_init_run apps s1) as [inits [starts [C [F1 [F2 _]]]]].
    exists (inits ++ starts). rewrite kfinal_kbind.
    destruct (apps_init cfg env apps s1) as [[] s2|o s2]; simpl in *;
      rewrite C, <- app_assoc; (split; [reflexivity|]);
      rewrite forallb_app; apply andb_true_iff; split;
      rewrite forallb_forall in *; intros e He;
      try (rewrite (F1 e He); reflexivity);
      rewrite (F2 e He); apply orb_true_r.
  - unfold kbind. pose proof (apps_init_outcome apps s1) as O.
    destruct (inits_return env apps).
    + destruct O as [s2 ->].
      split; [reflexivity | intros _; eexists; reflexivity].
    + destruct O as [f [s2 ->]].
      split; [intros [s' H]; discriminate | discriminate].
Qed.


Lemma kmain_run (ctors : list nat) (s : KState) :
  ENABLE_NANDWRITE cfg = false ->
  exists o s' new,
    kmain cfg env ctors s = KStop o s' /\
    calls s' = calls s ++ new /\
    if forallb (returns env) ctors
    then
      match thread_create_ret env (thread_create_calls s) with
      | Some t =>
          o = Idle /\
          new = kmain_early ++ map Ev_constructor ctors ++ kmain_late
                ++ kmain_handover t
      | None =>
          o = Panicked /\
          new = kmain_early ++ map Ev_constructor ctors ++ kmain_late
                ++ [Ev_thread_create "bootstrap2" Body_bootstrap2; Ev_panic]
      end
    else exists func pre post,
        o = Left func /\ ctors = pre ++ func :: post /\
        returns env func = false /\
        new = kmain_early ++ map Ev_constructor (pre ++ [func]).
Proof.
  intros Hn. unfold kmain. rewrite Hn. simpl negb. cbv iota.
  unfold kbind at 1 2 3 4 5 6. unfold kemit at 1 2 3 4 5 6. simpl.
  unfold kbind at 1.
  match goal with
  | |- context [call_constructors env ctors ?s0] =>
      destruct (call_constructors_run ctors s0) as [cn [C [T R]]];
      set (s1 := s0) in *
  end.
  simpl in C, T.
  destruct (forallb (returns env) ctors).
  - destruct R as [-> ->].
    set (s2 := kfinal (call_constructors env ctors s1)) in *.
    unfold kbind, kemit, thread_create, kbind, kemit, kstop. simpl.
    rewrite T, C.
    destruct (thread_create_ret env (thread_create_calls s)) as [t|];
      simpl; eexists; eexists; eexists;
      (split; [reflexivity|]); simpl; rewrite <- !app_assoc; simpl;
      (split; [reflexivity|]); split; reflexivity.
  - destruct R as [f [pre [post [-> [R2 [R3 [R4 ->]]]]]]].
    eexists. eexists. eexists. split; [reflexivity|]. rewrite C.
    rewrite <- !app_assoc. simpl. split; [reflexivity|].
    exists f, pre, post. repeat split; assumption.
Qed.

Lemma in_map_constructor (e : KEvent) (l : list nat) :
  In e (map Ev_constructor l) -> is_constructor e = true.
Proof.
  intros H. apply in_map_iff in H. destruct H as [f [<- _]]. reflexivity.
Qed.

(** X22.  On a build without ENABLE_NANDWRITE [kmain] never returns.  It
    ends as the idle thread exactly when every constructor came back and
    [thread_create] gave a thread for [bootstrap2]; it panics exactly when
    every constructor came back and [thread_create] gave NULL, and then
    nothing was resumed.  The heap is initialised only after all
    constructors have run, and interrupts are enabled only after the
    [bootstrap2] thread was created and resumed. *)
Theorem kmain_hands_over (ctors : list nat) (s : KState) :
  ENABLE_NANDWRITE cfg = false ->
  exists o s' new,
    kmain cfg env ctors s = KStop o s' /\
    calls s' = calls s ++ new /\
    (o = Idle <->
     forallb (returns env) ctors = true /\
     thread_create_ret env (thread_create_calls s) <> None) /\
    (o = Panicked <->
     forallb (returns env) ctors = true /\
     thread_create_ret env (thread_create_calls s) = None) /\
    (o = Panicked -> threads_resumed new = []) /\
    (In Ev_heap_init new ->
     exists rest,
       new = kmain_early ++ map Ev_constructor ctors ++ Ev_heap_init :: rest /\
       forallb (fun e => negb (is_constructor e)) rest = true) /\
    (In Ev_exit_critical_section new ->
     exists t pre,
       thread_create_ret env (thread_create_calls s) = Some t /\
       new = pre ++ kmain_handover t).
Proof.
  intros Hn. destruct (kmain_run ctors s Hn) as [o [s' [new [E [C R]]]]].
  exists o, s', new. split; [exact E|]. split; [exact C|].
  destruct (forallb (returns env) ctors).
  - destruct (thread_create_ret env (thread_create_calls s)) as [t|];
      destruct R as [-> ->].
    + split; [split; [intros _; split; [reflexivity | discriminate]
                     | reflexivity]|].
      split; [split; [discriminate | intros [_ H]; discriminate]|].
      split; [discriminate|]. split.
      * intros _. eexists. split; [reflexivity|]. reflexivity.
      * intros _. exists t. eexists. split; [reflexivity|].
        rewrite !app_assoc. reflexivity.
    + split; [split; [discriminate | intros [_ H]; congruence]|].
      split; [split; [intros _; split; reflexivity | reflexivity]|].
      split.
      * intros _. rewrite !threads_resumed_app.
        replace (threads_resumed (map Ev_constructor ctors)) with (@nil nat);
          [reflexivity|].
        clear. induction ctors as [|f tl IH]; [reflexivity | exact IH].
      * split.
        -- intros _. eexists. split; [reflexivity|]. reflexivity.
        -- intros H. exfalso.
           apply in_app_or in H. destruct H as [H|H];
             [simpl in H; intuition discriminate|].
           apply in_app_or in H. destruct H as [H|H];
             [apply in_map_constructor in H; discriminate|].
           simpl in H. intuition discriminate.
  - destruct R as [f [pre [post [-> [R2 [R3 ->]]]]]].
    split; [split; [discriminate | intros [H _]; discriminate]|].
    split; [split; [discriminate | intros [H _]; discriminate]|].
    split; [discriminate|].
    split; intros H; exfalso;
      (apply in_app_or in H; destruct H as [H|H];
       [simpl in H; intuition discriminate
       |apply in_map_constructor in H; discriminate]).
Qed.

End KernelFacts.

Section KernelInstances.
Import Kernel.

Lemma apps_init_starts_witness :
  let env := sample_kenv 0 (fun _ => None) in
  exists s' new,
    apps_init sample_kcfg env sample_apps sample_kstate = KNext tt s' /\
    calls s' = calls sample_kstate ++ new /\
    inits_called new = filter has_init sample_apps /\
    threads_created new = started sample_kcfg sample_apps /\
    threads_resumed new =
      created_from env (thread_create_calls sample_kstate)
                   (List.length (started sample_kcfg sample_apps)).
Proof.
  intros env. apply apps_init_starts. reflexivity.
Defined.

Lemma apps_init_init_takes_over_witness :
  let env := sample_kenv 1 (fun k => Some k) in
  exists func pre app post s' new,
    sample_apps = pre ++ app :: post /\
    init app = Some func /\ returns env func = false /\
    inits_return env pre = true /\
    apps_init sample_kcfg env sample_apps sample_kstate =
      KStop (Left func) s' /\
    calls s' = calls sample_kstate ++ new /\
    inits_called new = filter has_init pre ++ [app] /\
    threads_created new = [].
Proof.
  intros env. apply apps_init_init_takes_over. reflexivity.
Defined.

Lemma started_threads_have_entry_witness :
  let env := sample_kenv 0 (fun k => Some k) in
  exists new,
    calls (kfinal (apps_init sample_kcfg env sample_apps sample_kstate)) =
      calls sample_kstate ++ new /\
    forall body, In body (threads_created new) ->
      exists app func,
        body = Body_app_thread_entry app /\
        In app sample_apps /\
        entry app = Some func /\
        Z.testbit (flags app) 0 = false /\
        forall s2,
          app_thread_entry env app s2 =
          if returns env func
          then KNext 0 (logged (Ev_app_entry func app) s2)
          else KStop (Left func) (logged (Ev_app_entry func app) s2).
Proof.
  intros env.
  apply (started_threads_have_entry sample_kcfg env 0); [lia | reflexivity].
Defined.

Lemma kmain_hands_over_witness :
  let env := sample_kenv 0 (fun _ => None) in
  exists o s' new,
    kmain sample_kcfg env [5%nat; 6%nat] sample_kstate = KStop o s' /\
    calls s' = calls sample_kstate ++ new /\
    (o = Idle <->
     forallb (returns env) [5%nat; 6%nat] = true /\
     thread_create_ret env (thread_create_calls sample_kstate) <> None) /\
    (o = Panicked <->
     forallb (returns env) [5%nat; 6%nat] = true /\
     thread_create_ret env (thread_create_calls sample_kstate) = None) /\
    (o = Panicked -> threads_resumed new = []) /\
    (In Ev_heap_init new ->
     exists rest,
       new = kmain_early ++ map Ev_constructor [5%nat; 6%nat]
             ++ Ev_heap_init :: rest /\
       forallb (fun e => negb (is_constructor e)) rest = true) /\
    (In Ev_exit_critical_section new ->
     exists t pre,
       thread_create_ret env (thread_create_calls sample_kstate) = Some t /\
       new = pre ++ kmain_handover t).
Proof.
  intros env. apply kmain_hands_over. reflexivity.
Defined.

End KernelInstances.

(** ** [aboot_init] as an [init] routine *)

Section AbootAsApp.
Import Kernel.

Variable kcfg : KConfig.
Variable kenv : KEnv.

Lemma inits_return_in (apps : list app_descriptor) (app : app_descriptor)
    (func : nat) :
  inits_return kenv apps = true ->
  In app apps -> init app = Some func -> returns kenv func = true.
Proof.
  unfold inits_return. rewrite forallb_forall. intros H Hin Hi.
  specialize (H app Hin). rewrite Hi in H. exact H.
Qed.

Lemma apps_init_threads_need_inits
    (apps : list app_descriptor) (s : KState) (new : list KEvent) :
  calls (kfinal (apps_init kcfg kenv apps s)) = calls s ++ new ->
  threads_created new <> [] ->
  inits_return kenv apps = true.
Proof.
  intros C Hne. destruct (inits_return kenv apps) eqn:Hr; [reflexivity|].
  exfalso. apply Hne. revert C. unfold apps_init. rewrite kfinal_kbind.
  destruct (init_loop_run kenv apps s) as [inits [Ci [_ [F R]]]].
  rewrite Hr in R. destruct R as [f [pre [a [post [R1 _]]]]].
  rewrite R1 in *. simpl in *. rewrite Ci. intros H.
  apply app_inv_head in H. subst new. apply (app_init_only inits F).
Qed.

(** X23.  With [aboot_init] as the [init] routine of one of the
    applications, [apps_init] creates a thread for an application only in
    a boot in which [aboot_init] decided for fastboot: when [aboot_init]
    starts a kernel, resets into emergency download, halts or hangs, no
    application thread is ever created. *)
Theorem app_threads_only_in_fastboot
    (cfg : Config) (env : Env) (s0 : State)
    (apps : list app_descriptor) (aboot : app_descriptor) (func : nat)
    (s : KState) (new : list KEvent) :
  In aboot apps ->
  init aboot = Some func ->
  returns kenv func = aboot_init_returns cfg env s0 ->
  calls (kfinal (apps_init kcfg kenv apps s)) = calls s ++ new ->
  threads_created new <> [] ->
  decision_of (aboot_init cfg env s0) = Some EnterFastboot.
Proof.
  intros Hin Hi Hret C Hne.
  pose proof (apps_init_threads_need_inits apps s new C Hne) as Hr.
  pose proof (inits_return_in apps aboot func Hr Hin Hi) as Hf.
  rewrite Hret in Hf. unfold aboot_init_returns in Hf.
  destruct (aboot_init cfg env s0); [reflexivity | discriminate].
Qed.

End AbootAsApp.

Lemma app_threads_only_in_fastboot_witness :
  decision_of
    (aboot_init (sample_cfg true 2)
       (sample_env false [] true NORMAL_MODE true 0 (fun _ => KernelRuns))
       sample_state) = Some EnterFastboot.
Proof.
  apply (app_threads_only_in_fastboot Kernel.sample_kcfg
           (Kernel.sample_kenv 0 (fun k => Some k))
           (sample_cfg true 2)
           (sample_env false [] true NORMAL_MODE true 0
                       (fun _ => KernelRuns))
           sample_state Kernel.sample_apps
           (Kernel.mkApp "aboot" (Some 1%nat) None 0) 1
           Kernel.sample_kstate
           [Kernel.Ev_app_init 1 (Kernel.mkApp "aboot" (Some 1%nat) None 0);
            Kernel.Ev_app_init 2
              (Kernel.mkApp "shell" (Some 2%nat) (Some 3%nat) 0);
            Kernel.Ev_thread_create "shell"
              (Kernel.Body_app_thread_entry
                 (Kernel.mkApp "shell" (Some 2%nat) (Some 3%nat) 0));
            Kernel.Ev_thread_resume 0]).
  - left. reflexivity.
  - reflexivity.
  - reflexivity.
  - reflexivity.
  - discriminate.
Defined.

